(** * polymarket-agent: the paper-trading ledger and the risk gate

    A shallow embedding of the engine (BalanceManager, PositionTracker,
    TradeExecutor, PortfolioManager) and of the agent's pure decision code
    (MarketAnalyzer, RiskManager), followed by the properties the
    specification states about them.

    Conventions of the embedding.
    - A JavaScript [number] is an element of a [JSNumber] structure: the
      arithmetic and the comparisons the code uses, nothing more.  Two
      structures are given: exact rationals ([QNum]) and IEEE-754 binary64
      ([F64], on the Standard Library's [spec_float]).  Properties that only
      depend on control flow are proved for every structure; properties
      that need algebra are proved for the exact one.
    - Built-ins whose text-level behaviour the code does not define
      ([JSON.parse], [JSON.stringify], [Date.parse], number formatting) are
      the fields of a [Platform]; [uuidv4()], [new Date()] and
      [Math.random()] results are explicit arguments.
    - A method that mutates [this] takes the state and returns the new one. *)

From Stdlib Require Import ZArith QArith Qminmax Qabs Lqa Lia Bool List String Ascii.
From Stdlib Require Import DecimalString Qround.
From Stdlib Require Import Floats.SpecFloat.
Import ListNotations.

Set Implicit Arguments.
Set Warnings "-register-all".


Declare Scope js_scope.
Delimit Scope js_scope with js.

(* ================================================================== *)
(** * JavaScript numbers *)
(* ================================================================== *)

(** The operations on [number] that the sources use.  [ltb a b] is [a < b],
    [leb a b] is [a <= b] and [eqb a b] is [a === b]; [a > b] and [a >= b]
    are the same tests with the operands exchanged, as in the language.  [truthy] is [ToBoolean].
    [json_number] is what [JSON.stringify] followed by [JSON.parse] makes of
    a number ([None] stands for [null]); [time_clip] is the time value
    [new Date(n)] stores ([None] for an invalid date);
    [same_value_zero] is the key comparison of [Map]. *)
Class JSNumber : Type := {
  number : Type;
  of_Z : Z -> number;
  lit : Z -> nat -> number;
  add : number -> number -> number;
  sub : number -> number -> number;
  mul : number -> number -> number;
  div : number -> number -> number;
  Math_abs : number -> number;
  Math_min : number -> number -> number;
  Math_max : number -> number -> number;
  ltb : number -> number -> bool;
  leb : number -> number -> bool;
  eqb : number -> number -> bool;
  truthy : number -> bool;
  json_number : number -> option number;
  time_clip : number -> option Z;
  same_value_zero : number -> number -> bool
}.

Definition gtb {N : JSNumber} (a b : number) : bool := ltb b a.
Definition geb {N : JSNumber} (a b : number) : bool := leb b a.

Infix "+" := add : js_scope.
Infix "-" := sub : js_scope.
Infix "*" := mul : js_scope.
Infix "/" := div : js_scope.
Infix "<?" := ltb : js_scope.
Infix "<=?" := leb : js_scope.
Infix ">?" := gtb : js_scope.
Infix ">=?" := geb : js_scope.
Infix "=?" := eqb : js_scope.

(** The two facts about the comparisons that the properties below rely
    on; they hold of exact rationals and of binary64, [NaN] included. *)
Class JSNumberLaws (N : JSNumber) : Prop := {
  ltb_leb_false : forall a b : number, ltb a b = true -> leb b a = false;
  eqb_leb : forall a b : number, eqb a b = true -> leb a b = true
}.

(** Three more facts about the comparisons, for the properties of a sell
    of all the shares held and of a buy at a negative cost; they too hold
    of exact rationals and of binary64, [NaN] included. *)
Class JSNumberOrder (N : JSNumber) : Prop := {
  ltb_irrefl : forall a : number, ltb a a = false;
  falsy_not_positive :
    forall a : number, truthy a = false -> ltb (of_Z 0) a = false;
  negative_leb_nonnegative :
    forall a c : number,
      ltb a (of_Z 0) = true -> leb (of_Z 0) c = true -> leb a c = true
}.

(** [x || 0] on numbers. *)
Definition or_zero {N : JSNumber} (x : number) : number :=
  if truthy x then x else of_Z 0.

(** ** Exact rationals

    Decimal literals denote themselves.  [Qdiv] yields 0 at a zero divisor,
    where the language yields [NaN] or an infinity: the exact structure has
    no such values, so a quotient by zero is outside what it models. *)
Module QNumber.

(** The decimal literal [m * 10^-k]. *)
Definition lit (m : Z) (k : nat) : Q := Qmake m (Z.to_pos (10 ^ Z.of_nat k)).

Definition ltb (a b : Q) : bool := negb (Qle_bool b a).

Definition truthy (a : Q) : bool := negb (Qeq_bool a 0).

(** 8.64e15, the largest time value. *)
Definition max_time : Z := 8640000000000000.

Definition time_clip (a : Q) : option Z :=
  if Qle_bool (Qabs a) (inject_Z max_time)
  then Some (Z.quot (Qnum a) (Zpos (Qden a)))
  else None.

End QNumber.

#[export] Instance QNum : JSNumber | 0 := {|
  number := Q;
  of_Z := inject_Z;
  lit := QNumber.lit;
  add := Qplus;
  sub := Qminus;
  mul := Qmult;
  div := Qdiv;
  Math_abs := Qabs;
  Math_min := Qmin;
  Math_max := Qmax;
  ltb := QNumber.ltb;
  leb := Qle_bool;
  eqb := Qeq_bool;
  truthy := QNumber.truthy;
  json_number := fun q => Some q;
  time_clip := QNumber.time_clip;
  same_value_zero := Qeq_bool
|}.

(** ** IEEE-754 binary64

    The numbers of the language itself, on the Standard Library's
    executable specification of binary64 (round to nearest, ties to even). *)
Module F64.

Definition prec : Z := 53.
Definition emax : Z := 1024.

Definition of_Z (z : Z) : spec_float := binary_normalize prec emax z 0 false.

(** A decimal literal is the double nearest to it: for the short literals
    of the sources both [m] and [10^k] are doubles, and the quotient of
    two doubles is rounded once. *)
Definition lit (m : Z) (k : nat) : spec_float :=
  match k with
  | O => of_Z m
  | S _ => SFdiv prec emax (of_Z m) (of_Z (10 ^ Z.of_nat k))
  end.

Definition ltb : spec_float -> spec_float -> bool := SFltb.
Definition leb : spec_float -> spec_float -> bool := SFleb.

Definition Math_max (a b : spec_float) : spec_float :=
  match SFcompare a b with
  | None => S754_nan
  | Some Lt => b
  | Some Gt => a
  | Some Eq =>
      match a, b with
      | S754_zero sa, S754_zero sb => S754_zero (sa && sb)
      | _, _ => a
      end
  end.

Definition Math_min (a b : spec_float) : spec_float :=
  match SFcompare a b with
  | None => S754_nan
  | Some Lt => a
  | Some Gt => b
  | Some Eq =>
      match a, b with
      | S754_zero sa, S754_zero sb => S754_zero (sa || sb)
      | _, _ => a
      end
  end.

Definition truthy (a : spec_float) : bool :=
  match a with
  | S754_zero _ | S754_nan => false
  | _ => true
  end.

Definition json_number (a : spec_float) : option spec_float :=
  match a with
  | S754_zero _ => Some (S754_zero false)
  | S754_finite _ _ _ => Some a
  | S754_infinity _ | S754_nan => None
  end.

(** [TimeClip(ToIntegerOrInfinity(a))]: the magnitude [m * 2^e] truncated
    toward zero, unless it exceeds 8.64e15. *)
Definition time_clip (a : spec_float) : option Z :=
  match a with
  | S754_zero _ => Some 0%Z
  | S754_finite s m e =>
      let t := if (0 <=? e)%Z then Z.shiftl (Zpos m) e
               else Z.shiftr (Zpos m) (- e) in
      let exact := (0 <=? e)%Z || (Z.shiftl t (- e) =? Zpos m)%Z in
      if (t <? QNumber.max_time)%Z || ((t =? QNumber.max_time)%Z && exact)
      then Some (if s then (- t)%Z else t)
      else None
  | S754_infinity _ | S754_nan => None
  end.

Definition same_value_zero (a b : spec_float) : bool :=
  match a, b with
  | S754_nan, S754_nan => true
  | _, _ => SFeqb a b
  end.

End F64.

#[export] Instance F64Num : JSNumber | 9 := {|
  number := spec_float;
  of_Z := F64.of_Z;
  lit := F64.lit;
  add := SFadd F64.prec F64.emax;
  sub := SFsub F64.prec F64.emax;
  mul := SFmul F64.prec F64.emax;
  div := SFdiv F64.prec F64.emax;
  Math_abs := SFabs;
  Math_min := F64.Math_min;
  Math_max := F64.Math_max;
  ltb := F64.ltb;
  leb := F64.leb;
  eqb := SFeqb;
  truthy := F64.truthy;
  json_number := F64.json_number;
  time_clip := F64.time_clip;
  same_value_zero := F64.same_value_zero
|}.

(* ================================================================== *)
(** * Values of the run-time: dates, JSON trees, objects *)
(* ================================================================== *)

(** A [Date] holds a time value in milliseconds, or is an Invalid Date. *)
Inductive Date : Type :=
| ValidDate (ms : Z)
| InvalidDate.

(** What [JSON.parse] returns. The fields of a [JObj] are in the order
    the language enumerates them; a [string] is a sequence of characters. *)
Inductive json {N : JSNumber} : Type :=
| JNull
| JBool (b : bool)
| JNum (n : number)
| JStr (s : string)
| JArr (l : list json)
| JObj (fields : list (string * json)).

(** The built-ins the sources call and do not define. [JSON_parse] is [None]
    where [JSON.parse] throws a SyntaxError; [JSON_stringify] prints a tree;
    [Date_parse s] is [new Date(s)] on a string. *)
Class Platform {N : JSNumber} : Type := {
  Number_toString : number -> string;
  Number_toFixed : nat -> number -> string;
  JSON_parse : string -> option json;
  JSON_stringify : json -> string;
  Date_parse : string -> Date;
  Date_toISOString : Z -> string
}.

(** Abrupt and normal completion of a statement or call. *)
Inductive completion (A : Type) : Type :=
| Normal (a : A)
| Throw (error : string).
Arguments Normal {A} a.
Arguments Throw {A} error.

(** [try { body } catch { handler }], both yielding the state. *)
Definition try_catch {A : Type} (body : completion A) (handler : A) : completion A :=
  match body with
  | Normal a => Normal a
  | Throw _ => Normal handler
  end.

Definition bind {A B : Type} (c : completion A) (k : A -> completion B) : completion B :=
  match c with
  | Normal a => k a
  | Throw e => Throw e
  end.

Notation "x <- c ;; k" := (bind c (fun x => k))
  (at level 61, c at next level, right associativity).

Fixpoint mapM {A B : Type} (f : A -> completion B) (l : list A) : completion (list B) :=
  match l with
  | [] => Normal []
  | a :: l' => b <- f a ;; bs <- mapM f l' ;; Normal (b :: bs)
  end.

(** ** Insertion-ordered maps: [Map] and own properties of an object

    An association list without repeated keys, in insertion order:
    [set] on a present key replaces the value in place, on an absent key
    appends. *)
Module Assoc.
Section Assoc.
Variables (K V : Type) (eqb : K -> K -> bool).

Fixpoint get (k : K) (m : list (K * V)) : option V :=
  match m with
  | [] => None
  | (k', v) :: m' => if eqb k k' then Some v else get k m'
  end.

Fixpoint set (k : K) (v : V) (m : list (K * V)) : list (K * V) :=
  match m with
  | [] => [(k, v)]
  | (k', v') :: m' =>
      if eqb k k' then (k', v) :: m' else (k', v') :: set k v m'
  end.

Definition delete (k : K) (m : list (K * V)) : list (K * V) :=
  filter (fun kv => negb (eqb k (fst kv))) m.

(** [new Map(entries)]. *)
Definition of_entries (es : list (K * V)) : list (K * V) :=
  fold_left (fun m e => set (fst e) (snd e) m) es [].
End Assoc.
End Assoc.

Section Objects.
Context {N : JSNumber} {P : Platform}.

(** The value of a property of an object built by a [restore]: a JSON
    tree copied from the parsed input, or a [Date]. *)
Inductive prop : Type :=
| PJson (j : json)
| PDate (d : Date).

Definition object : Type := list (string * prop).

Definition get_own (k : string) (o : object) : option prop :=
  Assoc.get String.eqb k o.

Definition set_own (k : string) (v : prop) (o : object) : object :=
  Assoc.set String.eqb k v o.

(** The decimal index keys ["0"], ["1"], ... of a string or an array. *)
Definition index_key (i : nat) : string :=
  NilZero.string_of_uint (Nat.to_uint i).

Fixpoint indexed {A : Type} (i : nat) (l : list A) : list (string * A) :=
  match l with
  | [] => []
  | a :: l' => (index_key i, a) :: indexed (S i) l'
  end.

Fixpoint chars (s : string) : list string :=
  match s with
  | EmptyString => []
  | String c s' => String c EmptyString :: chars s'
  end.

(** [{ ...x }] for [x] a parsed value or [undefined] ([None]). *)
Definition spread (x : option json) : object :=
  match x with
  | Some (JObj fields) => map (fun kv => (fst kv, PJson (snd kv))) fields
  | Some (JArr l) => indexed 0 (map PJson l)
  | Some (JStr s) => indexed 0 (map (fun c => PJson (JStr c)) (chars s))
  | _ => []
  end.

(** [x.k] for [k] one of the property names the sources read
    ([balance], [positions], [trades], [lastUpdated], [openedAt],
    [timestamp]), none of which a prototype defines: a TypeError on
    [null] and [undefined], the own property of an object, [undefined]
    ([None]) on every other value. *)
Definition get_field (x : option json) (k : string) : completion (option json) :=
  match x with
  | None | Some JNull => Throw "TypeError"
  | Some (JObj fields) => Normal (Assoc.get String.eqb k fields)
  | Some _ => Normal None
  end.

(** [ToBoolean]. *)
Definition to_boolean (x : option json) : bool :=
  match x with
  | None | Some JNull => false
  | Some (JBool b) => b
  | Some (JNum n) => truthy n
  | Some (JStr s) => negb (String.eqb s EmptyString)
  | Some (JArr _) | Some (JObj _) => true
  end.

(** [ToString]. *)
Fixpoint to_string (x : json) : string :=
  match x with
  | JNull => "null"
  | JBool true => "true"
  | JBool false => "false"
  | JNum n => Number_toString n
  | JStr s => s
  | JArr l =>
      String.concat ","
        (map (fun e => match e with JNull => EmptyString | _ => to_string e end) l)
  | JObj _ => "[object Object]"
  end.

(** [JSON.parse(x)]: the argument is converted to a string first. *)
Definition JSON_parse_value (x : json) : completion json :=
  match JSON_parse (to_string x) with
  | Some j => Normal j
  | None => Throw "SyntaxError"
  end.

(** [new Date(x)]. *)
Definition new_Date (x : option json) : Date :=
  match x with
  | None => InvalidDate
  | Some JNull => ValidDate 0
  | Some (JBool b) => ValidDate (if b then 1 else 0)
  | Some (JNum n) =>
      match time_clip n with
      | Some t => ValidDate t
      | None => InvalidDate
      end
  | Some (JStr s) => Date_parse s
  | Some x => Date_parse (to_string x)
  end.

(** What [JSON.stringify] followed by [JSON.parse] makes of a tree:
    a number becomes [json_number] of it. *)
Fixpoint json_norm (x : json) : json :=
  match x with
  | JNum n => match json_number n with Some n' => JNum n' | None => JNull end
  | JArr l => JArr (map json_norm l)
  | JObj fields => JObj (map (fun kv => (fst kv, json_norm (snd kv))) fields)
  | _ => x
  end.

(** The tree [JSON.stringify] prints for a property value: a [Date]
    prints as its ISO string, an Invalid Date as [null]. *)
Definition prop_to_json (p : prop) : json :=
  match p with
  | PJson j => json_norm j
  | PDate (ValidDate t) => JStr (Date_toISOString t)
  | PDate InvalidDate => JNull
  end.

Definition object_to_json (o : object) : json :=
  JObj (map (fun kv => (fst kv, prop_to_json (snd kv))) o).

End Objects.

(* ================================================================== *)
(** * Engine types (engine/types.ts) *)
(* ================================================================== *)

Inductive Side : Type := BUY | SELL.

Module VirtualBalance.
Record t {N : JSNumber} : Type := mk {
  cash : number;
  totalValue : number;
  initialBalance : number;
  lastUpdated : Date
}.
End VirtualBalance.

Module Position.
Record t {N : JSNumber} : Type := mk {
  id : string;
  marketId : string;
  marketQuestion : string;
  tokenId : string;
  outcome : string;
  shares : number;
  avgPrice : number;
  currentPrice : number;
  unrealizedPnL : number;
  openedAt : Date
}.
End Position.

Module Trade.
Record t {N : JSNumber} : Type := mk {
  id : string;
  timestamp : Date;
  marketId : string;
  marketQuestion : string;
  tokenId : string;
  outcome : string;
  side : Side;
  shares : number;
  price : number;
  totalCost : number;
  fees : number;
  realizedPnL : option number
}.
End Trade.

Module OrderRequest.
Record t {N : JSNumber} : Type := mk {
  marketId : string;
  marketQuestion : string;
  tokenId : string;
  outcome : string;
  side : Side;
  shares : number;
  price : number
}.
End OrderRequest.

Module OrderResult.
Record t {N : JSNumber} : Type := mk {
  success : bool;
  trade : option Trade.t;
  error : option string;
  newBalance : option number
}.
End OrderResult.

Module PortfolioSummary.
Record t {N : JSNumber} : Type := mk {
  cash : number;
  positionsValue : number;
  totalValue : number;
  totalPnL : number;
  totalPnLPercent : number;
  positionCount : number;
  tradeCount : number;
  winRate : number
}.
End PortfolioSummary.

(** [array.length] and [map.size] as a number. *)
Definition length_number {N : JSNumber} {A : Type} (l : list A) : number :=
  of_Z (Z.of_nat (List.length l)).

(** ** Array and string methods

    [array.slice(start, end)] for integers [start] and [end] ([None] for
    an omitted [end]): a negative index counts from the end of the
    array, and both are clamped to its bounds. *)
Definition slice {A : Type} (start : Z) (end_ : option Z) (l : list A) : list A :=
  let len := Z.of_nat (List.length l) in
  let clamp := fun i : Z =>
    if (i <? 0)%Z then Z.max (len + i) 0 else Z.min i len in
  let k := clamp start in
  let final := match end_ with Some e => clamp e | None => len end in
  firstn (Z.to_nat (final - k)) (skipn (Z.to_nat k) l).

(** [array.sort(compare)].  The sort of the language is stable, and for a
    comparator that orders the elements consistently its result is the
    one sorted arrangement that keeps equal elements in their order;
    inserting the elements one by one, each behind the elements that do
    not have to follow it, computes that arrangement.  (The name [sort]
    is taken by the Standard Library.) *)
Section Sort.
Context {N : JSNumber} {A : Type}.
Variable compare : A -> A -> number.

Fixpoint insert_sorted (x : A) (l : list A) : list A :=
  match l with
  | [] => [x]
  | y :: l' =>
      if gtb (compare y x) (of_Z 0) then x :: l else y :: insert_sorted x l'
  end.

Definition array_sort (l : list A) : list A :=
  fold_left (fun sorted x => insert_sorted x sorted) l [].

End Sort.

(** [s.toLowerCase()] on the letters A to Z.  The sources compare its
    result with ['yes'] and ['no'] only, and no character outside A to Z
    has one of the letters of these two words as its lower case. *)
Definition lower_case (c : ascii) : ascii :=
  let n := nat_of_ascii c in
  if Nat.leb 65 n && Nat.leb n 90 then ascii_of_nat (n + 32) else c.

Fixpoint toLowerCase (s : string) : string :=
  match s with
  | EmptyString => EmptyString
  | String c s' => String (lower_case c) (toLowerCase s')
  end.

(* ================================================================== *)
(** * BalanceManager (engine/balance.ts) *)
(* ================================================================== *)

Module BalanceManager.
Section BalanceManager.
Context {N : JSNumber} {P : Platform}.
Import VirtualBalance.
Local Open Scope js_scope.

Definition DEFAULT_INITIAL_BALANCE : number := of_Z 100000.

(** [new BalanceManager(initialBalance)]; [env_INITIAL_BALANCE] is
    [Number(process.env.INITIAL_BALANCE)] and [now] is [new Date()]. *)
Definition new (initialBalance : option number)
    (env_INITIAL_BALANCE : number) (now : Date) : VirtualBalance.t :=
  let initial :=
    match initialBalance with
    | Some b =>
        if truthy b then b
        else if truthy env_INITIAL_BALANCE then env_INITIAL_BALANCE
        else DEFAULT_INITIAL_BALANCE
    | None =>
        if truthy env_INITIAL_BALANCE then env_INITIAL_BALANCE
        else DEFAULT_INITIAL_BALANCE
    end in
  {| cash := initial; totalValue := initial;
     initialBalance := initial; lastUpdated := now |}.

Definition getBalance (this : VirtualBalance.t) : VirtualBalance.t := this.

Definition getCash (this : VirtualBalance.t) : number := cash this.

Definition canAfford (this : VirtualBalance.t) (amount : number) : bool :=
  cash this >=? amount.

Definition deductCash (now : Date) (this : VirtualBalance.t) (amount : number)
  : VirtualBalance.t * bool :=
  if negb (canAfford this amount) then (this, false)
  else ({| cash := cash this - amount;
           totalValue := totalValue this;
           initialBalance := initialBalance this;
           lastUpdated := now |}, true).

Definition addCash (now : Date) (this : VirtualBalance.t) (amount : number)
  : VirtualBalance.t :=
  {| cash := cash this + amount;
     totalValue := totalValue this;
     initialBalance := initialBalance this;
     lastUpdated := now |}.

Definition updateTotalValue (now : Date) (this : VirtualBalance.t)
    (positionsValue : number) : VirtualBalance.t :=
  {| cash := cash this;
     totalValue := cash this + positionsValue;
     initialBalance := initialBalance this;
     lastUpdated := now |}.

Definition getPnL (this : VirtualBalance.t) : number * number :=
  let absolute := totalValue this - initialBalance this in
  let percent := (absolute / initialBalance this) * of_Z 100 in
  (absolute, percent).

Definition reset (now : Date) (this : VirtualBalance.t) : VirtualBalance.t :=
  {| cash := initialBalance this;
     totalValue := initialBalance this;
     initialBalance := initialBalance this;
     lastUpdated := now |}.

(** The object a balance record is at run time, its properties in the
    order the constructor writes them. *)
Definition to_object (b : VirtualBalance.t) : object :=
  [ ("cash", PJson (JNum (cash b)));
    ("totalValue", PJson (JNum (totalValue b)));
    ("initialBalance", PJson (JNum (initialBalance b)));
    ("lastUpdated", PDate (lastUpdated b)) ]%string.

(** [serialize] and [restore] on [this.balance] as the object it is:
    [restore] assigns whatever the parsed text spreads to. *)
Definition serialize_object (this : object) : string :=
  JSON_stringify (object_to_json this).

Definition serialize (this : VirtualBalance.t) : string :=
  serialize_object (to_object this).

Definition restore (data : json) (this : object) : completion object :=
  try_catch
    (parsed <- JSON_parse_value data ;;
     lastUpdated <- get_field (Some parsed) "lastUpdated" ;;
     Normal (set_own "lastUpdated" (PDate (new_Date lastUpdated))
               (spread (Some parsed))))
    this.

End BalanceManager.
End BalanceManager.

(* ================================================================== *)
(** * PositionTracker (engine/positions.ts) *)
(* ================================================================== *)

Module PositionTracker.
Section PositionTracker.
Context {N : JSNumber} {P : Platform}.
Import Position.
Local Open Scope js_scope.

(** [this.positions], a [Map<string, Position>]. *)
Definition t : Type := list (string * Position.t).

(** The template [`${marketId}-${outcome}`]. *)
Definition key (marketId outcome : string) : string :=
  (marketId ++ "-" ++ outcome)%string.

Definition get (k : string) (this : t) : option Position.t :=
  Assoc.get String.eqb k this.

Definition getAllPositions (this : t) : list Position.t := map snd this.

Definition getPosition (this : t) (marketId outcome : string)
  : option Position.t :=
  get (key marketId outcome) this.

(** [uuid] and [now] are the results of [uuidv4()] and [new Date()],
    which only the creation of a position calls. *)
Definition addPosition (uuid : string) (now : Date) (this : t)
    (order : OrderRequest.t) (shares price : number) : t * Position.t :=
  let key := key (OrderRequest.marketId order) (OrderRequest.outcome order) in
  match get key this with
  | Some existing =>
      let totalShares := Position.shares existing + shares in
      let totalCost :=
        (Position.shares existing * avgPrice existing) + (shares * price) in
      let newAvgPrice := totalCost / totalShares in
      let existing' :=
        {| id := id existing;
           marketId := marketId existing;
           marketQuestion := marketQuestion existing;
           tokenId := tokenId existing;
           outcome := outcome existing;
           Position.shares := totalShares;
           avgPrice := newAvgPrice;
           currentPrice := price;
           unrealizedPnL := (price - newAvgPrice) * totalShares;
           openedAt := openedAt existing |} in
      (Assoc.set String.eqb key existing' this, existing')
  | None =>
      let position :=
        {| id := uuid;
           marketId := OrderRequest.marketId order;
           marketQuestion := OrderRequest.marketQuestion order;
           tokenId := OrderRequest.tokenId order;
           outcome := OrderRequest.outcome order;
           Position.shares := shares;
           avgPrice := price;
           currentPrice := price;
           unrealizedPnL := of_Z 0;
           openedAt := now |} in
      (Assoc.set String.eqb key position this, position)
  end.

Record reduced : Type := mk_reduced {
  success : bool;
  realizedPnL : number;
  remainingShares : number
}.

Definition reducePosition (this : t) (marketId outcome : string)
    (shares sellPrice : number) : t * reduced :=
  let key := key marketId outcome in
  match get key this with
  | None =>
      (this, {| success := false; realizedPnL := of_Z 0;
                remainingShares := of_Z 0 |})
  | Some position =>
      if Position.shares position <? shares then
        (this, {| success := false; realizedPnL := of_Z 0;
                  remainingShares := or_zero (Position.shares position) |})
      else
        let realizedPnL := (sellPrice - avgPrice position) * shares in
        let shares' := Position.shares position - shares in
        if shares' <=? of_Z 0 then
          (Assoc.delete String.eqb key this,
           {| success := true; realizedPnL := realizedPnL;
              remainingShares := of_Z 0 |})
        else
          let position' :=
            {| id := id position;
               marketId := Position.marketId position;
               marketQuestion := marketQuestion position;
               tokenId := tokenId position;
               outcome := Position.outcome position;
               Position.shares := shares';
               avgPrice := avgPrice position;
               currentPrice := sellPrice;
               unrealizedPnL := (sellPrice - avgPrice position) * shares';
               openedAt := openedAt position |} in
          (Assoc.set String.eqb key position' this,
           {| success := true; realizedPnL := realizedPnL;
              remainingShares := shares' |})
  end.

(** [prices] is the [Map<string, number>] of fresh prices by token. *)
Definition updatePrices (this : t) (prices : list (string * number)) : t :=
  map (fun kp =>
         let position := snd kp in
         match Assoc.get String.eqb (tokenId position) prices with
         | Some price =>
             (fst kp,
              {| id := id position;
                 marketId := marketId position;
                 marketQuestion := marketQuestion position;
                 tokenId := tokenId position;
                 outcome := outcome position;
                 Position.shares := Position.shares position;
                 avgPrice := avgPrice position;
                 currentPrice := price;
                 unrealizedPnL :=
                   (price - avgPrice position) * Position.shares position;
                 openedAt := openedAt position |})
         | None => kp
         end) this.

Definition getTotalValue (this : t) : number :=
  fold_left (fun total kp =>
               total + Position.shares (snd kp) * currentPrice (snd kp))
            this (of_Z 0).

Definition getTotalUnrealizedPnL (this : t) : number :=
  fold_left (fun total kp => total + unrealizedPnL (snd kp)) this (of_Z 0).

Definition getPositionCount (this : t) : number := length_number this.

Definition hasPosition (this : t) (marketId outcome : string) : bool :=
  match get (key marketId outcome) this with
  | Some _ => true
  | None => false
  end.

Definition getPositionSize (this : t) (marketId outcome : string) : number :=
  match get (key marketId outcome) this with
  | Some position => or_zero (Position.shares position)
  | None => of_Z 0
  end.

Definition clear (this : t) : t := [].

Definition to_object (p : Position.t) : object :=
  [ ("id", PJson (JStr (id p)));
    ("marketId", PJson (JStr (marketId p)));
    ("marketQuestion", PJson (JStr (marketQuestion p)));
    ("tokenId", PJson (JStr (tokenId p)));
    ("outcome", PJson (JStr (outcome p)));
    ("shares", PJson (JNum (Position.shares p)));
    ("avgPrice", PJson (JNum (avgPrice p)));
    ("currentPrice", PJson (JNum (currentPrice p)));
    ("unrealizedPnL", PJson (JNum (unrealizedPnL p)));
    ("openedAt", PDate (openedAt p)) ]%string.

(** [this.positions] as the [Map] it is after a [restore]: a key is
    any parsed value or [undefined] ([None]). *)
Definition entries : Type := list (option json * object).

Definition to_entries (this : t) : entries :=
  map (fun kp => (Some (JStr (fst kp)), to_object (snd kp))) this.

(** SameValueZero on keys taken from a parsed array: two objects or
    arrays are two different nodes of the parsed tree. *)
Definition same_key (a b : option json) : bool :=
  match a, b with
  | None, None => true
  | Some JNull, Some JNull => true
  | Some (JBool x), Some (JBool y) => Bool.eqb x y
  | Some (JNum x), Some (JNum y) => same_value_zero x y
  | Some (JStr x), Some (JStr y) => String.eqb x y
  | _, _ => false
  end.

(** An [undefined] element of an array prints as [null]. *)
Definition key_to_json (k : option json) : json :=
  match k with
  | Some j => json_norm j
  | None => JNull
  end.

Definition serialize_entries (this : entries) : string :=
  JSON_stringify
    (JArr (map (fun kp => JArr [key_to_json (fst kp); object_to_json (snd kp)])
               this)).

Definition serialize (this : t) : string :=
  serialize_entries (to_entries this).

(** [parsed.map(f)]: only an array has a [map] method. *)
Definition array_map {A : Type} (f : json -> completion A) (parsed : json)
  : completion (list A) :=
  match parsed with
  | JArr l => mapM f l
  | _ => Throw "TypeError"
  end.

(** The parameter pattern [[key, pos]]: the first two elements of an
    array, the first two characters of a string, a TypeError on a
    value that is not iterable. *)
Definition destructure_pair (e : json)
  : completion (option json * option json) :=
  match e with
  | JArr l => Normal (nth_error l 0, nth_error l 1)
  | JStr s =>
      let cs := map JStr (chars s) in
      Normal (nth_error cs 0, nth_error cs 1)
  | _ => Throw "TypeError"
  end.

Definition restore_entry (e : json) : completion (option json * object) :=
  kp <- destructure_pair e ;;
  openedAt <- get_field (snd kp) "openedAt" ;;
  Normal (fst kp,
          set_own "openedAt" (PDate (new_Date openedAt)) (spread (snd kp))).

Definition restore (data : json) (this : entries) : completion entries :=
  try_catch
    (parsed <- JSON_parse_value data ;;
     pairs <- array_map restore_entry parsed ;;
     Normal (Assoc.of_entries same_key pairs))
    this.

End PositionTracker.
End PositionTracker.

(* ================================================================== *)
(** * TradeExecutor (engine/trades.ts) *)
(* ================================================================== *)

(** The results of the [new Date()] and [uuidv4()] calls one [execute]
    can make, named after the place of the call. *)
Record Env : Type := {
  now_balance : Date;      (* BalanceManager: lastUpdated *)
  uuid_position : string;  (* PositionTracker.addPosition: id *)
  now_position : Date;     (* PositionTracker.addPosition: openedAt *)
  uuid_trade : string;     (* TradeExecutor: trade.id *)
  now_trade : Date         (* TradeExecutor: trade.timestamp *)
}.

Module TradeExecutor.
Section TradeExecutor.
Context {N : JSNumber} {P : Platform}.
Local Open Scope js_scope.

Definition FEE_RATE : number := lit 1 3.

(** The executor's history with the two managers it was built on. *)
Record t : Type := mk {
  balanceManager : VirtualBalance.t;
  positionTracker : PositionTracker.t;
  history : list Trade.t
}.

Definition failure (message : string) : OrderResult.t :=
  {| OrderResult.success := false;
     OrderResult.trade := None;
     OrderResult.error := Some message;
     OrderResult.newBalance := None |}.

Definition insufficient_funds (totalWithFees cash : number) : string :=
  ("Insufficient funds. Need $" ++ Number_toFixed 2 totalWithFees
     ++ ", have $" ++ Number_toFixed 2 cash)%string.

Definition insufficient_shares (positionSize shares : number) : string :=
  ("Insufficient shares. Have " ++ Number_toString positionSize
     ++ ", trying to sell " ++ Number_toString shares)%string.

Definition executeBuy (env : Env) (this : t) (order : OrderRequest.t)
  : t * OrderResult.t :=
  let totalCost := OrderRequest.shares order * OrderRequest.price order in
  let fees := totalCost * FEE_RATE in
  let totalWithFees := totalCost + fees in
  if negb (BalanceManager.canAfford (balanceManager this) totalWithFees) then
    (this,
     failure (insufficient_funds totalWithFees
                (BalanceManager.getCash (balanceManager this))))
  else
    let balance' :=
      fst (BalanceManager.deductCash (now_balance env)
             (balanceManager this) totalWithFees) in
    let positions' :=
      fst (PositionTracker.addPosition (uuid_position env) (now_position env)
             (positionTracker this) order
             (OrderRequest.shares order) (OrderRequest.price order)) in
    let trade :=
      {| Trade.id := uuid_trade env;
         Trade.timestamp := now_trade env;
         Trade.marketId := OrderRequest.marketId order;
         Trade.marketQuestion := OrderRequest.marketQuestion order;
         Trade.tokenId := OrderRequest.tokenId order;
         Trade.outcome := OrderRequest.outcome order;
         Trade.side := BUY;
         Trade.shares := OrderRequest.shares order;
         Trade.price := OrderRequest.price order;
         Trade.totalCost := totalCost;
         Trade.fees := fees;
         Trade.realizedPnL := None |} in
    ({| balanceManager := balance';
        positionTracker := positions';
        history := history this ++ [trade] |},
     {| OrderResult.success := true;
        OrderResult.trade := Some trade;
        OrderResult.error := None;
        OrderResult.newBalance := Some (BalanceManager.getCash balance') |}).

Definition executeSell (env : Env) (this : t) (order : OrderRequest.t)
  : t * OrderResult.t :=
  let positionSize :=
    PositionTracker.getPositionSize (positionTracker this)
      (OrderRequest.marketId order) (OrderRequest.outcome order) in
  if positionSize <? OrderRequest.shares order then
    (this,
     failure (insufficient_shares positionSize (OrderRequest.shares order)))
  else
    let (positions', result) :=
      PositionTracker.reducePosition (positionTracker this)
        (OrderRequest.marketId order) (OrderRequest.outcome order)
        (OrderRequest.shares order) (OrderRequest.price order) in
    if negb (PositionTracker.success result) then
      ({| balanceManager := balanceManager this;
          positionTracker := positions';
          history := history this |},
       failure "Failed to reduce position")
    else
      let totalProceeds := OrderRequest.shares order * OrderRequest.price order in
      let fees := totalProceeds * FEE_RATE in
      let netProceeds := totalProceeds - fees in
      let balance' :=
        BalanceManager.addCash (now_balance env) (balanceManager this)
          netProceeds in
      let trade :=
        {| Trade.id := uuid_trade env;
           Trade.timestamp := now_trade env;
           Trade.marketId := OrderRequest.marketId order;
           Trade.marketQuestion := OrderRequest.marketQuestion order;
           Trade.tokenId := OrderRequest.tokenId order;
           Trade.outcome := OrderRequest.outcome order;
           Trade.side := SELL;
           Trade.shares := OrderRequest.shares order;
           Trade.price := OrderRequest.price order;
           Trade.totalCost := totalProceeds;
           Trade.fees := fees;
           Trade.realizedPnL := Some (PositionTracker.realizedPnL result) |} in
      ({| balanceManager := balance';
          positionTracker := positions';
          history := history this ++ [trade] |},
       {| OrderResult.success := true;
          OrderResult.trade := Some trade;
          OrderResult.error := None;
          OrderResult.newBalance := Some (BalanceManager.getCash balance') |}).

Definition execute (env : Env) (this : t) (order : OrderRequest.t)
  : t * OrderResult.t :=
  match OrderRequest.side order with
  | BUY => executeBuy env this order
  | SELL => executeSell env this order
  end.

Definition getHistory (this : t) : list Trade.t := history this.

(** [count] is the integer value of the argument, [None] when the
    argument is omitted. *)
Definition getRecentTrades (this : t) (count : option Z) : list Trade.t :=
  let count := match count with Some c => c | None => 10%Z end in
  rev (slice (- count) None (history this)).

Definition getTradeCount (this : t) : number := length_number (history this).

(** [(t.realizedPnL || 0) > 0]. *)
Definition is_win (t : Trade.t) : bool :=
  match Trade.realizedPnL t with
  | Some pnl => or_zero pnl >? of_Z 0
  | None => of_Z 0 >? of_Z 0
  end.

Definition is_sell (t : Trade.t) : bool :=
  match Trade.side t with SELL => true | BUY => false end.

Definition getWinningTradesCount (this : t) : number :=
  length_number (filter (fun t => is_sell t && is_win t) (history this)).

Definition getTotalRealizedPnL (this : t) : number :=
  fold_left (fun sum t =>
               sum + match Trade.realizedPnL t with
                     | Some pnl => or_zero pnl
                     | None => of_Z 0
                     end)
            (history this) (of_Z 0).

Definition getTotalFees (this : t) : number :=
  fold_left (fun sum t => sum + Trade.fees t) (history this) (of_Z 0).

Definition getWinRate (this : t) : number :=
  let sellTrades := filter is_sell (history this) in
  match sellTrades with
  | [] => of_Z 0
  | _ =>
      let winningTrades := filter is_win sellTrades in
      (length_number winningTrades / length_number sellTrades) * of_Z 100
  end.

Definition clear (this : t) : t :=
  {| balanceManager := balanceManager this;
     positionTracker := positionTracker this;
     history := [] |}.

(** A sequence of calls of [execute], with the results in order. *)
Fixpoint run (this : t) (calls : list (Env * OrderRequest.t))
  : t * list OrderResult.t :=
  match calls with
  | [] => (this, [])
  | (env, order) :: calls' =>
      let (this', result) := execute env this order in
      let (final, results) := run this' calls' in
      (final, result :: results)
  end.

Definition side_string (s : Side) : string :=
  match s with BUY => "BUY" | SELL => "SELL" end.

(** A sell records [realizedPnL]; a buy has no such property. *)
Definition to_object (t : Trade.t) : object :=
  List.app
   [ ("id", PJson (JStr (Trade.id t)));
     ("timestamp", PDate (Trade.timestamp t));
     ("marketId", PJson (JStr (Trade.marketId t)));
     ("marketQuestion", PJson (JStr (Trade.marketQuestion t)));
     ("tokenId", PJson (JStr (Trade.tokenId t)));
     ("outcome", PJson (JStr (Trade.outcome t)));
     ("side", PJson (JStr (side_string (Trade.side t))));
     ("shares", PJson (JNum (Trade.shares t)));
     ("price", PJson (JNum (Trade.price t)));
     ("totalCost", PJson (JNum (Trade.totalCost t)));
     ("fees", PJson (JNum (Trade.fees t))) ]%string
   match Trade.realizedPnL t with
   | Some pnl => [ ("realizedPnL", PJson (JNum pnl)) ]%string
   | None => []
   end.

Definition serialize_objects (this : list object) : string :=
  JSON_stringify (JArr (map object_to_json this)).

Definition serialize (this : t) : string :=
  serialize_objects (map to_object (history this)).

Definition restore_trade (t : json) : completion object :=
  timestamp <- get_field (Some t) "timestamp" ;;
  Normal (set_own "timestamp" (PDate (new_Date timestamp)) (spread (Some t))).

(** [restore] on [this.history] as the array of objects it is. *)
Definition restore (data : json) (this : list object)
  : completion (list object) :=
  try_catch
    (parsed <- JSON_parse_value data ;;
     PositionTracker.array_map restore_trade parsed)
    this.

End TradeExecutor.
End TradeExecutor.

(* ================================================================== *)
(** * Agent types (agent/types.ts) *)
(* ================================================================== *)

Inductive StrategyType : Type :=
| momentum | contrarian | value | random | balanced | llm.

Inductive Signal : Type :=
| BUY_YES | BUY_NO | SELL_YES | SELL_NO | HOLD | DCA.

(** [signal.includes('YES')]. *)
Definition includes_YES (signal : Signal) : bool :=
  match signal with
  | BUY_YES | SELL_YES => true
  | BUY_NO | SELL_NO | HOLD | DCA => false
  end.

(** The fields of a market snapshot that the agent reads; the two prices
    are independent fields, filled from the feed one by one
    (api/client.ts). *)
Module EnrichedMarket.
Record t {N : JSNumber} : Type := mk {
  condition_id : string;
  question : string;
  yesPrice : number;
  noPrice : number
}.
End EnrichedMarket.

Module MarketAnalysis.
Record t {N : JSNumber} : Type := mk {
  market : EnrichedMarket.t;
  signal : Signal;
  confidence : number;
  reason : string;
  suggestedSize : number
}.
End MarketAnalysis.

Module AgentConfig.
Record t {N : JSNumber} : Type := mk {
  strategy : StrategyType;
  maxPositionSize : number;
  maxPositions : number;
  minConfidence : number;
  autoTrade : bool;
  tradeIntervalMs : number;
  riskLevel : number;
  dcaEnabled : bool
}.
End AgentConfig.

Module RiskParams.
Record t {N : JSNumber} : Type := mk {
  maxPositions : number;
  positionSize : number;
  minConfidence : number;
  dcaEnabled : bool;
  rebalanceEnabled : bool;
  aggressiveMode : bool
}.
End RiskParams.

(** The risk level is a number of the scale 1 to 10. *)
Definition getRiskParams {N : JSNumber} (level : number) : RiskParams.t :=
  {| RiskParams.maxPositions := add (of_Z 5) (mul level (of_Z 3));
     RiskParams.positionSize := add (of_Z 50) (mul level (of_Z 50));
     RiskParams.minConfidence := sub (lit 7 1) (mul level (lit 5 2));
     RiskParams.dcaEnabled := geb level (of_Z 5);
     RiskParams.rebalanceEnabled := geb level (of_Z 7);
     RiskParams.aggressiveMode := geb level (of_Z 8) |}.

(** A token of a market (api/types.ts). *)
Module Token.
Record t : Type := mk {
  token_id : string;
  outcome : string
}.
End Token.

Module TradingDecision.
Inductive Action : Type := EXECUTE | SKIP | DCA.

Record t {N : JSNumber} : Type := mk {
  action : Action;
  order : option OrderRequest.t;
  reason : string;
  analysis : MarketAnalysis.t
}.
End TradingDecision.

Inductive LogLevel : Type := INFO | WARN | ERROR | TRADE | THOUGHT.

(* ================================================================== *)
(** * MarketAnalyzer (agent/analyzer.ts) *)
(* ================================================================== *)

Module MarketAnalyzer.
Section MarketAnalyzer.
Context {N : JSNumber} {P : Platform}.
Import EnrichedMarket MarketAnalysis.
Local Open Scope js_scope.

(** [`${(price * 100).toFixed(1)}`]. *)
Definition percent (price : number) : string :=
  Number_toFixed 1 (price * of_Z 100).

Definition calculateSize (strength : number) : number :=
  let baseSize := of_Z 100 in
  let scaledSize := baseSize * Math_abs strength * of_Z 5 in
  Math_max (of_Z 10) (Math_min (of_Z 500) scaledSize).

Definition analyzeMomentum (market : EnrichedMarket.t) : MarketAnalysis.t :=
  let yesPrice := yesPrice market in
  let noPrice := noPrice market in
  if yesPrice >? lit 6 1 then
    {| market := market; signal := BUY_YES;
       confidence := Math_min yesPrice (lit 9 1);
       reason := ("Strong YES momentum (" ++ percent yesPrice ++ "%)")%string;
       suggestedSize := calculateSize (yesPrice - lit 5 1) |}
  else if noPrice >? lit 6 1 then
    {| market := market; signal := BUY_NO;
       confidence := Math_min noPrice (lit 9 1);
       reason := ("Strong NO momentum (" ++ percent noPrice ++ "%)")%string;
       suggestedSize := calculateSize (noPrice - lit 5 1) |}
  else
    {| market := market; signal := HOLD; confidence := lit 3 1;
       reason := "No clear momentum signal"; suggestedSize := of_Z 0 |}.

Definition analyzeContrarian (market : EnrichedMarket.t) : MarketAnalysis.t :=
  let yesPrice := yesPrice market in
  let noPrice := noPrice market in
  if (yesPrice <? lit 25 2) && (yesPrice >? lit 5 2) then
    {| market := market; signal := BUY_YES; confidence := lit 6 1;
       reason := ("Contrarian YES play - undervalued at "
                    ++ percent yesPrice ++ "%")%string;
       suggestedSize := calculateSize (lit 25 2 - yesPrice) |}
  else if (noPrice <? lit 25 2) && (noPrice >? lit 5 2) then
    {| market := market; signal := BUY_NO; confidence := lit 6 1;
       reason := ("Contrarian NO play - undervalued at "
                    ++ percent noPrice ++ "%")%string;
       suggestedSize := calculateSize (lit 25 2 - noPrice) |}
  else
    {| market := market; signal := HOLD; confidence := lit 3 1;
       reason := "No contrarian opportunity"; suggestedSize := of_Z 0 |}.

Definition analyzeValue (market : EnrichedMarket.t) : MarketAnalysis.t :=
  let yesPrice := yesPrice market in
  if Math_abs (yesPrice - lit 5 1) <? lit 15 2 then
    let signal := if yesPrice <? lit 5 1 then BUY_YES else BUY_NO in
    {| market := market; signal := signal; confidence := lit 55 2;
       reason := ("Value play in balanced market ("
                    ++ percent yesPrice ++ "% YES)")%string;
       suggestedSize := calculateSize (lit 1 1) |}
  else
    {| market := market; signal := HOLD; confidence := lit 3 1;
       reason := "Market not in value zone"; suggestedSize := of_Z 0 |}.

(** [rnd] is the result of [Math.random()]. *)
Definition analyzeRandom (rnd : number) (market : EnrichedMarket.t)
  : MarketAnalysis.t :=
  if rnd <? lit 3 1 then
    {| market := market; signal := BUY_YES; confidence := lit 5 1;
       reason := "Random YES selection";
       suggestedSize := calculateSize (lit 2 1) |}
  else if rnd <? lit 6 1 then
    {| market := market; signal := BUY_NO; confidence := lit 5 1;
       reason := "Random NO selection";
       suggestedSize := calculateSize (lit 2 1) |}
  else
    {| market := market; signal := HOLD; confidence := lit 5 1;
       reason := "Random hold decision"; suggestedSize := of_Z 0 |}.

Definition analyzeBalanced (market : EnrichedMarket.t) : MarketAnalysis.t :=
  let yesPrice := yesPrice market in
  let noPrice := noPrice market in
  if yesPrice >? lit 7 1 then
    {| market := market; signal := BUY_YES; confidence := lit 7 1;
       reason := ("Balanced: Strong YES probability ("
                    ++ percent yesPrice ++ "%)")%string;
       suggestedSize := calculateSize (yesPrice - lit 5 1) |}
  else if noPrice >? lit 7 1 then
    {| market := market; signal := BUY_NO; confidence := lit 7 1;
       reason := ("Balanced: Strong NO probability ("
                    ++ percent noPrice ++ "%)")%string;
       suggestedSize := calculateSize (noPrice - lit 5 1) |}
  else if (yesPrice <? lit 2 1) && (yesPrice >? lit 5 2) then
    {| market := market; signal := BUY_YES; confidence := lit 5 1;
       reason := ("Balanced: Contrarian YES at "
                    ++ percent yesPrice ++ "%")%string;
       suggestedSize := calculateSize (lit 15 2) |}
  else if (noPrice <? lit 2 1) && (noPrice >? lit 5 2) then
    {| market := market; signal := BUY_NO; confidence := lit 5 1;
       reason := ("Balanced: Contrarian NO at "
                    ++ percent noPrice ++ "%")%string;
       suggestedSize := calculateSize (lit 15 2) |}
  else
    {| market := market; signal := HOLD; confidence := lit 4 1;
       reason := "Balanced: No clear opportunity"; suggestedSize := of_Z 0 |}.

Definition analyze (rnd : number) (market : EnrichedMarket.t)
    (strategy : StrategyType) : MarketAnalysis.t :=
  match strategy with
  | llm =>
      {| market := market; signal := HOLD; confidence := of_Z 0;
         reason := "Use analyzeLLM() for LLM strategy";
         suggestedSize := of_Z 0 |}
  | momentum => analyzeMomentum market
  | contrarian => analyzeContrarian market
  | value => analyzeValue market
  | random => analyzeRandom rnd market
  | balanced => analyzeBalanced market
  end.

(** [random i] is the result of the [Math.random()] call made for the
    market at index [i], if the strategy makes one. *)
Fixpoint analyzeMarkets (random : nat -> number)
    (markets : list EnrichedMarket.t) (strategy : StrategyType)
  : list MarketAnalysis.t :=
  match markets with
  | [] => []
  | m :: markets' =>
      analyze (random O) m strategy
        :: analyzeMarkets (fun i => random (S i)) markets' strategy
  end.

Definition is_HOLD (signal : Signal) : bool :=
  match signal with
  | HOLD => true
  | _ => false
  end.

(** [count] is the integer value of the argument, [None] when the
    argument is omitted. *)
Definition getTopOpportunities (analyses : list MarketAnalysis.t)
    (count : option Z) : list MarketAnalysis.t :=
  let count := match count with Some c => c | None => 5%Z end in
  slice 0 (Some count)
    (array_sort (fun a b => confidence b - confidence a)
       (filter (fun a => negb (is_HOLD (signal a))) analyses)).

End MarketAnalyzer.
End MarketAnalyzer.

(* ================================================================== *)
(** * RiskManager (agent/risk.ts) *)
(* ================================================================== *)

Module RiskManager.
Section RiskManager.
Context {N : JSNumber} {P : Platform}.
Import AgentConfig MarketAnalysis.
Local Open Scope js_scope.

Record decision : Type := mk_decision {
  allowed : bool;
  reason : string
}.

Definition max_positions_reason (config : AgentConfig.t) : string :=
  ("Max positions reached (" ++ Number_toString (maxPositions config) ++ ")")%string.

Definition max_size_reason : string :=
  "Max position size reached for this market".

Definition confidence_reason (config : AgentConfig.t)
    (analysis : MarketAnalysis.t) : string :=
  ("Confidence " ++ Number_toFixed 1 (confidence analysis * of_Z 100)
     ++ "% below threshold "
     ++ Number_toFixed 1 (minConfidence config * of_Z 100) ++ "%")%string.

Definition cash_reason : string :=
  "Trade too large relative to available cash".

Definition pass_reason : string := "Trade passes risk checks".

Definition canTakeNewPosition (config : AgentConfig.t)
    (analysis : MarketAnalysis.t) (positions : list Position.t)
    (portfolio : PortfolioSummary.t) : decision :=
  if length_number positions >=? maxPositions config then
    {| allowed := false; reason := max_positions_reason config |}
  else
    let existingPosition :=
      find (fun p => String.eqb (Position.marketId p)
                       (EnrichedMarket.condition_id (market analysis)))
           positions in
    let size_reached :=
      match existingPosition with
      | Some p =>
          let currentValue := Position.shares p * Position.currentPrice p in
          currentValue >=? maxPositionSize config
      | None => false
      end in
    if size_reached then
      {| allowed := false; reason := max_size_reason |}
    else if confidence analysis <? minConfidence config then
      {| allowed := false; reason := confidence_reason config analysis |}
    else
      let estimatedCost :=
        suggestedSize analysis *
        (if includes_YES (signal analysis)
         then EnrichedMarket.yesPrice (market analysis)
         else EnrichedMarket.noPrice (market analysis)) in
      if estimatedCost >? PortfolioSummary.cash portfolio * lit 2 1 then
        {| allowed := false; reason := cash_reason |}
      else
        {| allowed := true; reason := pass_reason |}.

End RiskManager.

Module Exit.
Record t : Type := mk {
  shouldClose : bool;
  reason : string
}.
End Exit.

Module PortfolioRisk.
Record t {N : JSNumber} : Type := mk {
  concentration : number;
  largestPosition : number;
  drawdown : number
}.
End PortfolioRisk.

Section Exits.
Context {N : JSNumber} {P : Platform}.
Local Open Scope js_scope.

Definition shouldClosePosition (position : Position.t) : Exit.t :=
  let profitPercent :=
    (Position.unrealizedPnL position
       / (Position.shares position * Position.avgPrice position)) * of_Z 100 in
  if profitPercent >? of_Z 50 then
    {| Exit.shouldClose := true;
       Exit.reason :=
         ("Take profit: +" ++ Number_toFixed 1 profitPercent ++ "%")%string |}
  else if profitPercent <? of_Z (-30) then
    {| Exit.shouldClose := true;
       Exit.reason :=
         ("Stop loss: " ++ Number_toFixed 1 profitPercent ++ "%")%string |}
  else if Position.currentPrice position >? lit 95 2 then
    {| Exit.shouldClose := true;
       Exit.reason := "Near-certain outcome, taking profit" |}
  else if Position.currentPrice position <? lit 2 2 then
    {| Exit.shouldClose := true;
       Exit.reason := "Position near worthless, cutting loss" |}
  else
    {| Exit.shouldClose := false;
       Exit.reason := "Position within risk parameters" |}.

(** [Math.max(0, ...positionValues)] is the maximum taken value by value,
    starting from 0. *)
Definition getPortfolioRisk (positions : list Position.t)
    (portfolio : PortfolioSummary.t) : PortfolioRisk.t :=
  let positionValues :=
    map (fun p => Position.shares p * Position.currentPrice p) positions in
  let largestPosition := fold_left Math_max positionValues (of_Z 0) in
  {| PortfolioRisk.concentration :=
       match positions with
       | [] => of_Z 0
       | _ :: _ =>
           (largestPosition / PortfolioSummary.totalValue portfolio) * of_Z 100
       end;
     PortfolioRisk.largestPosition := largestPosition;
     PortfolioRisk.drawdown :=
       Math_min (of_Z 0) (PortfolioSummary.totalPnL portfolio) |}.

End Exits.

(** In exact numbers, where [Math.pow(c, 2)] is the square of [c]. *)
Definition calculatePositionSize (config : AgentConfig.t (N := QNum))
    (analysis : MarketAnalysis.t (N := QNum))
    (portfolio : PortfolioSummary.t (N := QNum)) : Q :=
  let maxSizeByConfig := AgentConfig.maxPositionSize config in
  let maxSizeByCapital := (PortfolioSummary.cash portfolio * QNumber.lit 1 1)%Q in
  let suggestedSize := MarketAnalysis.suggestedSize analysis in
  let confidenceMultiplier := Qpower (MarketAnalysis.confidence analysis) 2 in
  let scaledSize := (suggestedSize * confidenceMultiplier)%Q in
  Qmin (Qmin scaledSize maxSizeByConfig) maxSizeByCapital.

End RiskManager.

(* ================================================================== *)
(** * PortfolioManager (engine/portfolio.ts) *)
(* ================================================================== *)

Module PortfolioManager.
Section PortfolioManager.
Context {N : JSNumber} {P : Platform}.
Local Open Scope js_scope.

(** The three components; the executor holds the two managers. *)
Definition t : Type := TradeExecutor.t.

Definition new (initialBalance : option number) (env_INITIAL_BALANCE : number)
    (now : Date) : t :=
  {| TradeExecutor.balanceManager :=
       BalanceManager.new initialBalance env_INITIAL_BALANCE now;
     TradeExecutor.positionTracker := [];
     TradeExecutor.history := [] |}.

Definition getSummary (this : t) : PortfolioSummary.t :=
  let cash := BalanceManager.getCash (TradeExecutor.balanceManager this) in
  let positionsValue :=
    PositionTracker.getTotalValue (TradeExecutor.positionTracker this) in
  let totalValue := cash + positionsValue in
  let balance := BalanceManager.getBalance (TradeExecutor.balanceManager this) in
  let totalPnL := totalValue - VirtualBalance.initialBalance balance in
  let totalPnLPercent :=
    (totalPnL / VirtualBalance.initialBalance balance) * of_Z 100 in
  {| PortfolioSummary.cash := cash;
     PortfolioSummary.positionsValue := positionsValue;
     PortfolioSummary.totalValue := totalValue;
     PortfolioSummary.totalPnL := totalPnL;
     PortfolioSummary.totalPnLPercent := totalPnLPercent;
     PortfolioSummary.positionCount :=
       PositionTracker.getPositionCount (TradeExecutor.positionTracker this);
     PortfolioSummary.tradeCount := TradeExecutor.getTradeCount this;
     PortfolioSummary.winRate := TradeExecutor.getWinRate this |}.

Definition getPositions (this : t) : list Position.t :=
  PositionTracker.getAllPositions (TradeExecutor.positionTracker this).

Definition getRecentTrades (this : t) (count : option Z) : list Trade.t :=
  let count := match count with Some c => c | None => 10%Z end in
  TradeExecutor.getRecentTrades this (Some count).

Definition updatePrices (now : Date) (this : t)
    (prices : list (string * number)) : t :=
  let positions' :=
    PositionTracker.updatePrices (TradeExecutor.positionTracker this) prices in
  {| TradeExecutor.balanceManager :=
       BalanceManager.updateTotalValue now
         (TradeExecutor.balanceManager this)
         (PositionTracker.getTotalValue positions');
     TradeExecutor.positionTracker := positions';
     TradeExecutor.history := TradeExecutor.history this |}.

Definition reset (now : Date) (this : t) : t :=
  {| TradeExecutor.balanceManager :=
       BalanceManager.reset now (TradeExecutor.balanceManager this);
     TradeExecutor.positionTracker := [];
     TradeExecutor.history := [] |}.

(** The state of the three components as [restore] can leave it. *)
Record heap : Type := mk_heap {
  balance : object;
  positions : PositionTracker.entries;
  trades : list object
}.

Definition to_heap (this : t) : heap :=
  {| balance := BalanceManager.to_object (TradeExecutor.balanceManager this);
     positions :=
       PositionTracker.to_entries (TradeExecutor.positionTracker this);
     trades := map TradeExecutor.to_object (TradeExecutor.history this) |}.

Definition serialize_heap (this : heap) : string :=
  JSON_stringify
    (JObj [ ("balance",
             JStr (BalanceManager.serialize_object (balance this)));
            ("positions",
             JStr (PositionTracker.serialize_entries (positions this)));
            ("trades",
             JStr (TradeExecutor.serialize_objects (trades this))) ]%string).

Definition serialize (this : t) : string := serialize_heap (to_heap this).

(** A statement of the [try] block: it ends normally or throws, and
    either way leaves a state behind. *)
Inductive outcome : Type :=
| Done (this : heap)
| Thrown (this : heap).

Definition seq (s1 s2 : heap -> outcome) (this : heap) : outcome :=
  match s1 this with
  | Done this' => s2 this'
  | Thrown this' => Thrown this'
  end.

(** [if (parsed.k) component.restore(parsed.k)]. *)
Definition restore_component {A : Type} (parsed : json) (k : string)
    (restore : json -> A -> completion A)
    (read : heap -> A) (write : heap -> A -> heap) (this : heap) : outcome :=
  match get_field (Some parsed) k with
  | Throw _ => Thrown this
  | Normal None => Done this
  | Normal (Some data) =>
      if to_boolean (Some data) then
        match restore data (read this) with
        | Normal a => Done (write this a)
        | Throw _ => Thrown this
        end
      else Done this
  end.

Definition restore (data : string) (this : heap) : completion heap :=
  match JSON_parse_value (JStr data) with
  | Throw _ => Normal this
  | Normal parsed =>
      match
        seq (restore_component parsed "balance" BalanceManager.restore
               balance
               (fun h b => {| balance := b; positions := positions h;
                              trades := trades h |}))
       (seq (restore_component parsed "positions" PositionTracker.restore
               positions
               (fun h p => {| balance := balance h; positions := p;
                              trades := trades h |}))
            (restore_component parsed "trades" TradeExecutor.restore
               trades
               (fun h t => {| balance := balance h; positions := positions h;
                              trades := t |})))
          this
      with
      | Done this' => Normal this'
      | Thrown this' => Normal this'
      end
  end.

End PortfolioManager.
End PortfolioManager.

(* ================================================================== *)
(** * TradingAgent (agent/agent.ts) *)
(* ================================================================== *)

Module TradingAgent.

Definition DEFAULT_CONFIG {N : JSNumber} : AgentConfig.t :=
  {| AgentConfig.strategy := balanced;
     AgentConfig.maxPositionSize := of_Z 10000;
     AgentConfig.maxPositions := of_Z 10;
     AgentConfig.minConfidence := lit 5 1;
     AgentConfig.autoTrade := false;
     AgentConfig.tradeIntervalMs := of_Z 60000;
     AgentConfig.riskLevel := of_Z 5;
     AgentConfig.dcaEnabled := false |}.

Section Logs.
(** The type of [data], which the agent stores and never reads. *)
Variable unknown : Type.

Record AgentLogEntry : Type := mk_entry {
  timestamp : Date;
  level : LogLevel;
  message : string;
  data : option unknown
}.

(** [log] on [this.logs]; [now] is the result of [new Date()].  The
    callback [onLog], when one is set, is called with the entry after the
    array is updated; it is the caller's code and is not part of the
    model. *)
Definition log (now : Date) (logs : list AgentLogEntry) (level : LogLevel)
    (message : string) (data : option unknown) : list AgentLogEntry :=
  let entry :=
    {| timestamp := now; level := level; message := message; data := data |} in
  let logs := logs ++ [entry] in
  if Nat.ltb 100 (List.length logs) then slice (-100) None logs else logs.

(** [count] is the integer value of the argument, [None] when the
    argument is omitted. *)
Definition getLogs (logs : list AgentLogEntry) (count : option Z)
  : list AgentLogEntry :=
  let count := match count with Some c => c | None => 20%Z end in
  slice (- count) None logs.

End Logs.

Section Decisions.
Context {P : Platform (N := QNum)}.
Local Open Scope Q_scope.

Definition skip (reason : string) (analysis : MarketAnalysis.t (N := QNum))
  : TradingDecision.t (N := QNum) :=
  {| TradingDecision.action := TradingDecision.SKIP;
     TradingDecision.order := None;
     TradingDecision.reason := reason;
     TradingDecision.analysis := analysis |}.

(** In exact numbers, where [Math.floor] is the floor.  [config] is the
    configuration the risk manager holds, [portfolio] the portfolio of
    the agent and [tokens] the token list of the analysed market
    ([analysis.market.tokens]).

    At a quoted price of 0 the quotient [size / price] of the code is
    [Infinity] (the size is at least 10 there), and the order it builds
    carries that as its number of shares.  No exact number denotes it:
    the result is [None] there, and [Some] of the decision the code
    returns everywhere else. *)
Definition makeDecision (config : AgentConfig.t (N := QNum))
    (portfolio : PortfolioManager.t (N := QNum)) (tokens : list Token.t)
    (analysis : MarketAnalysis.t (N := QNum))
  : option (TradingDecision.t (N := QNum)) :=
  let positions := PortfolioManager.getPositions portfolio in
  let summary := PortfolioManager.getSummary portfolio in
  let riskCheck :=
    RiskManager.canTakeNewPosition config analysis positions summary in
  if negb (RiskManager.allowed riskCheck) then
    Some (skip (RiskManager.reason riskCheck) analysis)
  else
    let size := RiskManager.calculatePositionSize config analysis summary in
    if QNumber.ltb size 10 then Some (skip "Position size too small" analysis)
    else
      let isYes := includes_YES (MarketAnalysis.signal analysis) in
      let token :=
        find (fun t => String.eqb (toLowerCase (Token.outcome t))
                         (if isYes then "yes" else "no"))
             tokens in
      match token with
      | None => Some (skip "Could not find token for outcome" analysis)
      | Some token =>
          let price :=
            if isYes
            then EnrichedMarket.yesPrice (MarketAnalysis.market analysis)
            else EnrichedMarket.noPrice (MarketAnalysis.market analysis) in
          if Qeq_bool price 0 then None else
          let order :=
            {| OrderRequest.marketId :=
                 EnrichedMarket.condition_id (MarketAnalysis.market analysis);
               OrderRequest.marketQuestion :=
                 EnrichedMarket.question (MarketAnalysis.market analysis);
               OrderRequest.tokenId := Token.token_id token;
               OrderRequest.outcome := if isYes then "YES" else "NO";
               OrderRequest.side := BUY;
               OrderRequest.shares := inject_Z (Qfloor (size / price));
               OrderRequest.price := price |} in
          Some {| TradingDecision.action := TradingDecision.EXECUTE;
                  TradingDecision.order := Some order;
                  TradingDecision.reason := MarketAnalysis.reason analysis;
                  TradingDecision.analysis := analysis |}
      end.

End Decisions.

(** The order [checkExits] places for a position it closes. *)
Definition exit_order {N : JSNumber} (position : Position.t) : OrderRequest.t :=
  {| OrderRequest.marketId := Position.marketId position;
     OrderRequest.marketQuestion := Position.marketQuestion position;
     OrderRequest.tokenId := Position.tokenId position;
     OrderRequest.outcome := Position.outcome position;
     OrderRequest.side := SELL;
     OrderRequest.shares := Position.shares position;
     OrderRequest.price := Position.currentPrice position |}.

End TradingAgent.

(* ================================================================== *)
(** * Terms of the specification *)
(* ================================================================== *)

Unset Implicit Arguments.

(** A decision procedure for the distinctness of string keys. *)
Fixpoint distinct (keys : list string) : bool :=
  match keys with
  | [] => true
  | k :: keys' => negb (existsb (String.eqb k) keys') && distinct keys'
  end.

(** ** The amounts and keys of an order *)

Section LedgerTerms.
Context {N : JSNumber} {P : Platform}.
Local Open Scope js_scope.

(** The amount a buy debits, as the executor computes it. *)
Definition totalWithFees (order : OrderRequest.t) : number :=
  let totalCost := OrderRequest.shares order * OrderRequest.price order in
  totalCost + totalCost * TradeExecutor.FEE_RATE.

(** The amount a sell credits, as the executor computes it. *)
Definition netProceeds (order : OrderRequest.t) : number :=
  let totalProceeds := OrderRequest.shares order * OrderRequest.price order in
  totalProceeds - totalProceeds * TradeExecutor.FEE_RATE.

(** The number of shares held under the key of the order, as the
    executor reads it. *)
Definition held (this : TradeExecutor.t) (order : OrderRequest.t) : number :=
  PositionTracker.getPositionSize (TradeExecutor.positionTracker this)
    (OrderRequest.marketId order) (OrderRequest.outcome order).

(** The key of the position an order acts on. *)
Definition order_key (order : OrderRequest.t) : string :=
  PositionTracker.key (OrderRequest.marketId order) (OrderRequest.outcome order).

End LedgerTerms.

(** ** The cash of a run, call by call *)

Section LedgerRunTerms.
Context {N : JSNumber} {P : Platform}.
Local Open Scope js_scope.

Definition cash_in (this : TradeExecutor.t) : number :=
  VirtualBalance.cash (TradeExecutor.balanceManager this).

(** The cash after one call of [execute], from the cash before it, the
    order and the result: a successful buy debits [totalWithFees], a
    successful sell credits [netProceeds], a rejected order leaves the
    cash. *)
Definition settle (cash : number) (order : OrderRequest.t)
    (result : OrderResult.t) : number :=
  if OrderResult.success result then
    match OrderRequest.side order with
    | BUY => cash - totalWithFees order
    | SELL => cash + netProceeds order
    end
  else cash.

(** The cash after a run, settled call by call in the order of the
    calls. *)
Fixpoint settled (cash : number) (calls : list (Env * OrderRequest.t))
    (results : list OrderResult.t) : number :=
  match calls, results with
  | (_, order) :: calls', result :: results' =>
      settled (settle cash order result) calls' results'
  | _, _ => cash
  end.

(** Every successful buy of the run passed the test
    [cash >= totalWithFees] on the cash of its moment. *)
Fixpoint covered (cash : number) (calls : list (Env * OrderRequest.t))
    (results : list OrderResult.t) : Prop :=
  match calls, results with
  | (_, order) :: calls', result :: results' =>
      (OrderRequest.side order = BUY -> OrderResult.success result = true ->
       (cash >=? totalWithFees order) = true)
      /\ covered (settle cash order result) calls' results'
  | _, _ => True
  end.

End LedgerRunTerms.

(* ================================================================== *)
(** * A platform for the closed examples *)
(* ================================================================== *)

(** Number formatting and dates are computed; [JSON.parse] is given on the
    texts the examples use, by inverting the printer on a list of known
    documents.  It serves to evaluate the definitions on concrete inputs
    and is not used by any general statement. *)
Module Example.

Definition digits (z : Z) : string :=
  NilZero.string_of_uint (N.to_uint (Z.to_N z)).

Fixpoint zeros (n : nat) : string :=
  match n with
  | O => EmptyString
  | S n' => "0" ++ zeros n'
  end.

Definition pad (w : nat) (s : string) : string :=
  (zeros (w - String.length s) ++ s)%string.

(** [n.toFixed(d)] on an exact value: the integer [k] with [k / 10^d]
    nearest to [|n|], the larger one on a tie, printed with [d]
    decimals. *)
Definition toFixed (d : nat) (q : Q) : string :=
  let a := Qabs q in
  let scale := (10 ^ Z.of_nat d)%Z in
  let k := ((2 * Qnum a * scale + Zpos (Qden a)) / (2 * Zpos (Qden a)))%Z in
  let body :=
    match d with
    | O => digits k
    | S _ => (digits (k / scale) ++ "." ++ pad d (digits (k mod scale)))%string
    end in
  if Qlt_le_dec q 0 then ("-" ++ body)%string else body.

(** The least number of decimals, up to [fuel], that writes [q] exactly. *)
Fixpoint decimals (fuel d : nat) (den : positive) : option nat :=
  if ((10 ^ Z.of_nat d) mod Zpos den =? 0)%Z then Some d
  else match fuel with
       | O => None
       | S fuel' => decimals fuel' (S d) den
       end.

(** [String(n)] on an integer or a short decimal, where the exact value
    and its double print alike; a value with no finite decimal expansion
    is shown as a fraction, which the examples do not use. *)
Definition toString (q : Q) : string :=
  let r := Qred q in
  match decimals 20 0 (Qden r) with
  | Some d => toFixed d r
  | None =>
      ((if (Qnum r <? 0)%Z then "-" else EmptyString) ++ digits (Z.abs (Qnum r))
         ++ "/" ++ digits (Zpos (Qden r)))%string
  end.

(** Year, month and day of a day number counted from 1970-01-01. *)
Definition civil_from_days (days : Z) : Z * Z * Z :=
  (let z := days + 719468 in
   let era := z / 146097 in
   let doe := z - era * 146097 in
   let yoe := (doe - doe / 1460 + doe / 36524 - doe / 146096) / 365 in
   let doy := doe - (365 * yoe + yoe / 4 - yoe / 100) in
   let mp := (5 * doy + 2) / 153 in
   let d := doy - (153 * mp + 2) / 5 + 1 in
   let m := if mp <? 10 then mp + 3 else mp - 9 in
   let y := yoe + era * 400 + (if m <=? 2 then 1 else 0) in
   (y, m, d))%Z.

Definition days_from_civil (y m d : Z) : Z :=
  (let y' := if m <=? 2 then y - 1 else y in
   let era := y' / 400 in
   let yoe := y' - era * 400 in
   let mp := if m <=? 2 then m + 9 else m - 3 in
   let doy := (153 * mp + 2) / 5 + d - 1 in
   let doe := yoe * 365 + yoe / 4 - yoe / 100 + doy in
   era * 146097 + doe - 719468)%Z.

Definition toISOString (t : Z) : string :=
  let days := (t / 86400000)%Z in
  let ms := (t mod 86400000)%Z in
  let '(y, m, d) := civil_from_days days in
  let year :=
    if ((0 <=? y) && (y <=? 9999))%Z then pad 4 (digits y)
    else ((if (y <? 0)%Z then "-" else "+") ++ pad 6 (digits (Z.abs y)))%string in
  (year ++ "-" ++ pad 2 (digits m) ++ "-" ++ pad 2 (digits d)
     ++ "T" ++ pad 2 (digits (ms / 3600000))
     ++ ":" ++ pad 2 (digits (ms / 60000 mod 60))
     ++ ":" ++ pad 2 (digits (ms / 1000 mod 60))
     ++ "." ++ pad 3 (digits (ms mod 1000)) ++ "Z")%string.

Definition number_at (s : string) (start len : nat) : Z :=
  match NilZero.uint_of_string (substring start len s) with
  | Some u => Z.of_N (N.of_uint u)
  | None => 0
  end.

(** The strings [toISOString] prints with a four-digit year are
    read back; every other string is an Invalid Date here. *)
Definition parse_date (s : string) : Date :=
  let t :=
    (days_from_civil (number_at s 0 4) (number_at s 5 2) (number_at s 8 2)
       * 86400000
     + number_at s 11 2 * 3600000 + number_at s 14 2 * 60000
     + number_at s 17 2 * 1000 + number_at s 20 3)%Z in
  if String.eqb (toISOString t) s then ValidDate t else InvalidDate.

(** The character that delimits a JSON string. *)
Definition quote : string := String "034" EmptyString.

Definition hex_digit (n : nat) : string :=
  substring n 1 "0123456789abcdef".

Definition escape (c : ascii) : string :=
  let n := nat_of_ascii c in
  if Nat.eqb n 34 then ("\" ++ quote)%string
  else if Nat.eqb n 92 then "\\"
  else if Nat.eqb n 8 then "\b"
  else if Nat.eqb n 12 then "\f"
  else if Nat.eqb n 10 then "\n"
  else if Nat.eqb n 13 then "\r"
  else if Nat.eqb n 9 then "\t"
  else if Nat.ltb n 32
       then ("\u00" ++ hex_digit (n / 16) ++ hex_digit (n mod 16))%string
       else String c EmptyString.

Fixpoint escaped (s : string) : string :=
  match s with
  | EmptyString => EmptyString
  | String c s' => (escape c ++ escaped s')%string
  end.

Definition quoted (s : string) : string := (quote ++ escaped s ++ quote)%string.

Section Text.
Context {N : JSNumber}.
Variable number_text : number -> string.

(** The text [JSON.stringify] prints for a tree. *)
Fixpoint JSON_text (j : json) : string :=
  match j with
  | JNull => "null"
  | JBool true => "true"
  | JBool false => "false"
  | JNum n => number_text n
  | JStr s => quoted s
  | JArr l => ("[" ++ String.concat "," (map JSON_text l) ++ "]")%string
  | JObj fields =>
      ("{" ++ String.concat ","
                (map (fun kv =>
                        (quoted (fst kv) ++ ":" ++ JSON_text (snd kv))%string)
                     fields)
           ++ "}")%string
  end.

(** [JSON.parse] on the texts of [documents]; any other string is
    taken not to be JSON. *)
Definition JSON_parse_among (documents : list json) (s : string)
  : option json :=
  find (fun j => String.eqb (JSON_text j) s) documents.
End Text.

(** The platform over exact numbers. *)
Definition platform (documents : list (json (N := QNum)))
  : Platform (N := QNum) :=
  {| Number_toString := toString;
     Number_toFixed := toFixed;
     JSON_parse := JSON_parse_among (N := QNum) toString documents;
     JSON_stringify := JSON_text (N := QNum) toString;
     Date_parse := parse_date;
     Date_toISOString := toISOString |}.

(** The exact value of a finite double. *)
Definition exact (x : spec_float) : Q :=
  match x with
  | S754_finite s m e =>
      let v := if (0 <=? e)%Z
               then inject_Z (Zpos m * 2 ^ e)
               else Qmake (Zpos m) (Z.to_pos (2 ^ (- e))) in
      if s then Qopp v else v
  | _ => 0
  end.

(** Formatting of a double through its exact value.  [toFixed64] is the
    rounding [toFixed] specifies; [toString64] prints the exact value,
    which is what [String(n)] prints for an integer or a short binary
    fraction. *)
Definition toFixed64 (d : nat) (x : spec_float) : string :=
  match x with
  | S754_nan => "NaN"
  | S754_infinity s => if s then "-Infinity" else "Infinity"
  | S754_zero s => toFixed d 0
  | S754_finite _ _ _ => toFixed d (exact x)
  end.

Definition toString64 (x : spec_float) : string :=
  match x with
  | S754_nan => "NaN"
  | S754_infinity s => if s then "-Infinity" else "Infinity"
  | S754_zero _ => "0"
  | S754_finite _ _ _ => toString (exact x)
  end.

(** The platform over binary64. *)
Definition platform64 (documents : list (json (N := F64Num)))
  : Platform (N := F64Num) :=
  @Build_Platform F64Num toString64 toFixed64
    (JSON_parse_among (N := F64Num) toString64 documents)
    (JSON_text (N := F64Num) toString64)
    parse_date toISOString.

End Example.

(** ** The risk gate, check by check *)

Section RiskGateTerms.
Context {N : JSNumber} {P : Platform}.
Import AgentConfig MarketAnalysis.
Local Open Scope js_scope.

Definition same_market (analysis : MarketAnalysis.t) (p : Position.t) : bool :=
  String.eqb (Position.marketId p)
    (EnrichedMarket.condition_id (market analysis)).

Definition position_value (p : Position.t) : number :=
  Position.shares p * Position.currentPrice p.

(** Check 1: [positions.length >= maxPositions]. *)
Definition check_max_positions (config : AgentConfig.t)
    (positions : list Position.t) : bool :=
  length_number positions >=? maxPositions config.

(** Check 2 as the specification words it: some open position in the
    same market has a value that reaches [maxPositionSize]. *)
Definition check_size_some (config : AgentConfig.t)
    (analysis : MarketAnalysis.t) (positions : list Position.t) : bool :=
  existsb (fun p => same_market analysis p
                    && (position_value p >=? maxPositionSize config))
          positions.

(** Check 2 on the first open position of the same market only. *)
Definition check_size_first (config : AgentConfig.t)
    (analysis : MarketAnalysis.t) (positions : list Position.t) : bool :=
  match find (same_market analysis) positions with
  | Some p => position_value p >=? maxPositionSize config
  | None => false
  end.

(** Check 3: [confidence < minConfidence]. *)
Definition check_confidence (config : AgentConfig.t)
    (analysis : MarketAnalysis.t) : bool :=
  confidence analysis <? minConfidence config.

(** The price the order would be quoted at: the YES price for a signal
    that names YES, the NO price otherwise. *)
Definition quoted_price (analysis : MarketAnalysis.t) : number :=
  if includes_YES (signal analysis)
  then EnrichedMarket.yesPrice (market analysis)
  else EnrichedMarket.noPrice (market analysis).

(** Check 4: suggested size times quoted price exceeds 20% of the cash. *)
Definition check_cash (analysis : MarketAnalysis.t)
    (portfolio : PortfolioSummary.t) : bool :=
  suggestedSize analysis * quoted_price analysis
    >? PortfolioSummary.cash portfolio * lit 2 1.

(** The reason of the first failing check, or the pass. *)
Fixpoint first_failing (checks : list (bool * string)) : RiskManager.decision :=
  match checks with
  | [] => {| RiskManager.allowed := true;
             RiskManager.reason := RiskManager.pass_reason |}
  | (fails, reason) :: checks' =>
      if fails
      then {| RiskManager.allowed := false; RiskManager.reason := reason |}
      else first_failing checks'
  end.

(** The gate of the specification, with the second check left open. *)
Definition risk_gate
    (check_size : AgentConfig.t -> MarketAnalysis.t -> list Position.t -> bool)
    (config : AgentConfig.t) (analysis : MarketAnalysis.t)
    (positions : list Position.t) (portfolio : PortfolioSummary.t)
  : RiskManager.decision :=
  first_failing
    [ (check_max_positions config positions,
       RiskManager.max_positions_reason config);
      (check_size config analysis positions, RiskManager.max_size_reason);
      (check_confidence config analysis,
       RiskManager.confidence_reason config analysis);
      (check_cash analysis portfolio, RiskManager.cash_reason) ].

End RiskGateTerms.

(** ** Debits and credits of a run, in exact arithmetic *)

Section ExactLedgerTerms.
Context {P : Platform (N := QNum)}.
Local Open Scope Q_scope.

(** What a successful buy debits, in the words of the specification:
    shares * price * 1.001. *)
Definition buy_debit (order : OrderRequest.t (N := QNum)) : Q :=
  OrderRequest.shares order * OrderRequest.price order * (1001 # 1000).

(** What a successful sell credits: shares * price * 0.999. *)
Definition sell_credit (order : OrderRequest.t (N := QNum)) : Q :=
  OrderRequest.shares order * OrderRequest.price order * (999 # 1000).

Definition debit_of (order : OrderRequest.t (N := QNum))
    (result : OrderResult.t (N := QNum)) : Q :=
  match OrderRequest.side order with
  | BUY => if OrderResult.success result then buy_debit order else 0
  | SELL => 0
  end.

Definition credit_of (order : OrderRequest.t (N := QNum))
    (result : OrderResult.t (N := QNum)) : Q :=
  match OrderRequest.side order with
  | SELL => if OrderResult.success result then sell_credit order else 0
  | BUY => 0
  end.

(** The sum of totalWithFees over the successful buys of a run. *)
Fixpoint sum_buys (calls : list (Env * OrderRequest.t (N := QNum)))
    (results : list (OrderResult.t (N := QNum))) : Q :=
  match calls, results with
  | (_, order) :: calls', result :: results' =>
      debit_of order result + sum_buys calls' results'
  | _, _ => 0
  end.

(** The sum of netProceeds over the successful sells of a run. *)
Fixpoint sum_sells (calls : list (Env * OrderRequest.t (N := QNum)))
    (results : list (OrderResult.t (N := QNum))) : Q :=
  match calls, results with
  | (_, order) :: calls', result :: results' =>
      credit_of order result + sum_sells calls' results'
  | _, _ => 0
  end.

Definition nonnegative_order (call : Env * OrderRequest.t (N := QNum)) : Prop :=
  0 <= OrderRequest.shares (snd call) /\ 0 <= OrderRequest.price (snd call).

Definition cash_of (this : TradeExecutor.t (N := QNum)) : Q :=
  VirtualBalance.cash (TradeExecutor.balanceManager this).

End ExactLedgerTerms.

(** The state the scenario starts from and its two buy orders, in any
    number structure: cash 100000, no position under the key of the
    orders. *)
Definition scenario_B_start {N : JSNumber} (this : TradeExecutor.t)
    (order1 order2 : OrderRequest.t) : Prop :=
  VirtualBalance.cash (TradeExecutor.balanceManager this) = of_Z 100000
  /\ PositionTracker.get (order_key order1) (TradeExecutor.positionTracker this)
     = None
  /\ order_key order2 = order_key order1
  /\ OrderRequest.side order1 = BUY
  /\ OrderRequest.shares order1 = of_Z 1000
  /\ OrderRequest.price order1 = lit 4 1
  /\ OrderRequest.side order2 = BUY
  /\ OrderRequest.shares order2 = of_Z 500
  /\ OrderRequest.price order2 = lit 5 1.

Definition after_two {N : JSNumber} {P : Platform} (env1 env2 : Env)
    (this : TradeExecutor.t) (order1 order2 : OrderRequest.t) : TradeExecutor.t :=
  fst (TradeExecutor.execute env2
         (fst (TradeExecutor.execute env1 this order1)) order2).

(** The band of the value strategy, in exact numbers. *)
Definition in_value_band (market : EnrichedMarket.t (N := QNum)) : Prop :=
  (Qabs (EnrichedMarket.yesPrice market - (5 # 10)) < 15 # 100)%Q.

(** The specification's wording: the signal buys the outcome whose quoted
    price is the lower one. *)
Definition buys_cheaper_side (market : EnrichedMarket.t (N := QNum))
    (signal : Signal) : Prop :=
  ((EnrichedMarket.yesPrice market < EnrichedMarket.noPrice market)%Q
   -> signal = BUY_YES)
  /\ ((EnrichedMarket.noPrice market < EnrichedMarket.yesPrice market)%Q
      -> signal = BUY_NO).

(** ** States that JSON text and ISO dates represent *)

Section RoundTripTerms.
Context {N : JSNumber} {P : Platform}.

(** The platform reads the text it prints for [j] back as [j]. *)
Definition reads_back (j : json) : Prop :=
  JSON_parse (JSON_stringify j) = Some j.

(** [d] is a valid date, and the platform reads its ISO string back. *)
Definition date_reads_back (d : Date) : Prop :=
  match d with
  | ValidDate t => Date_parse (Date_toISOString t) = ValidDate t
  | InvalidDate => False
  end.

(** [n] is a number JSON text denotes: finite, and not the negative
    zero. *)
Definition json_exact (n : number) : Prop := json_number n = Some n.

Definition balance_ok (b : VirtualBalance.t) : Prop :=
  json_exact (VirtualBalance.cash b)
  /\ json_exact (VirtualBalance.totalValue b)
  /\ json_exact (VirtualBalance.initialBalance b)
  /\ date_reads_back (VirtualBalance.lastUpdated b).

Definition position_ok (p : Position.t) : Prop :=
  json_exact (Position.shares p)
  /\ json_exact (Position.avgPrice p)
  /\ json_exact (Position.currentPrice p)
  /\ json_exact (Position.unrealizedPnL p)
  /\ date_reads_back (Position.openedAt p).

Definition trade_ok (t : Trade.t) : Prop :=
  json_exact (Trade.shares t)
  /\ json_exact (Trade.price t)
  /\ json_exact (Trade.totalCost t)
  /\ json_exact (Trade.fees t)
  /\ match Trade.realizedPnL t with
     | Some pnl => json_exact pnl
     | None => True
     end
  /\ date_reads_back (Trade.timestamp t).

End RoundTripTerms.

(** ** The documents of a serialization; what a bundle restores *)

Section PersistenceTerms.
Context {N : JSNumber} {P : Platform}.

(** The trees the three [serialize] methods print. *)
Definition balance_json (b : VirtualBalance.t) : json :=
  object_to_json (BalanceManager.to_object b).

Definition positions_json (m : PositionTracker.t) : json :=
  JArr (map (fun kp => JArr [PositionTracker.key_to_json (fst kp);
                             object_to_json (snd kp)])
            (PositionTracker.to_entries m)).

Definition history_json (this : TradeExecutor.t) : json :=
  JArr (map object_to_json
          (map TradeExecutor.to_object (TradeExecutor.history this))).

(** The sub-field [k] of a parsed bundle gives the component nothing to
    restore from: the bundle is [null], or the sub-field is missing or
    falsy, or it is a text that is not JSON. *)
Definition unusable (parsed : json) (k : string) : Prop :=
  match get_field (Some parsed) k with
  | Throw _ => True
  | Normal None => True
  | Normal (Some data) =>
      to_boolean (Some data) = false \/ JSON_parse (to_string data) = None
  end.

(** What one component holds after [PortfolioManager.restore] read the
    sub-field [field] of the bundle. *)
Definition restored {A : Type} (restore : json -> A -> completion A)
    (field : completion (option json)) (current : A) : A :=
  match field with
  | Normal (Some data) =>
      if to_boolean (Some data) then
        match restore data current with
        | Normal a => a
        | Throw _ => current
        end
      else current
  | _ => current
  end.

End PersistenceTerms.

(* ================================================================== *)
(** * Terms of the further properties *)
(* ================================================================== *)

(** ** The trades of a run; keys without a hyphen *)

(** The trades that a list of results reports, in order. *)
Definition trades_of {N : JSNumber} (results : list OrderResult.t) : list Trade.t :=
  flat_map (fun result =>
              match OrderResult.trade result with
              | Some trade => [trade]
              | None => []
              end)
           results.

(** No character of [s] is a hyphen. *)
Fixpoint hyphen_free (s : string) : bool :=
  match s with
  | EmptyString => true
  | String c s' => negb (Ascii.eqb c "-") && hyphen_free s'
  end.

(** The fields of a position that repricing leaves alone. *)
Definition same_holding {N : JSNumber} (p p' : Position.t) : Prop :=
  Position.id p' = Position.id p
  /\ Position.marketId p' = Position.marketId p
  /\ Position.marketQuestion p' = Position.marketQuestion p
  /\ Position.tokenId p' = Position.tokenId p
  /\ Position.outcome p' = Position.outcome p
  /\ Position.shares p' = Position.shares p
  /\ Position.avgPrice p' = Position.avgPrice p
  /\ Position.openedAt p' = Position.openedAt p.

(** ** Positions and trades in exact arithmetic *)

Section ExactPortfolioTerms.
Local Open Scope Q_scope.

(** A position holds a positive number of shares. *)
Definition positive_shares (p : Position.t (N := QNum)) : Prop :=
  0 < Position.shares p.

(** The unrealized P&L of a position is the one its mark gives. *)
Definition mark_consistent (p : Position.t (N := QNum)) : Prop :=
  Position.unrealizedPnL p
  == (Position.currentPrice p - Position.avgPrice p) * Position.shares p.

End ExactPortfolioTerms.

Section ExactValueTerms.
Local Open Scope Q_scope.

(** Every buy order of a run is for a positive number of shares. *)
Definition buys_positive (call : Env * OrderRequest.t (N := QNum)) : Prop :=
  OrderRequest.side (snd call) = BUY -> 0 < OrderRequest.shares (snd call).

End ExactValueTerms.

(** The tree [PortfolioManager.serialize] prints: the three component
    texts as the strings of one object. *)
Definition bundle_json {N : JSNumber} {P : Platform} (this : PortfolioManager.t)
  : json :=
  JObj [ ("balance",
          JStr (BalanceManager.serialize (TradeExecutor.balanceManager this)));
         ("positions",
          JStr (PositionTracker.serialize (TradeExecutor.positionTracker this)));
         ("trades", JStr (TradeExecutor.serialize this)) ]%string.

(** ** Signals and rankings *)

(** The analysis is ranked at least as high as [b]. *)
Definition outranks (a b : MarketAnalysis.t (N := QNum)) : Prop :=
  (MarketAnalysis.confidence b <= MarketAnalysis.confidence a)%Q.

(** The comparator [(a, b) => b.confidence - a.confidence] of
    [getTopOpportunities]. *)
Definition by_confidence (a b : MarketAnalysis.t (N := QNum)) : Q :=
  (MarketAnalysis.confidence b - MarketAnalysis.confidence a)%Q.

Definition is_buy (signal : Signal) : Prop :=
  signal = BUY_YES \/ signal = BUY_NO.

(** ** Orders, trades and exits in any number structure *)

Section RunTerms.
Context {N : JSNumber}.
Local Open Scope js_scope.

(** The sell of what a buy order bought, at the price [price]. *)
Definition sell_back (buy : OrderRequest.t) (price : number) : OrderRequest.t :=
  {| OrderRequest.marketId := OrderRequest.marketId buy;
     OrderRequest.marketQuestion := OrderRequest.marketQuestion buy;
     OrderRequest.tokenId := OrderRequest.tokenId buy;
     OrderRequest.outcome := OrderRequest.outcome buy;
     OrderRequest.side := SELL;
     OrderRequest.shares := OrderRequest.shares buy;
     OrderRequest.price := price |}.

(** The sell trades of a history. *)
Definition sells (this : TradeExecutor.t) : list Trade.t :=
  filter TradeExecutor.is_sell (TradeExecutor.history this).

(** The orders of a run that were accepted, in the order of the calls. *)
Fixpoint accepted (calls : list (Env * OrderRequest.t))
    (results : list OrderResult.t) : list OrderRequest.t :=
  match calls, results with
  | (_, order) :: calls', result :: results' =>
      if OrderResult.success result
      then order :: accepted calls' results'
      else accepted calls' results'
  | _, _ => []
  end.

(** The fee of an order, as the executor computes it. *)
Definition fee (order : OrderRequest.t) : number :=
  (OrderRequest.shares order * OrderRequest.price order) * TradeExecutor.FEE_RATE.

(** [x - x <= 0]: true of every rational and of every finite double,
    false of [NaN] and of the two infinities. *)
Definition cancels (x : number) : Prop := (x - x <=? of_Z 0) = true.

(** The profit of a position in percent of its cost, as
    [shouldClosePosition] computes it. *)
Definition profitPercent (p : Position.t) : number :=
  (Position.unrealizedPnL p / (Position.shares p * Position.avgPrice p))
  * of_Z 100.

End RunTerms.

(* ================================================================== *)
(** * Concrete states, orders and markets *)
(* ================================================================== *)

Module Cases.

Definition t0 : Z := 1704067200000.

(** The clock and identifier results of the [n]-th call. *)
Definition env (n : Z) : Env :=
  {| now_balance := ValidDate (t0 + n);
     uuid_position := ("position-" ++ Example.digits n)%string;
     now_position := ValidDate (t0 + n);
     uuid_trade := ("trade-" ++ Example.digits n)%string;
     now_trade := ValidDate (t0 + n) |}.

Definition order (outcome : string) (side : Side) (shares price : Q)
  : OrderRequest.t (N := QNum) :=
  {| OrderRequest.marketId := "0xabc";
     OrderRequest.marketQuestion := "Will it rain tomorrow?";
     OrderRequest.tokenId := ("token-" ++ outcome)%string;
     OrderRequest.outcome := outcome;
     OrderRequest.side := side;
     OrderRequest.shares := shares;
     OrderRequest.price := price |}.

Definition order64 (outcome : string) (side : Side) (shares price : spec_float)
  : OrderRequest.t (N := F64Num) :=
  @OrderRequest.mk F64Num "0xabc" "Will it rain tomorrow?"
    ("token-" ++ outcome)%string outcome side shares price.

Definition plain : Platform (N := QNum) := Example.platform [].
Definition plain64 : Platform (N := F64Num) := Example.platform64 [].

(** A fresh portfolio with 100000 in cash. *)
Definition start : TradeExecutor.t (N := QNum) :=
  PortfolioManager.new (Some (100000 : Q)) (0 : Q) (ValidDate t0).

Definition start64 : TradeExecutor.t (N := F64Num) :=
  PortfolioManager.new (N := F64Num) (Some (F64.of_Z 100000)) S754_nan
    (ValidDate t0).

(** Scenarios A to D of the specification, in order. *)
Definition scenario_calls : list (Env * OrderRequest.t (N := QNum)) :=
  [ (env 1, order "YES" BUY 1000 (4 # 10));
    (env 2, order "YES" BUY 500 (5 # 10));
    (env 3, order "YES" SELL 300 (6 # 10));
    (env 4, order "YES" SELL 2000 (6 # 10)) ].

(** The portfolio after scenarios A, B and C. *)
Definition after_C : TradeExecutor.t (N := QNum) :=
  Eval vm_compute in
    fst (TradeExecutor.run (P := plain) start (firstn 3 scenario_calls)).

(** The portfolio after scenarios A and B. *)
Definition after_B : TradeExecutor.t (N := QNum) :=
  Eval vm_compute in
    fst (TradeExecutor.run (P := plain) start (firstn 2 scenario_calls)).

(** Scenarios A to C in binary64, with the decimal literals of the
    specification. *)
Definition scenario_calls64 : list (Env * OrderRequest.t (N := F64Num)) :=
  [ (env 1, order64 "YES" BUY (F64.of_Z 1000) (F64.lit 4 1));
    (env 2, order64 "YES" BUY (F64.of_Z 500) (F64.lit 5 1));
    (env 3, order64 "YES" SELL (F64.of_Z 300) (F64.lit 6 1)) ].

(** In binary64: a buy of 151 shares at 0.67. *)
Definition odd_lot64 : Env * OrderRequest.t (N := F64Num) :=
  (env 1, order64 "YES" BUY (F64.of_Z 151) (F64.lit 67 2)).

(** In binary64: a buy of 1e300 shares at the price 0, then a sell of
    them at the price 1e300. *)
Definition overflow_calls64 : list (Env * OrderRequest.t (N := F64Num)) :=
  [ (env 1, order64 "YES" BUY (F64.of_Z (10 ^ 300)) (F64.of_Z 0));
    (env 2, order64 "YES" SELL (F64.of_Z (10 ^ 300)) (F64.of_Z (10 ^ 300))) ].

(** A portfolio with a position on each outcome of one market and a
    sell in its history. *)
Definition two_sided : TradeExecutor.t (N := QNum) :=
  Eval vm_compute in
    fst (TradeExecutor.run (P := plain) start
           [ (env 1, order "YES" BUY 1000 (4 # 10));
             (env 2, order "NO" BUY 500 (5 # 10));
             (env 3, order "YES" SELL 300 (6 # 10)) ]).

(** The platform that knows the three documents [two_sided] prints. *)
Definition archive_documents : list (json (N := QNum)) :=
  Eval vm_compute in
    [ balance_json (P := plain) (TradeExecutor.balanceManager two_sided);
      positions_json (P := plain) (TradeExecutor.positionTracker two_sided);
      history_json (P := plain) two_sided ].

Definition archive : Platform (N := QNum) := Example.platform archive_documents.

(** A balance whose [lastUpdated] is an Invalid Date, as [restore] leaves
    it after a text without that property. *)
Definition undated : VirtualBalance.t (N := QNum) :=
  {| VirtualBalance.cash := 100000;
     VirtualBalance.totalValue := 100000;
     VirtualBalance.initialBalance := 100000;
     VirtualBalance.lastUpdated := InvalidDate |}.

(** A saved balance that has no [lastUpdated] property. *)
Definition unstamped_document : json (N := QNum) :=
  JObj [ ("cash", JNum (100000 : Q)); ("totalValue", JNum (100000 : Q));
         ("initialBalance", JNum (100000 : Q)) ]%string.

Definition undated_documents : list (json (N := QNum)) :=
  Eval vm_compute in [ balance_json (P := plain) undated; unstamped_document ].

Definition undated_platform : Platform (N := QNum) :=
  Example.platform undated_documents.

(** In binary64: a buy, then a sell of 300 shares at the price [NaN]. *)
Definition nan_sale : TradeExecutor.t (N := F64Num) :=
  Eval vm_compute in
    fst (TradeExecutor.run (P := plain64) start64
           [ (env 1, order64 "YES" BUY (F64.of_Z 1000) (F64.lit 4 1));
             (env 2, order64 "YES" SELL (F64.of_Z 300) S754_nan) ]).

Definition nan_documents : list (json (N := F64Num)) :=
  Eval vm_compute in
    [ balance_json (P := plain64) (TradeExecutor.balanceManager nan_sale) ].

Definition nan_platform : Platform (N := F64Num) :=
  Example.platform64 nan_documents.

(** A bundle whose [balance] is a text that is not JSON, whose
    [positions] is missing and whose [trades] is the empty history. *)
Definition damaged_bundle : json (N := QNum) :=
  JObj [ ("balance", JStr "{cash: 1"); ("trades", JStr "[]") ]%string.

Definition damaged_platform : Platform (N := QNum) :=
  Example.platform [ damaged_bundle; JArr [] ].

(** A bundle whose [balance] is the text of an empty object. *)
Definition hollow_bundle : json (N := QNum) :=
  JObj [ ("balance", JStr "{}") ]%string.

Definition hollow_platform : Platform (N := QNum) :=
  Example.platform [ hollow_bundle; JObj [] ].

Definition market (yes no : Q) : EnrichedMarket.t (N := QNum) :=
  {| EnrichedMarket.condition_id := "0xabc";
     EnrichedMarket.question := "Will it rain tomorrow?";
     EnrichedMarket.yesPrice := yes;
     EnrichedMarket.noPrice := no |}.

Definition config (maxPositions : Q) : AgentConfig.t (N := QNum) :=
  {| AgentConfig.strategy := balanced;
     AgentConfig.maxPositionSize := 10000;
     AgentConfig.maxPositions := maxPositions;
     AgentConfig.minConfidence := 5 # 10;
     AgentConfig.autoTrade := false;
     AgentConfig.tradeIntervalMs := 60000;
     AgentConfig.riskLevel := 5;
     AgentConfig.dcaEnabled := false |}.

Definition analysis (confidence : Q) : MarketAnalysis.t (N := QNum) :=
  {| MarketAnalysis.market := market (5 # 10) (5 # 10);
     MarketAnalysis.signal := BUY_NO;
     MarketAnalysis.confidence := confidence;
     MarketAnalysis.reason := "Balanced: Strong NO probability (50.0%)";
     MarketAnalysis.suggestedSize := 100 |}.

Definition summary (cash : Q) : PortfolioSummary.t (N := QNum) :=
  {| PortfolioSummary.cash := cash;
     PortfolioSummary.positionsValue := 0;
     PortfolioSummary.totalValue := cash;
     PortfolioSummary.totalPnL := 0;
     PortfolioSummary.totalPnLPercent := 0;
     PortfolioSummary.positionCount := 0;
     PortfolioSummary.tradeCount := 0;
     PortfolioSummary.winRate := 0 |}.

Definition open_position (outcome : string) (shares price : Q)
  : Position.t (N := QNum) :=
  {| Position.id := ("position-" ++ outcome)%string;
     Position.marketId := "0xabc";
     Position.marketQuestion := "Will it rain tomorrow?";
     Position.tokenId := ("token-" ++ outcome)%string;
     Position.outcome := outcome;
     Position.shares := shares;
     Position.avgPrice := price;
     Position.currentPrice := price;
     Position.unrealizedPnL := 0;
     Position.openedAt := ValidDate t0 |}.

(** A small YES position listed before a NO position of the same market
    worth 20000, twice the limit of 10000. *)
Definition both_sides : list (Position.t (N := QNum)) :=
  [ open_position "YES" 100 (5 # 10); open_position "NO" 40000 (5 # 10) ].

(** The same two positions, the NO position listed first. *)
Definition both_sides_swapped : list (Position.t (N := QNum)) :=
  [ open_position "NO" 40000 (5 # 10); open_position "YES" 100 (5 # 10) ].

(** A portfolio that holds 1000 YES shares bought at 0.40. *)
Definition holding : TradeExecutor.t (N := QNum) :=
  {| TradeExecutor.balanceManager := TradeExecutor.balanceManager start;
     TradeExecutor.positionTracker :=
       [ (PositionTracker.key "0xabc" "YES", open_position "YES" 1000 (4 # 10)) ];
     TradeExecutor.history := [] |}.

(** A position of 1000 shares bought at 0.40 and marked at 0.70. *)
Definition winner : Position.t (N := QNum) :=
  {| Position.id := "position-YES";
     Position.marketId := "0xabc";
     Position.marketQuestion := "Will it rain tomorrow?";
     Position.tokenId := "token-YES";
     Position.outcome := "YES";
     Position.shares := 1000;
     Position.avgPrice := 4 # 10;
     Position.currentPrice := 7 # 10;
     Position.unrealizedPnL := 300;
     Position.openedAt := ValidDate t0 |}.

(** The two tokens of a binary market, as the feed names them. *)
Definition tokens : list Token.t :=
  [ {| Token.token_id := "token-YES"; Token.outcome := "Yes" |};
    {| Token.token_id := "token-NO"; Token.outcome := "No" |} ].

(** Three buy signals and a hold. *)
Definition signals : list (MarketAnalysis.t (N := QNum)) :=
  [ analysis (5 # 10);
    MarketAnalyzer.analyze (P := plain) (0 : Q) (market (8 # 10) (2 # 10)) value;
    analysis (9 # 10);
    analysis (7 # 10) ].

(** The platform that knows the bundle [two_sided] prints and the three
    documents in it. *)
Definition vault_documents : list (json (N := QNum)) :=
  Eval vm_compute in
    [ bundle_json (P := plain) two_sided;
      balance_json (P := plain) (TradeExecutor.balanceManager two_sided);
      positions_json (P := plain) (TradeExecutor.positionTracker two_sided);
      history_json (P := plain) two_sided ].

Definition vault : Platform (N := QNum) := Example.platform vault_documents.

End Cases.

(* ================================================================== *)
(** * Properties *)
(* ================================================================== *)

(** ** The comparison laws of the two number structures *)

Lemma Q_ltb_leb_false (a b : Q) : QNumber.ltb a b = true -> Qle_bool b a = false.
Proof.
  unfold QNumber.ltb. destruct (Qle_bool b a); simpl; congruence.
Qed.

Lemma Q_eqb_leb (a b : Q) : Qeq_bool a b = true -> Qle_bool a b = true.
Proof.
  intros H. apply Qeq_bool_eq in H. apply Qle_bool_iff. rewrite H. apply Qle_refl.
Qed.

#[export] Instance QNum_laws : JSNumberLaws QNum.
Proof.
  split; [exact Q_ltb_leb_false | exact Q_eqb_leb].
Qed.

Lemma F64_compare_Lt_Gt (a b : spec_float) :
  SFcompare a b = Some Lt -> SFcompare b a = Some Gt.
Proof.
  destruct a as [sa|sa| |sa ma ea], b as [sb|sb| |sb mb eb]; simpl;
    try destruct sa; try destruct sb; simpl; try congruence;
    rewrite (Z.compare_antisym ea eb);
    destruct (ea ?= eb)%Z; simpl; try congruence;
    pose proof (Pos.compare_cont_antisym ma mb Eq) as A; simpl in A;
    change PosDef.Pos.compare_cont with Pos.compare_cont;
    destruct (Pos.compare_cont Eq ma mb), (Pos.compare_cont Eq mb ma);
    simpl in *; congruence.
Qed.

Lemma F64_ltb_leb_false (a b : spec_float) :
  F64.ltb a b = true -> F64.leb b a = false.
Proof.
  unfold F64.ltb, F64.leb, SFltb, SFleb. intros H.
  destruct (SFcompare a b) as [[]|] eqn:E; try discriminate.
  now rewrite (F64_compare_Lt_Gt _ _ E).
Qed.

Lemma F64_eqb_leb (a b : spec_float) : SFeqb a b = true -> F64.leb a b = true.
Proof.
  unfold F64.leb, SFeqb, SFleb.
  destruct (SFcompare a b) as [[]|]; congruence.
Qed.

#[export] Instance F64Num_laws : JSNumberLaws F64Num.
Proof.
  split; [exact F64_ltb_leb_false | exact F64_eqb_leb].
Qed.

Lemma Q_order_irrefl (a : Q) : QNumber.ltb a a = false.
Proof.
  unfold QNumber.ltb. apply negb_false_iff. apply Qle_bool_iff. apply Qle_refl.
Qed.

Lemma Q_falsy_not_positive (a : Q) :
  QNumber.truthy a = false -> QNumber.ltb 0 a = false.
Proof.
  unfold QNumber.truthy, QNumber.ltb. intros H.
  apply negb_false_iff in H. apply Qeq_bool_iff in H.
  apply negb_false_iff. apply Qle_bool_iff. rewrite H. apply Qle_refl.
Qed.

Lemma Q_negative_leb_nonnegative (a c : Q) :
  QNumber.ltb a 0 = true -> Qle_bool 0 c = true -> Qle_bool a c = true.
Proof.
  unfold QNumber.ltb. intros Ha Hc.
  apply negb_true_iff in Ha. apply Qle_bool_iff in Hc. apply Qle_bool_iff.
  destruct (Qlt_le_dec a 0) as [Hlt|Hge].
  - apply Qlt_le_weak. now apply Qlt_le_trans with 0%Q.
  - apply Qle_bool_iff in Hge. congruence.
Qed.

#[export] Instance QNum_order : JSNumberOrder QNum.
Proof.
  split.
  - exact Q_order_irrefl.
  - exact Q_falsy_not_positive.
  - exact Q_negative_leb_nonnegative.
Qed.

Lemma F64_compare_refl (a : spec_float) : SFcompare a a <> Some Lt.
Proof.
  destruct a as [s|s| |s m e]; simpl; try destruct s; try discriminate;
    rewrite Z.compare_refl;
    change PosDef.Pos.compare_cont with Pos.compare_cont;
    change (Pos.compare_cont Eq m m) with (Pos.compare m m);
    rewrite Pos.compare_refl; discriminate.
Qed.

Lemma F64_order_irrefl (a : spec_float) : F64.ltb a a = false.
Proof.
  unfold F64.ltb, SFltb. pose proof (F64_compare_refl a) as H.
  destruct (SFcompare a a) as [[]|]; congruence.
Qed.

Lemma F64_falsy_not_positive (a : spec_float) :
  F64.truthy a = false -> F64.ltb (F64.of_Z 0) a = false.
Proof.
  destruct a as [s|s| |s m e]; try discriminate; intros _;
    try destruct s; reflexivity.
Qed.

Lemma F64_negative_leb_nonnegative (a c : spec_float) :
  F64.ltb a (F64.of_Z 0) = true -> F64.leb (F64.of_Z 0) c = true ->
  F64.leb a c = true.
Proof.
  unfold F64.ltb, F64.leb, SFltb, SFleb.
  change (F64.of_Z 0) with (S754_zero false).
  destruct a as [sa|sa| |sa ma ea], c as [sc|sc| |sc mc ec]; simpl;
    try destruct sa; try destruct sc; simpl; congruence.
Qed.

#[export] Instance F64Num_order : JSNumberOrder F64Num.
Proof.
  split.
  - exact F64_order_irrefl.
  - exact F64_falsy_not_positive.
  - exact F64_negative_leb_nonnegative.
Qed.

(** ** Insertion-ordered maps *)

Section AssocFacts.
Variables (V : Type).

Lemma get_set_same (k : string) (v : V) (m : list (string * V)) :
  Assoc.get String.eqb k (Assoc.set String.eqb k v m) = Some v.
Proof.
  induction m as [|[k' v'] m IH]; simpl.
  - now rewrite String.eqb_refl.
  - destruct (String.eqb k k') eqn:E; simpl; rewrite E; auto.
Qed.

Lemma get_set_other (k k0 : string) (v : V) (m : list (string * V)) :
  String.eqb k0 k = false ->
  Assoc.get String.eqb k0 (Assoc.set String.eqb k v m)
  = Assoc.get String.eqb k0 m.
Proof.
  intros Hne. induction m as [|[k' v'] m IH]; simpl.
  - now rewrite Hne.
  - destruct (String.eqb k k') eqn:E; simpl.
    + apply String.eqb_eq in E. subst k'. now rewrite Hne.
    + now rewrite IH.
Qed.

Lemma get_delete_same (k : string) (m : list (string * V)) :
  Assoc.get String.eqb k (Assoc.delete String.eqb k m) = None.
Proof.
  unfold Assoc.delete.
  induction m as [|[k' v'] m IH]; simpl; auto.
  destruct (String.eqb k k') eqn:E; simpl; auto.
  now rewrite E.
Qed.

Lemma get_delete_other (k k0 : string) (m : list (string * V)) :
  String.eqb k0 k = false ->
  Assoc.get String.eqb k0 (Assoc.delete String.eqb k m)
  = Assoc.get String.eqb k0 m.
Proof.
  intros Hne. unfold Assoc.delete.
  induction m as [|[k' v'] m IH]; simpl; auto.
  destruct (String.eqb k k') eqn:E; simpl.
  - apply String.eqb_eq in E. subst k'. now rewrite Hne.
  - now rewrite IH.
Qed.

(** Writing to a present key keeps the keys and their order. *)
Lemma keys_set_present (k : string) (v v0 : V) (m : list (string * V)) :
  Assoc.get String.eqb k m = Some v0 ->
  map fst (Assoc.set String.eqb k v m) = map fst m.
Proof.
  induction m as [|[k' v'] m IH]; simpl; try discriminate.
  destruct (String.eqb k k') eqn:E; simpl; auto.
  intros H. now rewrite IH.
Qed.

Lemma keys_set (k : string) (v : V) (m : list (string * V)) (x : string) :
  In x (map fst (Assoc.set String.eqb k v m)) -> x = k \/ In x (map fst m).
Proof.
  induction m as [|[k' v'] m IH]; simpl.
  - intros [H|[]]; auto.
  - destruct (String.eqb k k') eqn:E; simpl; intros [H|H]; auto.
    destruct (IH H); auto.
Qed.

(** The keys of a map stay distinct under [set] and [delete]. *)
Lemma set_distinct (k : string) (v : V) (m : list (string * V)) :
  NoDup (map fst m) -> NoDup (map fst (Assoc.set String.eqb k v m)).
Proof.
  induction m as [|[k' v'] m IH]; simpl; intros Hnd.
  - constructor; [intros []|constructor].
  - inversion Hnd as [|? ? Hnot Hrest]; subst.
    destruct (String.eqb k k') eqn:E; simpl.
    + constructor; assumption.
    + constructor; [|auto]. intros Hin.
      destruct (keys_set k v m k' Hin) as [->|Hin']; [|contradiction].
      rewrite String.eqb_refl in E. discriminate.
Qed.

Lemma delete_distinct (k : string) (m : list (string * V)) :
  NoDup (map fst m) -> NoDup (map fst (Assoc.delete String.eqb k m)).
Proof.
  unfold Assoc.delete.
  induction m as [|[k' v'] m IH]; simpl; intros Hnd; [constructor|].
  inversion Hnd as [|? ? Hnot Hrest]; subst.
  destruct (String.eqb k k'); simpl; auto.
  constructor; auto. intros Hin. apply Hnot.
  clear -Hin. induction m as [|[k2 v2] m IHm]; simpl in *; [contradiction|].
  destruct (String.eqb k k2); simpl in *; tauto.
Qed.

End AssocFacts.

Lemma distinct_NoDup (keys : list string) : distinct keys = true -> NoDup keys.
Proof.
  induction keys as [|k keys IH]; simpl; intros H; constructor.
  - apply andb_true_iff in H. destruct H as [H _].
    apply negb_true_iff in H. intros Hin.
    assert (existsb (String.eqb k) keys = true) as Hex.
    { apply existsb_exists. exists k. split; [exact Hin|apply String.eqb_refl]. }
    congruence.
  - apply IH. apply andb_true_iff in H. tauto.
Qed.

(** ** The ledger: rejected orders, cost basis, marks *)

Section Ledger.
Context {N : JSNumber} {L : JSNumberLaws N} {P : Platform}.
Local Open Scope js_scope.

Lemma rejected_buy (env : Env) (this : TradeExecutor.t) (order : OrderRequest.t) :
  OrderRequest.side order = BUY ->
  (VirtualBalance.cash (TradeExecutor.balanceManager this) <? totalWithFees order)
    = true ->
  TradeExecutor.execute env this order
  = (this,
     TradeExecutor.failure
       (TradeExecutor.insufficient_funds (totalWithFees order)
          (VirtualBalance.cash (TradeExecutor.balanceManager this)))).
Proof.
  intros Hside Hlt.
  unfold TradeExecutor.execute, TradeExecutor.executeBuy. rewrite Hside.
  unfold BalanceManager.canAfford, geb.
  apply ltb_leb_false in Hlt. unfold totalWithFees in Hlt. simpl in Hlt.
  now rewrite Hlt.
Qed.

Lemma rejected_sell (env : Env) (this : TradeExecutor.t) (order : OrderRequest.t) :
  OrderRequest.side order = SELL ->
  (held this order <? OrderRequest.shares order) = true ->
  TradeExecutor.execute env this order
  = (this,
     TradeExecutor.failure
       (TradeExecutor.insufficient_shares (held this order)
          (OrderRequest.shares order))).
Proof.
  intros Hside Hlt.
  unfold TradeExecutor.execute, TradeExecutor.executeSell. rewrite Hside.
  unfold held in Hlt. now rewrite Hlt.
Qed.

(** C2. A BUY whose total with fees exceeds the cash, and a SELL of more
    shares than the key holds, return [success = false] with the error
    string of the source (for the sell: "Insufficient shares. Have
    <held>, trying to sell <requested>") and the executor state they were
    called on: balance, position map and trade history unchanged. *)
Theorem rejected_order_leaves_state
    (env : Env) (this : TradeExecutor.t) (order : OrderRequest.t) :
  (OrderRequest.side order = BUY /\
   (VirtualBalance.cash (TradeExecutor.balanceManager this)
      <? totalWithFees order) = true)
  \/ (OrderRequest.side order = SELL /\
      (held this order <? OrderRequest.shares order) = true) ->
  let (this', result) := TradeExecutor.execute env this order in
  this' = this
  /\ result
     = {| OrderResult.success := false;
          OrderResult.trade := None;
          OrderResult.error :=
            Some match OrderRequest.side order with
                 | BUY =>
                     ("Insufficient funds. Need $"
                        ++ Number_toFixed 2 (totalWithFees order)
                        ++ ", have $"
                        ++ Number_toFixed 2
                             (VirtualBalance.cash
                                (TradeExecutor.balanceManager this)))%string
                 | SELL =>
                     ("Insufficient shares. Have "
                        ++ Number_toString (held this order)
                        ++ ", trying to sell "
                        ++ Number_toString (OrderRequest.shares order))%string
                 end;
          OrderResult.newBalance := None |}.
Proof.
  intros [[Hside Hlt]|[Hside Hlt]].
  - rewrite (rejected_buy env this order Hside Hlt), Hside. split; reflexivity.
  - rewrite (rejected_sell env this order Hside Hlt), Hside. split; reflexivity.
Qed.

End Ledger.

Section CostBasis.
Context {N : JSNumber} {L : JSNumberLaws N} {P : Platform}.
Local Open Scope js_scope.

Lemma addPosition_present (uuid : string) (now : Date) (this : PositionTracker.t)
    (order : OrderRequest.t) (shares price : number) :
  let (this', position) :=
    PositionTracker.addPosition uuid now this order shares price in
  PositionTracker.get (order_key order) this' = Some position.
Proof.
  unfold PositionTracker.addPosition, order_key, PositionTracker.get.
  destruct (Assoc.get String.eqb _ this); apply get_set_same.
Qed.

(** C10. A buy into a key that already holds a position overwrites the
    position's mark with the price of the buy and recomputes its
    unrealized P&L as (price - newAvgPrice) * totalShares, where
    newAvgPrice and totalShares are the averaged price and the summed
    shares the same call stores. *)
Theorem repeat_buy_moves_mark (uuid : string) (now : Date)
    (this : PositionTracker.t) (order : OrderRequest.t)
    (shares price : number) (existing : Position.t) :
  PositionTracker.get (order_key order) this = Some existing ->
  let (this', position) :=
    PositionTracker.addPosition uuid now this order shares price in
  PositionTracker.get (order_key order) this' = Some position
  /\ Position.currentPrice position = price
  /\ Position.unrealizedPnL position
     = (price - Position.avgPrice position) * Position.shares position
  /\ Position.shares position = Position.shares existing + shares
  /\ Position.avgPrice position
     = (Position.shares existing * Position.avgPrice existing + shares * price)
       / (Position.shares existing + shares).
Proof.
  intros Hget.
  pose proof (addPosition_present uuid now this order shares price) as Hp.
  unfold PositionTracker.addPosition in *. fold (order_key order) in *.
  rewrite Hget in *. simpl. auto.
Qed.

(** The generic half of C3: what [addPosition] stores under the key of
    the order, for a key that holds a position and for a first buy. *)
Lemma addPosition_cost_basis (uuid : string) (now : Date)
    (this : PositionTracker.t) (order : OrderRequest.t)
    (shares price : number) :
  let (this', position) :=
    PositionTracker.addPosition uuid now this order shares price in
  PositionTracker.get (order_key order) this' = Some position
  /\ match PositionTracker.get (order_key order) this with
     | Some existing =>
         Position.shares position = Position.shares existing + shares
         /\ Position.avgPrice position
            = (Position.shares existing * Position.avgPrice existing
               + shares * price)
              / (Position.shares existing + shares)
     | None =>
         Position.shares position = shares
         /\ Position.avgPrice position = price
     end.
Proof.
  pose proof (addPosition_present uuid now this order shares price) as Hp.
  unfold PositionTracker.addPosition in *. fold (order_key order) in *.
  destruct (PositionTracker.get (order_key order) this); simpl; auto.
Qed.

(** C4. A successful [reducePosition] returns
    realizedPnL = (sellPrice - avgPrice) * shares sold.  When it leaves a
    positive remainder, the position under the key keeps its avgPrice,
    openedAt and identity fields (id, marketId, marketQuestion, tokenId,
    outcome); shares becomes the remainder, currentPrice the sell price
    and unrealizedPnL (sellPrice - avgPrice) * remainder.  When the
    remainder is 0 the key is removed from the map. *)
Theorem sell_keeps_cost_basis (this : PositionTracker.t)
    (marketId outcome : string) (shares sellPrice : number)
    (position : Position.t) :
  let key := PositionTracker.key marketId outcome in
  let remainder := Position.shares position - shares in
  PositionTracker.get key this = Some position ->
  let (this', result) :=
    PositionTracker.reducePosition this marketId outcome shares sellPrice in
  PositionTracker.success result = true ->
  PositionTracker.realizedPnL result
  = (sellPrice - Position.avgPrice position) * shares
  /\ ((of_Z 0 <? remainder) = true ->
      PositionTracker.remainingShares result = remainder
      /\ PositionTracker.get key this'
         = Some {| Position.id := Position.id position;
                   Position.marketId := Position.marketId position;
                   Position.marketQuestion := Position.marketQuestion position;
                   Position.tokenId := Position.tokenId position;
                   Position.outcome := Position.outcome position;
                   Position.shares := remainder;
                   Position.avgPrice := Position.avgPrice position;
                   Position.currentPrice := sellPrice;
                   Position.unrealizedPnL :=
                     (sellPrice - Position.avgPrice position) * remainder;
                   Position.openedAt := Position.openedAt position |})
  /\ ((remainder =? of_Z 0) = true -> PositionTracker.get key this' = None).
Proof.
  intros key remainder Hget.
  unfold PositionTracker.reducePosition. fold key. rewrite Hget.
  destruct (Position.shares position <? shares) eqn:Hlt; simpl.
  - discriminate.
  - fold remainder.
    destruct (remainder <=? of_Z 0) eqn:Hle; simpl; intros _.
    + split; [reflexivity|]. split.
      * intros Hpos. apply ltb_leb_false in Hpos. congruence.
      * intros _. apply get_delete_same.
    + split; [reflexivity|]. split.
      * intros _. split; [reflexivity|]. apply get_set_same.
      * intros Hz. apply eqb_leb in Hz. congruence.
Qed.

(** Every call of [execute] leaves the keys of the position map
    distinct, as the keys of a [Map] are. *)
Lemma execute_keys_distinct (env : Env) (this : TradeExecutor.t)
    (order : OrderRequest.t) :
  NoDup (map fst (TradeExecutor.positionTracker this)) ->
  NoDup (map fst (TradeExecutor.positionTracker
                    (fst (TradeExecutor.execute env this order)))).
Proof.
  intros Hnd. unfold TradeExecutor.execute.
  destruct (OrderRequest.side order).
  - unfold TradeExecutor.executeBuy.
    destruct (negb _); simpl; [exact Hnd|].
    unfold PositionTracker.addPosition.
    destruct (PositionTracker.get _ _); simpl; now apply set_distinct.
  - unfold TradeExecutor.executeSell.
    destruct (_ <? _); simpl; [exact Hnd|].
    unfold PositionTracker.reducePosition.
    destruct (PositionTracker.get _ _) as [position|]; simpl; [|exact Hnd].
    destruct (Position.shares position <? _); simpl; [exact Hnd|].
    destruct (_ <=? _); simpl.
    + now apply delete_distinct.
    + now apply set_distinct.
Qed.

End CostBasis.

(** ** The risk gate *)

Section RiskGate.
Context {N : JSNumber} {P : Platform}.
Import AgentConfig MarketAnalysis.
Local Open Scope js_scope.

(** The gate as the code evaluates it: four checks in this order --
    (1) positions.length >= maxPositions; (2) the position that
    [positions.find] returns for the market, the first one in the list,
    has shares * currentPrice >= maxPositionSize; (3) confidence <
    minConfidence; (4) suggestedSize * quoted price (the YES price for a
    signal naming YES, the NO price otherwise) > 20% of cash -- with the
    reason of the first failing check, or allowed when none fails. *)
Lemma risk_gate_order (config : AgentConfig.t) (analysis : MarketAnalysis.t)
    (positions : list Position.t) (portfolio : PortfolioSummary.t) :
  RiskManager.canTakeNewPosition config analysis positions portfolio
  = risk_gate check_size_first config analysis positions portfolio.
Proof.
  unfold RiskManager.canTakeNewPosition, risk_gate, first_failing,
    check_max_positions, check_size_first, check_confidence, check_cash,
    quoted_price, position_value, same_market.
  destruct (length_number positions >=? maxPositions config); [reflexivity|].
  destruct (find _ positions) as [p|].
  - destruct (Position.shares p * Position.currentPrice p
                >=? maxPositionSize config); [reflexivity|].
    destruct (confidence analysis <? minConfidence config); [reflexivity|].
    destruct (_ >? _); reflexivity.
  - destruct (confidence analysis <? minConfidence config); [reflexivity|].
    destruct (_ >? _); reflexivity.
Qed.

(** Whenever the first position of the market triggers check 2, some
    position of the market does; the converse fails when a later
    position of the same market is the large one. *)
Lemma check_size_first_some (config : AgentConfig.t)
    (analysis : MarketAnalysis.t) (positions : list Position.t) :
  check_size_first config analysis positions = true ->
  check_size_some config analysis positions = true.
Proof.
  unfold check_size_first, check_size_some.
  induction positions as [|p ps IH]; simpl; try discriminate.
  destruct (same_market analysis p); simpl.
  - intros ->. reflexivity.
  - exact IH.
Qed.

(** A confidence under the threshold is never allowed; the reason is
    the confidence reason exactly when checks 1 and 2 pass. *)
Lemma low_confidence_rejected (config : AgentConfig.t)
    (analysis : MarketAnalysis.t) (positions : list Position.t)
    (portfolio : PortfolioSummary.t) :
  check_confidence config analysis = true ->
  let d := RiskManager.canTakeNewPosition config analysis positions portfolio in
  RiskManager.allowed d = false
  /\ (check_max_positions config positions = false ->
      check_size_first config analysis positions = false ->
      RiskManager.reason d = RiskManager.confidence_reason config analysis)
  /\ (check_max_positions config positions = true ->
      RiskManager.reason d = RiskManager.max_positions_reason config)
  /\ (check_max_positions config positions = false ->
      check_size_first config analysis positions = true ->
      RiskManager.reason d = RiskManager.max_size_reason).
Proof.
  intros Hc d. subst d.
  unfold RiskManager.canTakeNewPosition.
  fold (check_max_positions config positions).
  fold (same_market analysis).
  change (match find (same_market analysis) positions with
          | Some p =>
              Position.shares p * Position.currentPrice p
                >=? maxPositionSize config
          | None => false
          end) with (check_size_first config analysis positions).
  unfold check_confidence in Hc. rewrite Hc.
  destruct (check_max_positions config positions),
           (check_size_first config analysis positions); simpl;
    repeat split; intros; congruence.
Qed.

End RiskGate.

(** ** Cash, in exact arithmetic *)

Section ExactLedger.
Context {P : Platform (N := QNum)}.
Local Open Scope Q_scope.

Lemma execute_cash (env : Env) (this : TradeExecutor.t) (order : OrderRequest.t) :
  let (this', result) := TradeExecutor.execute env this order in
  cash_of this' == cash_of this - debit_of order result + credit_of order result
  /\ (0 <= cash_of this -> nonnegative_order (env, order) -> 0 <= cash_of this').
Proof.
  unfold TradeExecutor.execute, debit_of, credit_of, cash_of, nonnegative_order.
  destruct (OrderRequest.side order) eqn:Hside.
  - unfold TradeExecutor.executeBuy, BalanceManager.deductCash.
    destruct (BalanceManager.canAfford _ _) eqn:Hafford; simpl.
    + unfold BalanceManager.canAfford, geb in Hafford. simpl in Hafford.
      apply Qle_bool_iff in Hafford.
      change (QNumber.lit 1 3) with (1 # 1000) in *.
      unfold buy_debit. split; [lra|]. intros _ _. lra.
    + split; [lra|]. tauto.
  - unfold TradeExecutor.executeSell.
    destruct (ltb _ _); simpl.
    + split; [lra|]. tauto.
    + destruct (PositionTracker.reducePosition _ _ _ _ _) as [positions' result].
      destruct (PositionTracker.success result); simpl.
      * change (QNumber.lit 1 3) with (1 # 1000).
        unfold sell_credit. split; [lra|].
        intros Hc [Hs Hp].
        assert (0 <= OrderRequest.shares order * OrderRequest.price order)
          by (apply Qmult_le_0_compat; assumption).
        lra.
      * split; [lra|]. tauto.
Qed.

(** Without rounding the debits and credits of a run add up: the final
    cash is the starting cash minus the sum of shares * price * 1.001
    over the successful buys plus the sum of shares * price * 0.999 over
    the successful sells; and from a nonnegative balance, with
    nonnegative shares and prices in every order, the cash stays
    nonnegative. *)
Lemma exact_cash_sums (this : TradeExecutor.t)
    (calls : list (Env * OrderRequest.t)) :
  let (final, results) := TradeExecutor.run this calls in
  cash_of final == cash_of this - sum_buys calls results + sum_sells calls results
  /\ (0 <= cash_of this -> Forall nonnegative_order calls -> 0 <= cash_of final).
Proof.
  revert this.
  induction calls as [|[env order] calls IH]; intros this; simpl.
  - split; [lra|]. tauto.
  - pose proof (execute_cash env this order) as Hstep.
    destruct (TradeExecutor.execute env this order) as [this' result].
    specialize (IH this').
    destruct (TradeExecutor.run this' calls) as [final results].
    destruct Hstep as [Hstep Hpos], IH as [IH IHpos]. simpl. split.
    + rewrite IH, Hstep. lra.
    + intros Hc Hall. inversion Hall; subst. auto.
Qed.

End ExactLedger.

(** ** Cash, call by call *)

Section LedgerRun.
Context {N : JSNumber} {P : Platform}.
Local Open Scope js_scope.

Lemma execute_settles (env : Env) (this : TradeExecutor.t) (order : OrderRequest.t) :
  let (this', result) := TradeExecutor.execute env this order in
  cash_in this' = settle (cash_in this) order result
  /\ (OrderRequest.side order = BUY -> OrderResult.success result = true ->
      (cash_in this >=? totalWithFees order) = true).
Proof.
  unfold TradeExecutor.execute, settle, cash_in, totalWithFees, netProceeds.
  destruct (OrderRequest.side order) eqn:Hside.
  - unfold TradeExecutor.executeBuy, BalanceManager.deductCash,
      BalanceManager.canAfford.
    destruct (_ >=? _) eqn:Hafford; simpl.
    + split; reflexivity.
    + split; [reflexivity|]. intros _ H. discriminate H.
  - unfold TradeExecutor.executeSell.
    destruct (_ <? _); simpl; [split; [reflexivity|intros H; discriminate H]|].
    destruct (PositionTracker.reducePosition _ _ _ _ _) as [positions' result].
    destruct (PositionTracker.success result); simpl;
      (split; [reflexivity|intros H; discriminate H]).
Qed.

(** C1, amended. For every sequence of calls of [execute], in the
    number type of the code, the final cash is the starting cash updated
    once for each successful call, in the order of the calls: a
    successful buy replaces the cash by cash - totalWithFees, with
    totalWithFees = shares * price + shares * price * 0.001, a successful
    sell replaces it by cash + netProceeds, with netProceeds =
    shares * price - shares * price * 0.001, and a rejected call leaves
    it.  Every call has its result, and a buy succeeds only when
    cash >= totalWithFees holds of the cash of that moment. *)
Theorem cash_conservation (this : TradeExecutor.t)
    (calls : list (Env * OrderRequest.t)) :
  let (final, results) := TradeExecutor.run this calls in
  cash_in final = settled (cash_in this) calls results
  /\ List.length results = List.length calls
  /\ covered (cash_in this) calls results.
Proof.
  revert this.
  induction calls as [|[env order] calls IH]; intros this; simpl.
  - repeat split.
  - pose proof (execute_settles env this order) as Hstep.
    destruct (TradeExecutor.execute env this order) as [this' result].
    specialize (IH this').
    destruct (TradeExecutor.run this' calls) as [final results].
    destruct Hstep as [Hstep Hguard], IH as (IH & Hlen & Hcov). simpl.
    rewrite <- Hstep. repeat split; auto.
Qed.

End LedgerRun.

(** ** Two buys into one key *)

Section TwoBuys.
Context {N : JSNumber} {P : Platform}.
Local Open Scope js_scope.

Lemma buy_accepted (env : Env) (this : TradeExecutor.t) (order : OrderRequest.t) :
  OrderRequest.side order = BUY ->
  BalanceManager.canAfford (TradeExecutor.balanceManager this)
    (totalWithFees order) = true ->
  let this' := fst (TradeExecutor.execute env this order) in
  VirtualBalance.cash (TradeExecutor.balanceManager this')
  = VirtualBalance.cash (TradeExecutor.balanceManager this) - totalWithFees order
  /\ TradeExecutor.positionTracker this'
     = fst (PositionTracker.addPosition (uuid_position env) (now_position env)
              (TradeExecutor.positionTracker this) order
              (OrderRequest.shares order) (OrderRequest.price order)).
Proof.
  intros Hside Hafford.
  unfold TradeExecutor.execute, TradeExecutor.executeBuy,
    BalanceManager.deductCash. rewrite Hside.
  unfold totalWithFees in Hafford. simpl in Hafford. rewrite Hafford.
  simpl. auto.
Qed.

Lemma two_buys (env1 env2 : Env) (this : TradeExecutor.t)
    (order1 order2 : OrderRequest.t) :
  OrderRequest.side order1 = BUY ->
  OrderRequest.side order2 = BUY ->
  order_key order2 = order_key order1 ->
  PositionTracker.get (order_key order1) (TradeExecutor.positionTracker this)
    = None ->
  let cash0 := VirtualBalance.cash (TradeExecutor.balanceManager this) in
  (cash0 >=? totalWithFees order1) = true ->
  (cash0 - totalWithFees order1 >=? totalWithFees order2) = true ->
  let this2 :=
    fst (TradeExecutor.execute env2
           (fst (TradeExecutor.execute env1 this order1)) order2) in
  VirtualBalance.cash (TradeExecutor.balanceManager this2)
  = cash0 - totalWithFees order1 - totalWithFees order2
  /\ exists position,
       PositionTracker.get (order_key order1)
         (TradeExecutor.positionTracker this2) = Some position
       /\ Position.shares position
          = OrderRequest.shares order1 + OrderRequest.shares order2
       /\ Position.avgPrice position
          = (OrderRequest.shares order1 * OrderRequest.price order1
             + OrderRequest.shares order2 * OrderRequest.price order2)
            / (OrderRequest.shares order1 + OrderRequest.shares order2).
Proof.
  intros Hs1 Hs2 Hkey Hnone cash0 Ha1 Ha2 this2.
  destruct (buy_accepted env1 this order1 Hs1 Ha1) as [Hc1 Hp1].
  set (this1 := fst (TradeExecutor.execute env1 this order1)) in *.
  assert (Ha2' : BalanceManager.canAfford (TradeExecutor.balanceManager this1)
                   (totalWithFees order2) = true).
  { unfold BalanceManager.canAfford. rewrite Hc1. exact Ha2. }
  destruct (buy_accepted env2 this1 order2 Hs2 Ha2') as [Hc2 Hp2].
  fold this2 in Hc2, Hp2. split.
  - rewrite Hc2, Hc1. reflexivity.
  - pose proof (addPosition_cost_basis (uuid_position env1) (now_position env1)
                  (TradeExecutor.positionTracker this) order1
                  (OrderRequest.shares order1) (OrderRequest.price order1)) as H1.
    destruct (PositionTracker.addPosition _ _ _ order1 _ _) as [m1 p1].
    simpl in Hp1. rewrite Hnone in H1. destruct H1 as [Hg1 [Hsh1 Hav1]].
    pose proof (addPosition_cost_basis (uuid_position env2) (now_position env2)
                  (TradeExecutor.positionTracker this1) order2
                  (OrderRequest.shares order2) (OrderRequest.price order2)) as H2.
    destruct (PositionTracker.addPosition _ _ _ order2 _ _) as [m2 p2].
    simpl in Hp2. rewrite Hkey, Hp1, Hg1 in H2. destruct H2 as [Hg2 [Hsh2 Hav2]].
    exists p2. rewrite Hp2. rewrite Hsh1, Hav1 in *. auto.
Qed.

End TwoBuys.

(** ** Scenario B: 1000 shares at 0.40, then 500 at 0.50, from 100000 *)

Lemma scenario_B_exact {P : Platform (N := QNum)} (env1 env2 : Env)
    (this : TradeExecutor.t) (order1 order2 : OrderRequest.t) :
  scenario_B_start this order1 order2 ->
  let this2 := after_two env1 env2 this order1 order2 in
  (VirtualBalance.cash (TradeExecutor.balanceManager this2) == 9934935 # 100)%Q
  /\ exists position,
       PositionTracker.get (order_key order1) (TradeExecutor.positionTracker this2)
         = Some position
       /\ (Position.shares position == 1500)%Q
       /\ (Position.avgPrice position
           == (1000 * (4 # 10) + 500 * (5 # 10)) / 1500)%Q
       /\ (Position.avgPrice position == 13 # 30)%Q.
Proof.
  intros (Hcash & Hnone & Hkey & Hs1 & Hsh1 & Hp1 & Hs2 & Hsh2 & Hp2) this2.
  assert (Ht1 : totalWithFees order1 = ((1000 * (4 # 10)) + (1000 * (4 # 10)) * (1 # 1000))%Q).
  { unfold totalWithFees. rewrite Hsh1, Hp1. reflexivity. }
  assert (Ht2 : totalWithFees order2 = ((500 * (5 # 10)) + (500 * (5 # 10)) * (1 # 1000))%Q).
  { unfold totalWithFees. rewrite Hsh2, Hp2. reflexivity. }
  destruct (two_buys env1 env2 this order1 order2 Hs1 Hs2 Hkey Hnone)
    as [Hc [position (Hg & Hsh & Hav)]].
  - rewrite Hcash, Ht1. reflexivity.
  - rewrite Hcash, Ht1, Ht2. reflexivity.
  - fold (after_two env1 env2 this order1 order2) in Hc, Hg. fold this2 in Hc, Hg.
    split.
    + rewrite Hc, Hcash, Ht1, Ht2. reflexivity.
    + exists position. split; [exact Hg|].
      rewrite Hsh, Hav, Hsh1, Hp1, Hsh2, Hp2.
      repeat split; reflexivity.
Qed.

Lemma scenario_B_binary64 {P : Platform (N := F64Num)} (env1 env2 : Env)
    (this : TradeExecutor.t (N := F64Num))
    (order1 order2 : OrderRequest.t (N := F64Num)) :
  scenario_B_start this order1 order2 ->
  let this2 := after_two env1 env2 this order1 order2 in
  VirtualBalance.cash (TradeExecutor.balanceManager this2) = F64.lit 9934935 2
  /\ exists position,
       PositionTracker.get (order_key order1) (TradeExecutor.positionTracker this2)
         = Some position
       /\ Position.shares position = F64.of_Z 1500
       /\ Position.avgPrice position
          = div (add (mul (of_Z 1000) (lit 4 1)) (mul (of_Z 500) (lit 5 1)))
                (of_Z 1500)
       /\ ltb (lit 4333 4) (Position.avgPrice position) = true
       /\ ltb (Position.avgPrice position) (lit 4334 4) = true.
Proof.
  intros (Hcash & Hnone & Hkey & Hs1 & Hsh1 & Hp1 & Hs2 & Hsh2 & Hp2) this2.
  destruct (two_buys env1 env2 this order1 order2 Hs1 Hs2 Hkey Hnone)
    as [Hc [position (Hg & Hsh & Hav)]].
  - unfold totalWithFees. rewrite Hcash, Hsh1, Hp1. vm_compute. reflexivity.
  - unfold totalWithFees. rewrite Hcash, Hsh1, Hp1, Hsh2, Hp2. vm_compute. reflexivity.
  - fold (after_two env1 env2 this order1 order2) in Hc, Hg. fold this2 in Hc, Hg.
    split.
    + rewrite Hc. unfold totalWithFees. rewrite Hcash, Hsh1, Hp1, Hsh2, Hp2.
      vm_compute. reflexivity.
    + exists position. split; [exact Hg|].
      rewrite Hsh, Hav, Hsh1, Hp1, Hsh2, Hp2.
      repeat split; vm_compute; reflexivity.
Qed.

(** C3. A buy into a key that holds a position with shares s0 and average
    price p0 sets shares to s0 + s and avgPrice to
    (s0*p0 + s*p) / (s0 + s); a first buy into a key creates a position
    with the shares bought and avgPrice = price.  In particular, after
    buying 1000 shares at 0.40 and then 500 at 0.50 into one key from cash
    100000, avgPrice = (1000*0.40 + 500*0.50)/1500 = 0.4333... and
    cash = 99349.35 -- in exact arithmetic and in binary64 alike. *)
Theorem weighted_average_cost_basis :
  (forall (N : JSNumber) (P : Platform) (uuid : string) (now : Date)
          (this : PositionTracker.t) (order : OrderRequest.t)
          (shares price : number),
      let (this', position) :=
        PositionTracker.addPosition uuid now this order shares price in
      PositionTracker.get (order_key order) this' = Some position
      /\ match PositionTracker.get (order_key order) this with
         | Some existing =>
             Position.shares position = add (Position.shares existing) shares
             /\ Position.avgPrice position
                = div (add (mul (Position.shares existing)
                                (Position.avgPrice existing))
                           (mul shares price))
                      (add (Position.shares existing) shares)
         | None =>
             Position.shares position = shares
             /\ Position.avgPrice position = price
         end)
  /\ (forall (P : Platform (N := QNum)) (env1 env2 : Env)
             (this : TradeExecutor.t) (order1 order2 : OrderRequest.t),
         scenario_B_start this order1 order2 ->
         let this2 := after_two env1 env2 this order1 order2 in
         (VirtualBalance.cash (TradeExecutor.balanceManager this2)
          == 9934935 # 100)%Q
         /\ exists position,
              PositionTracker.get (order_key order1)
                (TradeExecutor.positionTracker this2) = Some position
              /\ (Position.shares position == 1500)%Q
              /\ (Position.avgPrice position
                  == (1000 * (4 # 10) + 500 * (5 # 10)) / 1500)%Q
              /\ (Position.avgPrice position == 13 # 30)%Q)
  /\ (forall (P : Platform (N := F64Num)) (env1 env2 : Env)
             (this : TradeExecutor.t (N := F64Num))
             (order1 order2 : OrderRequest.t (N := F64Num)),
         scenario_B_start this order1 order2 ->
         let this2 := after_two env1 env2 this order1 order2 in
         VirtualBalance.cash (TradeExecutor.balanceManager this2)
         = F64.lit 9934935 2
         /\ exists position,
              PositionTracker.get (order_key order1)
                (TradeExecutor.positionTracker this2) = Some position
              /\ Position.shares position = F64.of_Z 1500
              /\ Position.avgPrice position
                 = div (add (mul (of_Z 1000) (lit 4 1))
                            (mul (of_Z 500) (lit 5 1)))
                       (of_Z 1500)
              /\ ltb (lit 4333 4) (Position.avgPrice position) = true
              /\ ltb (Position.avgPrice position) (lit 4334 4) = true).
Proof.
  split; [|split].
  - intros. apply addPosition_cost_basis.
  - intros. now apply scenario_B_exact.
  - intros. now apply scenario_B_binary64.
Qed.

(** ** Comparisons of exact numbers *)

(** Shows the operations of the exact structure as those of [Q]. *)
Ltac exact_ops :=
  change (@add QNum) with Qplus in *;
  change (@sub QNum) with Qminus in *;
  change (@mul QNum) with Qmult in *;
  change (@div QNum) with Qdiv in *;
  change (@Math_abs QNum) with Qabs in *;
  change (@ltb QNum) with QNumber.ltb in *;
  change (@leb QNum) with Qle_bool in *;
  change (@lit QNum) with QNumber.lit in *;
  change (@of_Z QNum) with inject_Z in *;
  change (@number QNum) with Q in *.

Lemma Q_ltb_lt (a b : Q) : QNumber.ltb a b = true <-> (a < b)%Q.
Proof.
  unfold QNumber.ltb. rewrite negb_true_iff.
  destruct (Qle_bool b a) eqn:E.
  - apply Qle_bool_iff in E. split; [discriminate|]. intros H.
    exfalso. apply (Qlt_not_le _ _ H E).
  - split; [|reflexivity]. intros _. apply Qnot_le_lt. intros H.
    apply Qle_bool_iff in H. congruence.
Qed.

Lemma Q_ltb_ge (a b : Q) : QNumber.ltb a b = false <-> (b <= a)%Q.
Proof.
  unfold QNumber.ltb. rewrite negb_false_iff. apply Qle_bool_iff.
Qed.

(** ** Confidence under the threshold *)

(** C6, amended. With minConfidence = 0.5 and an analysis of confidence
    0.45, [canTakeNewPosition] rejects for every list of open positions
    and every portfolio summary.  The reason is the confidence reason
    unless check 1 or check 2 rejects first: it is the reason of check 1
    when there are maxPositions or more open positions, and the reason
    of check 2 when check 1 passes and the position-size check, as
    [canTakeNewPosition] evaluates it, fails.  Stated for exact numbers
    and for binary64. *)
Theorem low_confidence_rejection :
  (forall (P : Platform (N := QNum)) (config : AgentConfig.t)
          (analysis : MarketAnalysis.t) (positions : list Position.t)
          (portfolio : PortfolioSummary.t),
      (AgentConfig.minConfidence config == 5 # 10)%Q ->
      (MarketAnalysis.confidence analysis == 45 # 100)%Q ->
      let d := RiskManager.canTakeNewPosition config analysis positions portfolio in
      RiskManager.allowed d = false
      /\ (check_max_positions config positions = false ->
          check_size_first config analysis positions = false ->
          RiskManager.reason d = RiskManager.confidence_reason config analysis)
      /\ (check_max_positions config positions = true ->
          RiskManager.reason d = RiskManager.max_positions_reason config)
      /\ (check_max_positions config positions = false ->
          check_size_first config analysis positions = true ->
          RiskManager.reason d = RiskManager.max_size_reason))
  /\ (forall (P : Platform (N := F64Num)) (config : AgentConfig.t (N := F64Num))
             (analysis : MarketAnalysis.t (N := F64Num))
             (positions : list (Position.t (N := F64Num)))
             (portfolio : PortfolioSummary.t (N := F64Num)),
         AgentConfig.minConfidence config = lit 5 1 ->
         MarketAnalysis.confidence analysis = lit 45 2 ->
         let d := RiskManager.canTakeNewPosition config analysis positions portfolio in
         RiskManager.allowed d = false
         /\ (check_max_positions config positions = false ->
             check_size_first config analysis positions = false ->
             RiskManager.reason d = RiskManager.confidence_reason config analysis)
         /\ (check_max_positions config positions = true ->
             RiskManager.reason d = RiskManager.max_positions_reason config)
         /\ (check_max_positions config positions = false ->
             check_size_first config analysis positions = true ->
             RiskManager.reason d = RiskManager.max_size_reason)).
Proof.
  split.
  - intros P config analysis positions portfolio Hmin Hconf.
    apply low_confidence_rejected. unfold check_confidence. simpl.
    apply Q_ltb_lt. rewrite Hmin, Hconf. reflexivity.
  - intros P config analysis positions portfolio Hmin Hconf.
    apply low_confidence_rejected. unfold check_confidence.
    rewrite Hmin, Hconf. vm_compute. reflexivity.
Qed.

(** ** The value strategy *)

Section ValueStrategy.
Context {N : JSNumber} {P : Platform}.
Import EnrichedMarket MarketAnalysis.
Local Open Scope js_scope.

Lemma analyzeValue_signal (rnd : number) (market : EnrichedMarket.t) :
  let a := MarketAnalyzer.analyze rnd market value in
  if Math_abs (yesPrice market - lit 5 1) <? lit 15 2
  then signal a = (if yesPrice market <? lit 5 1 then BUY_YES else BUY_NO)
       /\ confidence a = lit 55 2
  else signal a = HOLD.
Proof.
  unfold MarketAnalyzer.analyze, MarketAnalyzer.analyzeValue.
  destruct (Math_abs _ <? _); simpl; auto.
Qed.

End ValueStrategy.

(** C9, amended. Under the 'value' strategy, for every market with
    |yesPrice - 0.5| < 0.15, [analyze] returns BUY_YES when yesPrice < 0.5
    and BUY_NO otherwise, with confidence 0.55; whenever
    noPrice = 1 - yesPrice this is the outcome with the lower quoted
    price, if one of the two is lower.  For every market outside the band
    it returns HOLD. *)
Theorem value_strategy_signal (P : Platform (N := QNum)) (rnd : Q)
    (market : EnrichedMarket.t) :
  let a := MarketAnalyzer.analyze rnd market value in
  (in_value_band market ->
   ((EnrichedMarket.yesPrice market < 5 # 10)%Q -> MarketAnalysis.signal a = BUY_YES)
   /\ ((5 # 10 <= EnrichedMarket.yesPrice market)%Q -> MarketAnalysis.signal a = BUY_NO)
   /\ (MarketAnalysis.confidence a == 55 # 100)%Q
   /\ ((EnrichedMarket.noPrice market == 1 - EnrichedMarket.yesPrice market)%Q ->
       buys_cheaper_side market (MarketAnalysis.signal a)))
  /\ (~ in_value_band market -> MarketAnalysis.signal a = HOLD).
Proof.
  intros a. pose proof (analyzeValue_signal rnd market) as H. fold a in H.
  exact_ops. unfold in_value_band.
  change (QNumber.lit 5 1) with (5 # 10) in H.
  change (QNumber.lit 15 2) with (15 # 100) in H.
  change (QNumber.lit 55 2) with (55 # 100) in H.
  destruct (QNumber.ltb (Qabs _) _) eqn:Hband.
  - apply Q_ltb_lt in Hband. destruct H as [Hs Hc]. split; [|tauto].
    intros _.
    destruct (QNumber.ltb (EnrichedMarket.yesPrice market) (5 # 10)) eqn:Hyes.
    + apply Q_ltb_lt in Hyes. repeat split.
      * auto.
      * intros Hge. exfalso. apply (Qlt_not_le _ _ Hyes Hge).
      * rewrite Hc. reflexivity.
      * auto.
      * intros Hlt. exfalso. lra.
    + apply Q_ltb_ge in Hyes. repeat split.
      * intros Hlt. exfalso. apply (Qlt_not_le _ _ Hlt Hyes).
      * auto.
      * rewrite Hc. reflexivity.
      * intros Hlt. exfalso. lra.
      * auto.
  - apply Q_ltb_ge in Hband. split; [|auto].
    intros Hin. exfalso. apply (Qlt_not_le _ _ Hin Hband).
Qed.

(** ** Serialization *)

Section RoundTrip.
Context {N : JSNumber} {P : Platform}.

Lemma restore_balance_object (b : VirtualBalance.t) :
  balance_ok b ->
  (lastUpdated <- get_field (Some (object_to_json (BalanceManager.to_object b)))
                    "lastUpdated" ;;
   Normal (set_own "lastUpdated" (PDate (new_Date lastUpdated))
             (spread (Some (object_to_json (BalanceManager.to_object b))))))
  = Normal (BalanceManager.to_object b).
Proof.
  intros (Hc & Ht & Hi & Hd). unfold json_exact in *.
  destruct b as [c t i d]; simpl in *.
  destruct d as [ms|]; [|contradiction].
  rewrite Hc, Ht, Hi. simpl. rewrite Hd. reflexivity.
Qed.

Lemma balance_round_trip (b : VirtualBalance.t) (this : object) :
  balance_ok b ->
  reads_back (object_to_json (BalanceManager.to_object b)) ->
  BalanceManager.restore (JStr (BalanceManager.serialize b)) this
  = Normal (BalanceManager.to_object b).
Proof.
  intros Hok Hread.
  unfold BalanceManager.restore, BalanceManager.serialize,
    BalanceManager.serialize_object, JSON_parse_value.
  simpl to_string. unfold reads_back in Hread. rewrite Hread.
  cbn [bind]. rewrite (restore_balance_object b Hok). reflexivity.
Qed.

Lemma restore_position_entry (k : string) (p : Position.t) :
  position_ok p ->
  PositionTracker.restore_entry
    (JArr [PositionTracker.key_to_json (Some (JStr k));
           object_to_json (PositionTracker.to_object p)])
  = Normal (Some (JStr k), PositionTracker.to_object p).
Proof.
  intros (H1 & H2 & H3 & H4 & Hd). unfold json_exact in *.
  destruct p as [i m q tk o s a c u d]; simpl in *.
  destruct d as [ms|]; [|contradiction].
  unfold PositionTracker.restore_entry. simpl.
  rewrite H1, H2, H3, H4. simpl. rewrite Hd. reflexivity.
Qed.

Lemma restore_position_entries (m : PositionTracker.t) :
  Forall position_ok (map snd m) ->
  mapM PositionTracker.restore_entry
    (map (fun kp => JArr [PositionTracker.key_to_json (fst kp);
                          object_to_json (snd kp)])
         (PositionTracker.to_entries m))
  = Normal (PositionTracker.to_entries m).
Proof.
  unfold PositionTracker.to_entries.
  induction m as [|[k p] m IH]; intros Hall; [reflexivity|].
  inversion Hall as [|? ? Hp Hrest]; subst.
  cbn [map mapM fst snd].
  rewrite (restore_position_entry k p Hp). cbn [bind].
  rewrite (IH Hrest). reflexivity.
Qed.

(** Entries with distinct string keys are the map [new Map] builds from
    them. *)
Lemma of_entries_distinct (m : PositionTracker.t) :
  NoDup (map fst m) ->
  Assoc.of_entries PositionTracker.same_key (PositionTracker.to_entries m)
  = PositionTracker.to_entries m.
Proof.
  unfold Assoc.of_entries.
  assert (Hgen : forall (m acc : PositionTracker.t),
             NoDup (map fst acc ++ map fst m) ->
             fold_left (fun a e => Assoc.set PositionTracker.same_key (fst e) (snd e) a)
               (PositionTracker.to_entries m) (PositionTracker.to_entries acc)
             = PositionTracker.to_entries (acc ++ m)).
  { clear m. induction m as [|[k p] m IH]; intros acc Hnd; simpl.
    - now rewrite app_nil_r.
    - assert (Hset : Assoc.set PositionTracker.same_key (Some (JStr k))
                       (PositionTracker.to_object p) (PositionTracker.to_entries acc)
                     = PositionTracker.to_entries (acc ++ [(k, p)])).
      { assert (Hk : ~ In k (map fst acc)).
        { intros Hin. apply NoDup_remove_2 in Hnd. apply Hnd.
          apply in_or_app. now left. }
        clear -Hk. induction acc as [|[k' p'] acc IHacc]; simpl; [reflexivity|].
        destruct (String.eqb k k') eqn:E.
        - apply String.eqb_eq in E. subst. exfalso. apply Hk. now left.
        - rewrite IHacc; [reflexivity|]. intros Hin. apply Hk. now right. }
      rewrite Hset. rewrite IH.
      + now rewrite <- app_assoc.
      + rewrite map_app. simpl. rewrite <- app_assoc. exact Hnd. }
  intros Hnd. apply (Hgen m []). exact Hnd.
Qed.

Lemma positions_round_trip (m : PositionTracker.t) (this : PositionTracker.entries) :
  NoDup (map fst m) ->
  Forall position_ok (map snd m) ->
  reads_back
    (JArr (map (fun kp => JArr [PositionTracker.key_to_json (fst kp);
                                object_to_json (snd kp)])
               (PositionTracker.to_entries m))) ->
  PositionTracker.restore (JStr (PositionTracker.serialize m)) this
  = Normal (PositionTracker.to_entries m).
Proof.
  intros Hnd Hok Hread.
  unfold PositionTracker.restore, PositionTracker.serialize,
    PositionTracker.serialize_entries, JSON_parse_value.
  simpl to_string. unfold reads_back in Hread. rewrite Hread.
  cbn [bind]. unfold PositionTracker.array_map.
  rewrite (restore_position_entries m Hok). simpl.
  now rewrite (of_entries_distinct m Hnd).
Qed.

Lemma restore_trade_object (t : Trade.t) :
  trade_ok t ->
  TradeExecutor.restore_trade (object_to_json (TradeExecutor.to_object t))
  = Normal (TradeExecutor.to_object t).
Proof.
  intros (H1 & H2 & H3 & H4 & H5 & Hd). unfold json_exact in *.
  destruct t as [i d m q tk o sd s p c f r]; simpl in *.
  destruct d as [ms|]; [|contradiction].
  unfold TradeExecutor.restore_trade, TradeExecutor.to_object. simpl.
  rewrite Hd, H1, H2, H3, H4.
  destruct r as [pnl|]; simpl; [rewrite H5|]; reflexivity.
Qed.

Lemma restore_trade_objects (l : list Trade.t) :
  Forall trade_ok l ->
  mapM TradeExecutor.restore_trade
    (map object_to_json (map TradeExecutor.to_object l))
  = Normal (map TradeExecutor.to_object l).
Proof.
  induction l as [|t l IH]; intros Hall; [reflexivity|].
  inversion Hall as [|? ? Ht Hrest]; subst.
  cbn [map mapM].
  rewrite (restore_trade_object t Ht). cbn [bind].
  rewrite (IH Hrest). reflexivity.
Qed.

Lemma history_round_trip (this : TradeExecutor.t) (current : list object) :
  Forall trade_ok (TradeExecutor.history this) ->
  reads_back
    (JArr (map object_to_json
             (map TradeExecutor.to_object (TradeExecutor.history this)))) ->
  TradeExecutor.restore (JStr (TradeExecutor.serialize this)) current
  = Normal (map TradeExecutor.to_object (TradeExecutor.history this)).
Proof.
  intros Hok Hread.
  unfold TradeExecutor.restore, TradeExecutor.serialize,
    TradeExecutor.serialize_objects, JSON_parse_value.
  simpl to_string. unfold reads_back in Hread. rewrite Hread.
  cbn [bind]. unfold PositionTracker.array_map.
  now rewrite (restore_trade_objects _ Hok).
Qed.

End RoundTrip.

Section Persistence.
Context {N : JSNumber} {P : Platform}.

(** C7, amended. For each component on its own, [restore] of what
    [serialize] returns yields the state serialized -- the balance
    record with lastUpdated, the whole key-to-position map in its order
    with openedAt, the whole trade history with its timestamps --
    for every state whose dates are valid dates and whose numbers are
    numbers JSON text denotes (finite, not the negative zero), on a
    platform that reads back the JSON text and the ISO date strings it
    prints.  (The keys of a Map are distinct.) *)
Theorem serialization_round_trip :
  (forall (b : VirtualBalance.t) (this : object),
      balance_ok b ->
      reads_back (balance_json b) ->
      BalanceManager.restore (JStr (BalanceManager.serialize b)) this
      = Normal (BalanceManager.to_object b))
  /\ (forall (m : PositionTracker.t) (this : PositionTracker.entries),
         NoDup (map fst m) ->
         Forall position_ok (map snd m) ->
         reads_back (positions_json m) ->
         PositionTracker.restore (JStr (PositionTracker.serialize m)) this
         = Normal (PositionTracker.to_entries m))
  /\ (forall (this : TradeExecutor.t) (current : list object),
         Forall trade_ok (TradeExecutor.history this) ->
         reads_back (history_json this) ->
         TradeExecutor.restore (JStr (TradeExecutor.serialize this)) current
         = Normal (map TradeExecutor.to_object (TradeExecutor.history this))).
Proof.
  split; [|split].
  - intros. now apply balance_round_trip.
  - intros. now apply positions_round_trip.
  - intros. now apply history_round_trip.
Qed.

(** *** Restoring never throws *)

Lemma try_catch_normal {A : Type} (body : completion A) (handler : A) :
  exists a, try_catch body handler = Normal a.
Proof.
  destruct body; simpl; eauto.
Qed.

Lemma try_catch_throw {A : Type} (body : completion A) (handler : A) (e : string) :
  body = Throw e -> try_catch body handler = Normal handler.
Proof.
  intros ->. reflexivity.
Qed.

Lemma balance_restore_normal (data : json) (this : object) :
  exists this', BalanceManager.restore data this = Normal this'.
Proof. apply try_catch_normal. Qed.

Lemma positions_restore_normal (data : json) (this : PositionTracker.entries) :
  exists this', PositionTracker.restore data this = Normal this'.
Proof. apply try_catch_normal. Qed.

Lemma history_restore_normal (data : json) (this : list object) :
  exists this', TradeExecutor.restore data this = Normal this'.
Proof. apply try_catch_normal. Qed.

(** A component's [restore] keeps the state on a text that is not JSON. *)
Lemma balance_restore_unparsable (data : json) (this : object) :
  JSON_parse (to_string data) = None ->
  BalanceManager.restore data this = Normal this.
Proof.
  intros H. unfold BalanceManager.restore, JSON_parse_value. now rewrite H.
Qed.

Lemma positions_restore_unparsable (data : json) (this : PositionTracker.entries) :
  JSON_parse (to_string data) = None ->
  PositionTracker.restore data this = Normal this.
Proof.
  intros H. unfold PositionTracker.restore, JSON_parse_value. now rewrite H.
Qed.

Lemma history_restore_unparsable (data : json) (this : list object) :
  JSON_parse (to_string data) = None ->
  TradeExecutor.restore data this = Normal this.
Proof.
  intros H. unfold TradeExecutor.restore, JSON_parse_value. now rewrite H.
Qed.

Lemma restore_componentwise (data : string) (parsed : json)
    (this : PortfolioManager.heap) :
  JSON_parse data = Some parsed ->
  PortfolioManager.restore data this
  = Normal
      {| PortfolioManager.balance :=
           restored BalanceManager.restore
             (get_field (Some parsed) "balance")
             (PortfolioManager.balance this);
         PortfolioManager.positions :=
           restored PositionTracker.restore
             (get_field (Some parsed) "positions")
             (PortfolioManager.positions this);
         PortfolioManager.trades :=
           restored TradeExecutor.restore
             (get_field (Some parsed) "trades")
             (PortfolioManager.trades this) |}.
Proof.
  intros Hparse.
  unfold PortfolioManager.restore, JSON_parse_value. simpl to_string.
  rewrite Hparse.
  unfold PortfolioManager.seq, PortfolioManager.restore_component, restored.
  destruct this as [b p t]. simpl PortfolioManager.balance.
  simpl PortfolioManager.positions. simpl PortfolioManager.trades.
  destruct parsed as [| | | |l|fields]; simpl get_field; try reflexivity.
  destruct (Assoc.get String.eqb "balance"%string fields) as [db|];
  destruct (Assoc.get String.eqb "positions"%string fields) as [dp|];
  destruct (Assoc.get String.eqb "trades"%string fields) as [dt|];
  repeat match goal with
    | |- _ => progress cbn [PortfolioManager.balance PortfolioManager.positions
                            PortfolioManager.trades]
    | |- context [to_boolean ?x] => destruct (to_boolean x)
    | |- context [BalanceManager.restore ?d ?c] =>
        destruct (balance_restore_normal d c) as [? ->]
    | |- context [PositionTracker.restore ?d ?c] =>
        destruct (positions_restore_normal d c) as [? ->]
    | |- context [TradeExecutor.restore ?d ?c] =>
        destruct (history_restore_normal d c) as [? ->]
    end; reflexivity.
Qed.

Lemma restored_unusable {A : Type} (restore : json -> A -> completion A)
    (parsed : json) (k : string) (current : A) :
  (forall data, JSON_parse (to_string data) = None ->
                restore data current = Normal current) ->
  unusable parsed k ->
  restored restore (get_field (Some parsed) k) current = current.
Proof.
  intros Hkeep. unfold unusable, restored.
  destruct (get_field (Some parsed) k) as [[data|]|]; auto.
  intros [Hfalse|Hnone].
  - now rewrite Hfalse.
  - destruct (to_boolean (Some data)); [|reflexivity].
    now rewrite (Hkeep data Hnone).
Qed.

(** C8, amended. [PortfolioManager.restore] and the [restore] of each
    component return normally on every input.  An input that is not
    JSON leaves all three components as they were.  Otherwise each
    component is restored from its own sub-field alone: a component
    whose sub-field is present and truthy ends as its own [restore]
    leaves it on that sub-field and its value from before the call, and
    a component whose sub-field is missing or falsy, or is a text that is
    not JSON, keeps its value from before the call, whatever the other
    two sub-fields are. *)
Theorem restore_never_throws (data : string) (this : PortfolioManager.heap) :
  (exists this', PortfolioManager.restore data this = Normal this')
  /\ (forall (d : json) (b : object),
         exists b', BalanceManager.restore d b = Normal b')
  /\ (forall (d : json) (p : PositionTracker.entries),
         exists p', PositionTracker.restore d p = Normal p')
  /\ (forall (d : json) (t : list object),
         exists t', TradeExecutor.restore d t = Normal t')
  /\ (JSON_parse data = None -> PortfolioManager.restore data this = Normal this)
  /\ (forall parsed : json,
         JSON_parse data = Some parsed ->
         exists this',
           PortfolioManager.restore data this = Normal this'
           /\ (unusable parsed "balance" ->
               PortfolioManager.balance this' = PortfolioManager.balance this)
           /\ (unusable parsed "positions" ->
               PortfolioManager.positions this' = PortfolioManager.positions this)
           /\ (unusable parsed "trades" ->
               PortfolioManager.trades this' = PortfolioManager.trades this)
           /\ (forall d : json,
                  get_field (Some parsed) "balance" = Normal (Some d) ->
                  to_boolean (Some d) = true ->
                  BalanceManager.restore d (PortfolioManager.balance this)
                  = Normal (PortfolioManager.balance this'))
           /\ (forall d : json,
                  get_field (Some parsed) "positions" = Normal (Some d) ->
                  to_boolean (Some d) = true ->
                  PositionTracker.restore d (PortfolioManager.positions this)
                  = Normal (PortfolioManager.positions this'))
           /\ (forall d : json,
                  get_field (Some parsed) "trades" = Normal (Some d) ->
                  to_boolean (Some d) = true ->
                  TradeExecutor.restore d (PortfolioManager.trades this)
                  = Normal (PortfolioManager.trades this'))).
Proof.
  assert (Hnone : JSON_parse data = None ->
                  PortfolioManager.restore data this = Normal this).
  { intros H. unfold PortfolioManager.restore, JSON_parse_value.
    simpl to_string. now rewrite H. }
  repeat split.
  - destruct (JSON_parse data) as [parsed|] eqn:Hparse.
    + rewrite (restore_componentwise data parsed this Hparse). eauto.
    + rewrite (Hnone eq_refl). eauto.
  - apply balance_restore_normal.
  - apply positions_restore_normal.
  - apply history_restore_normal.
  - exact Hnone.
  - intros parsed Hparse.
    rewrite (restore_componentwise data parsed this Hparse).
    eexists. split; [reflexivity|].
    cbn [PortfolioManager.balance PortfolioManager.positions
         PortfolioManager.trades].
    split; [|split; [|split; [|split; [|split]]]].
    + intros Hun. apply restored_unusable; [|exact Hun].
      intros d Hd. now apply balance_restore_unparsable.
    + intros Hun. apply restored_unusable; [|exact Hun].
      intros d Hd. now apply positions_restore_unparsable.
    + intros Hun. apply restored_unusable; [|exact Hun].
      intros d Hd. now apply history_restore_unparsable.
    + intros d Hd Ht. unfold restored. rewrite Hd, Ht.
      now destruct (balance_restore_normal d (PortfolioManager.balance this))
        as [b' ->].
    + intros d Hd Ht. unfold restored. rewrite Hd, Ht.
      now destruct (positions_restore_normal d (PortfolioManager.positions this))
        as [p' ->].
    + intros d Hd Ht. unfold restored. rewrite Hd, Ht.
      now destruct (history_restore_normal d (PortfolioManager.trades this))
        as [t' ->].
Qed.

End Persistence.

(* ================================================================== *)
(** * Closed instances *)
(* ================================================================== *)

(** Closes a comparison of rational constants. *)
Ltac rational_constant :=
  vm_compute; first [ reflexivity | let X := fresh in intro X; discriminate X ].

(** Scenarios A to D without rounding: the run ends with cash 99529.17,
    which is not negative. *)
Lemma exact_cash_scenarios :
  (0 <= cash_of
          (fst (TradeExecutor.run (P := Cases.plain) Cases.start
                  Cases.scenario_calls)))%Q
  /\ (cash_of (fst (TradeExecutor.run (P := Cases.plain) Cases.start
                      Cases.scenario_calls))
      == cash_of Cases.start
         - sum_buys Cases.scenario_calls
             (snd (TradeExecutor.run (P := Cases.plain) Cases.start
                     Cases.scenario_calls))
         + sum_sells Cases.scenario_calls
             (snd (TradeExecutor.run (P := Cases.plain) Cases.start
                     Cases.scenario_calls)))%Q.
Proof.
  pose proof (exact_cash_sums (P := Cases.plain) Cases.start
                Cases.scenario_calls) as H.
  destruct (TradeExecutor.run Cases.start Cases.scenario_calls)
    as [final results].
  destruct H as [Hsum Hpos]. split; [|exact Hsum].
  apply Hpos.
  - rational_constant.
  - repeat constructor; rational_constant.
Qed.

(** In binary64 the claim of C1 as the specification states it fails.
    Scenarios A to C are accepted and leave the cash one unit in the last
    place above the double nearest to 99529.17, the value of
    100000 - 400.40 - 250.25 + 179.82.  A single buy of 151 shares at
    0.67 leaves a cash other than 100000 - 151 * 0.67 * 1.001 computed in
    doubles.  A buy of 1e300 shares at the price 0 and a sell of them at
    the price 1e300, all amounts nonnegative, are both accepted and leave
    the cash [NaN], of which cash >= 0 is false. *)
Lemma cash_conservation_binary64 :
  (map OrderResult.success
     (snd (TradeExecutor.run (P := Cases.plain64) Cases.start64
             Cases.scenario_calls64))
   = [true; true; true]
   /\ cash_in (fst (TradeExecutor.run (P := Cases.plain64) Cases.start64
                      Cases.scenario_calls64))
      <> F64.lit 9952917 2
   /\ F64.ltb (F64.lit 9952917 2)
        (cash_in (fst (TradeExecutor.run (P := Cases.plain64) Cases.start64
                         Cases.scenario_calls64)))
      = true)
  /\ (OrderResult.success
        (snd (TradeExecutor.execute (P := Cases.plain64) (fst Cases.odd_lot64)
                Cases.start64 (snd Cases.odd_lot64)))
      = true
      /\ cash_in (fst (TradeExecutor.execute (P := Cases.plain64)
                         (fst Cases.odd_lot64) Cases.start64
                         (snd Cases.odd_lot64)))
         <> SFsub F64.prec F64.emax (F64.of_Z 100000)
              (SFmul F64.prec F64.emax
                 (SFmul F64.prec F64.emax (F64.of_Z 151) (F64.lit 67 2))
                 (F64.lit 1001 3)))
  /\ (map OrderResult.success
        (snd (TradeExecutor.run (P := Cases.plain64) Cases.start64
                Cases.overflow_calls64))
      = [true; true]
      /\ cash_in (fst (TradeExecutor.run (P := Cases.plain64) Cases.start64
                         Cases.overflow_calls64))
         = S754_nan
      /\ F64.leb (F64.of_Z 0)
           (cash_in (fst (TradeExecutor.run (P := Cases.plain64) Cases.start64
                            Cases.overflow_calls64)))
         = false).
Proof.
  repeat split; try (vm_compute; reflexivity);
    vm_compute; intros H; discriminate H.
Qed.

(** Scenario D: selling 2000 of the 1200 shares held fails with the
    message of the specification and changes nothing; so does a buy of
    1000000 shares at 0.50 with 100000 in cash. *)
Lemma rejected_orders_scenarios :
  TradeExecutor.execute (P := Cases.plain) (Cases.env 4) Cases.after_C
    (Cases.order "YES" SELL 2000 (6 # 10))
  = (Cases.after_C,
     TradeExecutor.failure
       "Insufficient shares. Have 1200, trying to sell 2000")
  /\ TradeExecutor.execute (P := Cases.plain) (Cases.env 1) Cases.start
       (Cases.order "YES" BUY 1000000 (5 # 10))
     = (Cases.start,
        TradeExecutor.failure
          "Insufficient funds. Need $500500.00, have $100000.00").
Proof.
  split.
  - pose proof (rejected_order_leaves_state (P := Cases.plain) (Cases.env 4)
                  Cases.after_C (Cases.order "YES" SELL 2000 (6 # 10))) as H.
    destruct (TradeExecutor.execute (Cases.env 4) Cases.after_C _)
      as [this' result].
    destruct H as (Hstate & Hresult).
    + right. split; reflexivity.
    + rewrite Hstate, Hresult. reflexivity.
  - pose proof (rejected_order_leaves_state (P := Cases.plain) (Cases.env 1)
                  Cases.start (Cases.order "YES" BUY 1000000 (5 # 10))) as H.
    destruct (TradeExecutor.execute (Cases.env 1) Cases.start _)
      as [this' result].
    destruct H as (Hstate & Hresult).
    + left. split; reflexivity.
    + rewrite Hstate, Hresult. reflexivity.
Defined.

(** Scenario B on the fresh portfolio, in both number structures. *)
Lemma scenario_B_instances :
  (VirtualBalance.cash
     (TradeExecutor.balanceManager
        (after_two (P := Cases.plain) (Cases.env 1) (Cases.env 2) Cases.start
           (Cases.order "YES" BUY 1000 (4 # 10))
           (Cases.order "YES" BUY 500 (5 # 10))))
   == 9934935 # 100)%Q
  /\ VirtualBalance.cash
       (TradeExecutor.balanceManager
          (after_two (P := Cases.plain64) (Cases.env 1) (Cases.env 2)
             Cases.start64
             (Cases.order64 "YES" BUY (F64.of_Z 1000) (F64.lit 4 1))
             (Cases.order64 "YES" BUY (F64.of_Z 500) (F64.lit 5 1))))
     = F64.lit 9934935 2.
Proof.
  destruct weighted_average_cost_basis as (_ & Hexact & Hbinary). split.
  - apply (Hexact Cases.plain). repeat split; reflexivity.
  - apply (Hbinary Cases.plain64). repeat split; reflexivity.
Defined.

(** Scenario C: selling 300 of 1500 shares at 0.60 realizes
    (0.60 - 13/30) * 300 = 50 and leaves 1200 shares at the same average
    price; selling all 1500 removes the key. *)
Lemma sell_scenario_C :
  let positions := TradeExecutor.positionTracker Cases.after_B in
  (exists position,
      PositionTracker.get (PositionTracker.key "0xabc" "YES") positions
        = Some position
      /\ let (positions', result) :=
           PositionTracker.reducePosition positions "0xabc" "YES" 300 (6 # 10) in
         (PositionTracker.realizedPnL result == 50)%Q
         /\ (PositionTracker.remainingShares result == 1200)%Q
         /\ option_map Position.avgPrice
              (PositionTracker.get (PositionTracker.key "0xabc" "YES") positions')
            = Some (Position.avgPrice position))
  /\ PositionTracker.get (PositionTracker.key "0xabc" "YES")
       (fst (PositionTracker.reducePosition positions "0xabc" "YES" 1500 (6 # 10)))
     = None.
Proof.
  intros positions.
  destruct (PositionTracker.get (PositionTracker.key "0xabc" "YES") positions)
    as [position|] eqn:Hget; [|discriminate Hget].
  split.
  - exists position. split; [reflexivity|].
    pose proof (sell_keeps_cost_basis positions "0xabc" "YES"
                  (300 : Q) (6 # 10 : Q) position Hget) as H.
    destruct (PositionTracker.reducePosition positions "0xabc" "YES" 300 (6 # 10))
      as [positions' result] eqn:Hreduce.
    destruct H as (Hpnl & Hrest & _).
    + apply (f_equal snd) in Hreduce. simpl in Hreduce. rewrite <- Hreduce.
      reflexivity.
    + destruct Hrest as (Hremaining & Hposition).
      * injection Hget as <-. reflexivity.
      * rewrite Hpnl, Hremaining, Hposition. injection Hget as <-.
        repeat split; reflexivity.
  - pose proof (sell_keeps_cost_basis positions "0xabc" "YES"
                  (1500 : Q) (6 # 10 : Q) position Hget) as H.
    destruct (PositionTracker.reducePosition positions "0xabc" "YES" 1500 (6 # 10))
      as [positions' result] eqn:Hreduce.
    destruct H as (_ & _ & Hgone).
    + apply (f_equal snd) in Hreduce. simpl in Hreduce. rewrite <- Hreduce.
      reflexivity.
    + apply Hgone. injection Hget as <-. reflexivity.
Defined.

(** A second buy of 500 shares at 0.50 into the position of scenario A
    marks it at 0.50. *)
Lemma repeat_buy_scenario_B :
  let positions :=
    TradeExecutor.positionTracker
      (fst (TradeExecutor.execute (P := Cases.plain) (Cases.env 1) Cases.start
              (Cases.order "YES" BUY 1000 (4 # 10)))) in
  let (positions', position) :=
    PositionTracker.addPosition "position-2" (ValidDate Cases.t0) positions
      (Cases.order "YES" BUY 500 (5 # 10)) 500 (5 # 10) in
  (Position.currentPrice position == 5 # 10)%Q
  /\ (Position.unrealizedPnL position == 100)%Q.
Proof.
  intros positions.
  destruct (PositionTracker.get
              (order_key (Cases.order "YES" BUY 500 (5 # 10))) positions)
    as [existing|] eqn:Hget; [|discriminate Hget].
  pose proof (repeat_buy_moves_mark "position-2"
                (ValidDate Cases.t0) positions
                (Cases.order "YES" BUY 500 (5 # 10)) (500 : Q) (5 # 10 : Q)
                existing Hget) as H.
  destruct (PositionTracker.addPosition _ _ positions _ _ _)
    as [positions' position].
  destruct H as (_ & Hmark & Hpnl & Hshares & Havg).
  rewrite Hpnl, Hmark, Havg, Hshares. injection Hget as <-.
  split; reflexivity.
Defined.

(** C5. The analysed market holds a YES position worth 50 and a NO
    position worth 20000, twice maxPositionSize 10000; the signal is
    BUY_NO with confidence 0.9.  With the YES position listed first
    [canTakeNewPosition] allows the trade: [positions.find] stops at the
    YES position and the NO position is never looked at.  With the same
    two positions in the other order it rejects the same trade with the
    reason of check 2.  The gate of the specification, whose check 2 is
    on some position of the market, rejects in either order. *)
Lemma risk_gate_second_position :
  RiskManager.canTakeNewPosition (P := Cases.plain) (Cases.config 10)
    (Cases.analysis (9 # 10)) Cases.both_sides (Cases.summary 100000)
  = {| RiskManager.allowed := true;
       RiskManager.reason := "Trade passes risk checks" |}
  /\ RiskManager.canTakeNewPosition (P := Cases.plain) (Cases.config 10)
       (Cases.analysis (9 # 10)) Cases.both_sides_swapped (Cases.summary 100000)
     = {| RiskManager.allowed := false;
          RiskManager.reason := "Max position size reached for this market" |}
  /\ risk_gate (P := Cases.plain) check_size_some (Cases.config 10)
       (Cases.analysis (9 # 10)) Cases.both_sides (Cases.summary 100000)
     = {| RiskManager.allowed := false;
          RiskManager.reason := "Max position size reached for this market" |}
  /\ risk_gate (P := Cases.plain) check_size_some (Cases.config 10)
       (Cases.analysis (9 # 10)) Cases.both_sides_swapped (Cases.summary 100000)
     = {| RiskManager.allowed := false;
          RiskManager.reason := "Max position size reached for this market" |}
  /\ RiskManager.canTakeNewPosition (P := Cases.plain) (Cases.config 10)
       (Cases.analysis (9 # 10)) Cases.both_sides (Cases.summary 100000)
     <> risk_gate (P := Cases.plain) check_size_some (Cases.config 10)
          (Cases.analysis (9 # 10)) Cases.both_sides (Cases.summary 100000).
Proof.
  repeat split; try reflexivity.
  vm_compute. discriminate.
Qed.

(** On the default configuration, confidence 0.45 under the threshold 0.5
    is rejected with the confidence reason. *)
Lemma low_confidence_default :
  RiskManager.canTakeNewPosition (P := Cases.plain) (Cases.config 10)
    (Cases.analysis (45 # 100)) [] (Cases.summary 100000)
  = {| RiskManager.allowed := false;
       RiskManager.reason := "Confidence 45.0% below threshold 50.0%" |}.
Proof.
  destruct low_confidence_rejection as [Hexact _].
  destruct (Hexact Cases.plain (Cases.config 10) (Cases.analysis (45 # 100))
              [] (Cases.summary 100000)) as (Hallowed & Hreason & _).
  - reflexivity.
  - reflexivity.
  - specialize (Hreason eq_refl eq_refl).
    destruct (RiskManager.canTakeNewPosition _ _ _ _) as [allowed reason].
    simpl in *. subst. reflexivity.
Defined.

(** With maxPositions = 0 the same analysis is rejected with the reason
    of check 1, not with the confidence reason. *)
Lemma low_confidence_other_reason :
  AgentConfig.minConfidence (Cases.config 0) = 5 # 10
  /\ MarketAnalysis.confidence (Cases.analysis (45 # 100)) = 45 # 100
  /\ RiskManager.canTakeNewPosition (P := Cases.plain) (Cases.config 0)
       (Cases.analysis (45 # 100)) [] (Cases.summary 100000)
     = {| RiskManager.allowed := false;
          RiskManager.reason := "Max positions reached (0)" |}
  /\ RiskManager.reason
       (RiskManager.canTakeNewPosition (P := Cases.plain) (Cases.config 0)
          (Cases.analysis (45 # 100)) [] (Cases.summary 100000))
     <> RiskManager.confidence_reason (P := Cases.plain) (Cases.config 0)
          (Cases.analysis (45 # 100)).
Proof.
  repeat split; try reflexivity.
  vm_compute. discriminate.
Qed.

(** A market at 0.45 / 0.55 is in the band and the signal buys YES, the
    cheaper side. *)
Lemma value_strategy_balanced_book :
  MarketAnalysis.signal
    (MarketAnalyzer.analyze (P := Cases.plain) (0 : Q)
       (Cases.market (45 # 100) (55 # 100)) value)
  = BUY_YES
  /\ buys_cheaper_side (Cases.market (45 # 100) (55 # 100))
       (MarketAnalysis.signal
          (MarketAnalyzer.analyze (P := Cases.plain) (0 : Q)
             (Cases.market (45 # 100) (55 # 100)) value))
  /\ MarketAnalysis.signal
       (MarketAnalyzer.analyze (P := Cases.plain) (0 : Q)
          (Cases.market (80 # 100) (20 # 100)) value)
     = HOLD.
Proof.
  pose proof (value_strategy_signal Cases.plain 0
                (Cases.market (45 # 100) (55 # 100))) as Hin.
  pose proof (value_strategy_signal Cases.plain 0
                (Cases.market (80 # 100) (20 # 100))) as Hout.
  destruct Hin as [Hin _]. destruct Hout as [_ Hout].
  destruct Hin as (Hyes & _ & _ & Hcheap); [rational_constant|].
  split; [|split].
  - apply Hyes. rational_constant.
  - apply Hcheap; rational_constant.
  - apply Hout. rational_constant.
Defined.

(** A market quoted 0.45 for YES and 0.40 for NO is in the band; the
    signal buys YES, and NO is the outcome with the lower quoted price.
    A market the feed reports as 0 / 1, whose YES price the client
    replaces by 0.5, is in the band too; the signal buys NO, quoted 1. *)
Lemma value_strategy_dearer_side :
  (in_value_band (Cases.market (45 # 100) (40 # 100))
   /\ MarketAnalysis.signal
        (MarketAnalyzer.analyze (P := Cases.plain) (0 : Q)
           (Cases.market (45 # 100) (40 # 100)) value)
      = BUY_YES
   /\ ~ buys_cheaper_side (Cases.market (45 # 100) (40 # 100))
          (MarketAnalysis.signal
             (MarketAnalyzer.analyze (P := Cases.plain) (0 : Q)
                (Cases.market (45 # 100) (40 # 100)) value)))
  /\ (in_value_band (Cases.market (5 # 10) 1)
      /\ MarketAnalysis.signal
           (MarketAnalyzer.analyze (P := Cases.plain) (0 : Q)
              (Cases.market (5 # 10) 1) value)
         = BUY_NO
      /\ ~ buys_cheaper_side (Cases.market (5 # 10) 1)
             (MarketAnalysis.signal
                (MarketAnalyzer.analyze (P := Cases.plain) (0 : Q)
                   (Cases.market (5 # 10) 1) value))).
Proof.
  split; repeat split.
  - intros [_ Hno]. simpl in Hno.
    assert (H : BUY_YES = BUY_NO) by (apply Hno; reflexivity).
    discriminate H.
  - intros [Hyes _]. simpl in Hyes.
    assert (H : BUY_NO = BUY_YES) by (apply Hyes; reflexivity).
    discriminate H.
Qed.

(** With no price data the client quotes both outcomes at 0.5: the
    market is in the band, neither outcome is the cheaper one, and the
    signal buys NO. *)
Lemma value_strategy_even_book :
  MarketAnalysis.signal
    (MarketAnalyzer.analyze (P := Cases.plain) (0 : Q)
       (Cases.market (5 # 10) (5 # 10)) value)
  = BUY_NO.
Proof.
  reflexivity.
Qed.

(** Closes the well-formedness conditions of a concrete state. *)
Ltac concrete_state :=
  repeat match goal with
    | |- Forall _ [] => apply Forall_nil
    | |- Forall _ (_ :: _) => apply Forall_cons
    | |- balance_ok _ => unfold balance_ok
    | |- position_ok _ => unfold position_ok
    | |- trade_ok _ => unfold trade_ok
    | |- _ /\ _ => split
    | |- True => exact I
    | |- match Trade.realizedPnL _ with Some _ => _ | None => _ end =>
        cbn [Trade.realizedPnL]
    | |- NoDup _ => apply distinct_NoDup; reflexivity
    | |- json_exact _ => reflexivity
    | |- date_reads_back _ => reflexivity
    | |- reads_back _ => reflexivity
    end.

(** The three components of a portfolio with two positions, two buys and
    a sell come back from their own serializations. *)
Lemma round_trip_two_sided :
  BalanceManager.restore (P := Cases.archive)
    (JStr (BalanceManager.serialize (P := Cases.archive)
             (TradeExecutor.balanceManager Cases.two_sided)))
    []
  = Normal (BalanceManager.to_object (TradeExecutor.balanceManager Cases.two_sided))
  /\ PositionTracker.restore (P := Cases.archive)
       (JStr (PositionTracker.serialize (P := Cases.archive)
                (TradeExecutor.positionTracker Cases.two_sided)))
       []
     = Normal (PositionTracker.to_entries
                 (TradeExecutor.positionTracker Cases.two_sided))
  /\ TradeExecutor.restore (P := Cases.archive)
       (JStr (TradeExecutor.serialize (P := Cases.archive) Cases.two_sided))
       []
     = Normal (map TradeExecutor.to_object
                 (TradeExecutor.history Cases.two_sided)).
Proof.
  destruct (serialization_round_trip (P := Cases.archive))
    as (Hbalance & Hpositions & Hhistory).
  split; [|split].
  - apply Hbalance; concrete_state.
  - apply Hpositions; unfold Cases.two_sided;
      cbn [map snd fst TradeExecutor.positionTracker]; concrete_state.
  - apply Hhistory; unfold Cases.two_sided;
      cbn [TradeExecutor.history]; concrete_state.
Defined.

(** Restoring a saved balance that has no lastUpdated leaves a balance
    whose lastUpdated is an Invalid Date.  That balance prints [null] for
    the date, and [restore] reads [null] back as the date of time value 0:
    the restored balance is not the serialized one. *)
Lemma round_trip_invalid_date :
  BalanceManager.restore (P := Cases.undated_platform)
    (JStr (JSON_stringify (Platform := Cases.undated_platform)
             Cases.unstamped_document))
    []
  = Normal (BalanceManager.to_object Cases.undated)
  /\ BalanceManager.restore (P := Cases.undated_platform)
       (JStr (BalanceManager.serialize (P := Cases.undated_platform)
                Cases.undated))
       (BalanceManager.to_object Cases.undated)
     = Normal
         (BalanceManager.to_object
            {| VirtualBalance.cash := 100000;
               VirtualBalance.totalValue := 100000;
               VirtualBalance.initialBalance := 100000;
               VirtualBalance.lastUpdated := ValidDate 0 |})
  /\ BalanceManager.restore (P := Cases.undated_platform)
       (JStr (BalanceManager.serialize (P := Cases.undated_platform)
                Cases.undated))
       (BalanceManager.to_object Cases.undated)
     <> Normal (BalanceManager.to_object Cases.undated).
Proof.
  assert (E : BalanceManager.restore (P := Cases.undated_platform)
                (JStr (BalanceManager.serialize (P := Cases.undated_platform)
                         Cases.undated))
                (BalanceManager.to_object Cases.undated)
              = Normal
                  (BalanceManager.to_object
                     {| VirtualBalance.cash := 100000;
                        VirtualBalance.totalValue := 100000;
                        VirtualBalance.initialBalance := 100000;
                        VirtualBalance.lastUpdated := ValidDate 0 |}))
    by reflexivity.
  split; [reflexivity|]. split; [exact E|]. rewrite E.
  unfold BalanceManager.to_object, Cases.undated. simpl. discriminate.
Qed.

(** In binary64, a sell at the price [NaN] leaves the cash [NaN]; it
    prints as [null] and comes back as [null], not as a number. *)
Lemma round_trip_nan_cash :
  VirtualBalance.cash (TradeExecutor.balanceManager Cases.nan_sale) = S754_nan
  /\ get_own "cash"
       (BalanceManager.to_object (TradeExecutor.balanceManager Cases.nan_sale))
     = Some (PJson (JNum (N := F64Num) S754_nan))
  /\ exists this',
       BalanceManager.restore (P := Cases.nan_platform)
         (JStr (BalanceManager.serialize (P := Cases.nan_platform)
                  (TradeExecutor.balanceManager Cases.nan_sale)))
         []
       = Normal this'
       /\ get_own "cash" this' = Some (PJson (N := F64Num) JNull).
Proof.
  split; [reflexivity|]. split; [reflexivity|].
  eexists. split; reflexivity.
Qed.

(** A bundle whose [balance] is not JSON and whose [positions] is
    missing: the balance and the positions stay, the history is restored
    from its own sub-field. *)
Lemma restore_damaged_bundle :
  exists this',
    PortfolioManager.restore (P := Cases.damaged_platform)
      (JSON_stringify (Platform := Cases.damaged_platform) Cases.damaged_bundle)
      (PortfolioManager.to_heap Cases.two_sided)
    = Normal this'
    /\ PortfolioManager.balance this'
       = BalanceManager.to_object (TradeExecutor.balanceManager Cases.two_sided)
    /\ PortfolioManager.positions this'
       = PositionTracker.to_entries
           (TradeExecutor.positionTracker Cases.two_sided)
    /\ PortfolioManager.trades this' = [].
Proof.
  pose proof (restore_never_throws (P := Cases.damaged_platform)
                (JSON_stringify (Platform := Cases.damaged_platform)
                   Cases.damaged_bundle)
                (PortfolioManager.to_heap Cases.two_sided)) as H.
  destruct H as (_ & _ & _ & _ & _ & H).
  destruct (H Cases.damaged_bundle eq_refl)
    as (this' & Heq & Hbalance & Hpositions & _).
  exists this'. split; [exact Heq|]. split; [|split].
  - apply Hbalance. right. reflexivity.
  - apply Hpositions. exact I.
  - assert (E : PortfolioManager.restore (P := Cases.damaged_platform)
                  (JSON_stringify (Platform := Cases.damaged_platform)
                     Cases.damaged_bundle)
                  (PortfolioManager.to_heap Cases.two_sided)
                = Normal
                    {| PortfolioManager.balance :=
                         BalanceManager.to_object
                           (TradeExecutor.balanceManager Cases.two_sided);
                       PortfolioManager.positions :=
                         PositionTracker.to_entries
                           (TradeExecutor.positionTracker Cases.two_sided);
                       PortfolioManager.trades := [] |})
      by reflexivity.
    rewrite E in Heq. injection Heq as <-. reflexivity.
Defined.

(** A bundle whose [balance] is the text of an empty object: the text
    parses, so the balance is replaced by an object that has no cash and
    whose lastUpdated is an Invalid Date. *)
Lemma restore_hollow_balance :
  PortfolioManager.restore (P := Cases.hollow_platform)
    (JSON_stringify (Platform := Cases.hollow_platform) Cases.hollow_bundle)
    (PortfolioManager.to_heap Cases.two_sided)
  = Normal
      {| PortfolioManager.balance := [ ("lastUpdated"%string, PDate InvalidDate) ];
         PortfolioManager.positions :=
           PositionTracker.to_entries
             (TradeExecutor.positionTracker Cases.two_sided);
         PortfolioManager.trades :=
           map TradeExecutor.to_object (TradeExecutor.history Cases.two_sided) |}
  /\ get_own "cash"
       [ ("lastUpdated"%string, PDate (N := QNum) InvalidDate) ] = None
  /\ [ ("lastUpdated"%string, PDate (N := QNum) InvalidDate) ]
     <> BalanceManager.to_object (TradeExecutor.balanceManager Cases.two_sided).
Proof.
  split; [reflexivity|]. split; [reflexivity|].
  unfold BalanceManager.to_object. discriminate.
Qed.

(* ================================================================== *)
(** * Further properties of the engine and the agent *)
(* ================================================================== *)

From Stdlib Require Import Sorting.Sorted Sorting.Permutation.

Section SliceFacts.
Context {A : Type}.

Lemma slice_tail (count : Z) (l : list A) :
  (0 <= count)%Z ->
  slice (- count) None l
  = if (count =? 0)%Z then l else skipn (List.length l - Z.to_nat count) l.
Proof.
  intros Hc. unfold slice.
  destruct (count =? 0)%Z eqn:Hz.
  - apply Z.eqb_eq in Hz. subst count. simpl.
    rewrite Z.min_l by lia. simpl. rewrite Z.sub_0_r, Nat2Z.id.
    apply firstn_all.
  - apply Z.eqb_neq in Hz.
    assert (Hneg : (- count <? 0)%Z = true) by (apply Z.ltb_lt; lia).
    rewrite Hneg.
    set (len := List.length l).
    assert (Hk : Z.to_nat (Z.max (Z.of_nat len + - count) 0)
                 = (len - Z.to_nat count)%nat) by lia.
    rewrite Hk. apply firstn_all2.
    rewrite length_skipn. fold len. lia.
Qed.

Lemma slice_head (count : Z) (l : list A) :
  (0 <= count)%Z -> slice 0 (Some count) l = firstn (Z.to_nat count) l.
Proof.
  intros Hc. unfold slice. simpl.
  assert (Hneg : (count <? 0)%Z = false) by (apply Z.ltb_ge; lia).
  rewrite Hneg. rewrite (Z.min_l 0) by lia. simpl. rewrite Z.sub_0_r.
  destruct (Z.le_ge_cases count (Z.of_nat (List.length l))).
  - now rewrite Z.min_l by lia.
  - rewrite Z.min_r by lia. rewrite Nat2Z.id.
    rewrite firstn_all. symmetry. apply firstn_all2. lia.
Qed.

End SliceFacts.

Section TradeFrame.
Context {N : JSNumber} {P : Platform}.
Local Open Scope js_scope.

Lemma reducePosition_other (this : PositionTracker.t) (marketId outcome : string)
    (shares sellPrice : number) (k : string) :
  String.eqb k (PositionTracker.key marketId outcome) = false ->
  PositionTracker.get k
    (fst (PositionTracker.reducePosition this marketId outcome shares sellPrice))
  = PositionTracker.get k this.
Proof.
  intros Hne. unfold PositionTracker.reducePosition.
  destruct (PositionTracker.get (PositionTracker.key marketId outcome) this)
    as [position|]; [|reflexivity].
  destruct (Position.shares position <? shares); [reflexivity|].
  destruct (_ <=? _); simpl.
  - now apply get_delete_other.
  - now apply get_set_other.
Qed.

Lemma addPosition_other (uuid : string) (now : Date) (this : PositionTracker.t)
    (order : OrderRequest.t) (shares price : number) (k : string) :
  String.eqb k (order_key order) = false ->
  PositionTracker.get k
    (fst (PositionTracker.addPosition uuid now this order shares price))
  = PositionTracker.get k this.
Proof.
  intros Hne. unfold PositionTracker.addPosition. fold (order_key order).
  destruct (PositionTracker.get (order_key order) this); simpl;
    now apply get_set_other.
Qed.

(** X1. An order acts on the position under its own key only: after
    [execute], accepted or rejected, the position map holds under every
    other key what it held before. *)
Theorem order_touches_one_key (env : Env) (this : TradeExecutor.t)
    (order : OrderRequest.t) (k : string) :
  k <> order_key order ->
  PositionTracker.get k
    (TradeExecutor.positionTracker (fst (TradeExecutor.execute env this order)))
  = PositionTracker.get k (TradeExecutor.positionTracker this).
Proof.
  intros Hne. apply String.eqb_neq in Hne.
  unfold TradeExecutor.execute. destruct (OrderRequest.side order).
  - unfold TradeExecutor.executeBuy.
    destruct (negb _); simpl; [reflexivity|].
    now apply addPosition_other.
  - unfold TradeExecutor.executeSell.
    destruct (_ <? _); simpl; [reflexivity|].
    pose proof (reducePosition_other (TradeExecutor.positionTracker this)
                  (OrderRequest.marketId order) (OrderRequest.outcome order)
                  (OrderRequest.shares order) (OrderRequest.price order) k Hne)
      as Hr.
    destruct (PositionTracker.reducePosition _ _ _ _ _) as [positions' result].
    simpl in Hr. destruct (negb _); simpl; exact Hr.
Qed.

(** One call of [execute]: a success appends the trade it reports to the
    history, a failure reports no trade and leaves the history. *)
Lemma execute_history (env : Env) (this : TradeExecutor.t) (order : OrderRequest.t) :
  let (this', result) := TradeExecutor.execute env this order in
  match OrderResult.trade result with
  | Some trade =>
      OrderResult.success result = true
      /\ TradeExecutor.history this' = TradeExecutor.history this ++ [trade]
  | None =>
      OrderResult.success result = false
      /\ TradeExecutor.history this' = TradeExecutor.history this
  end.
Proof.
  unfold TradeExecutor.execute. destruct (OrderRequest.side order).
  - unfold TradeExecutor.executeBuy. destruct (negb _); simpl; auto.
  - unfold TradeExecutor.executeSell. destruct (_ <? _); simpl; auto.
    destruct (PositionTracker.reducePosition _ _ _ _ _) as [positions' result].
    destruct (negb _); simpl; auto.
Qed.

(** X2. The history is append-only: a run of [execute] calls leaves the
    history it started with, followed by the trades of the accepted
    orders in the order of the calls; a result carries a trade exactly
    when it reports success. *)
Theorem history_append_only (this : TradeExecutor.t)
    (calls : list (Env * OrderRequest.t)) :
  let (final, results) := TradeExecutor.run this calls in
  TradeExecutor.history final = TradeExecutor.history this ++ trades_of results
  /\ List.length results = List.length calls
  /\ Forall (fun result =>
               OrderResult.success result
               = match OrderResult.trade result with
                 | Some _ => true
                 | None => false
                 end)
            results.
Proof.
  revert this. induction calls as [|[env order] calls IH]; intros this; simpl.
  - rewrite app_nil_r. repeat split. constructor.
  - pose proof (execute_history env this order) as Hstep.
    destruct (TradeExecutor.execute env this order) as [this' result].
    specialize (IH this').
    destruct (TradeExecutor.run this' calls) as [final results].
    destruct IH as (IH & Hlen & Hall). simpl.
    destruct (OrderResult.trade result) as [trade|] eqn:Ht;
      destruct Hstep as [Hs Hh]; rewrite IH, Hh.
    + rewrite <- app_assoc. repeat split; auto.
      constructor; [now rewrite Hs, Ht|assumption].
    + repeat split; auto. constructor; [now rewrite Hs, Ht|assumption].
Qed.

Lemma slice_last {A : Type} (count : Z) (l : list A) :
  (0 <= count)%Z ->
  rev (slice (- count) None l)
  = if (count =? 0)%Z then rev l else firstn (Z.to_nat count) (rev l).
Proof.
  intros Hc. rewrite slice_tail by exact Hc.
  destruct (count =? 0)%Z; [reflexivity|]. now rewrite firstn_rev.
Qed.

(** X3. [getRecentTrades(count)] returns the newest trades first: for a
    count of at least 1 the first [count] trades of the reversed
    history, for the count 0 the whole reversed history, and without
    an argument the newest ten; right after an accepted order it starts
    with the trade of that order. *)
Theorem recent_trades_newest_first (env : Env) (this : TradeExecutor.t)
    (order : OrderRequest.t) (count : Z) :
  ((0 < count)%Z ->
   TradeExecutor.getRecentTrades this (Some count)
   = firstn (Z.to_nat count) (rev (TradeExecutor.history this)))
  /\ TradeExecutor.getRecentTrades this (Some 0%Z)
     = rev (TradeExecutor.history this)
  /\ PortfolioManager.getRecentTrades this None
     = firstn 10 (rev (TradeExecutor.history this))
  /\ ((0 < count)%Z ->
      let (this', result) := TradeExecutor.execute env this order in
      OrderResult.success result = true ->
      hd_error (TradeExecutor.getRecentTrades this' (Some count))
      = OrderResult.trade result).
Proof.
  unfold PortfolioManager.getRecentTrades, TradeExecutor.getRecentTrades.
  split; [|split; [|split]].
  - intros Hc. rewrite slice_last by lia.
    destruct (count =? 0)%Z eqn:Hz; [apply Z.eqb_eq in Hz; lia|reflexivity].
  - now rewrite slice_last by lia.
  - now rewrite slice_last by lia.
  - intros Hc. pose proof (execute_history env this order) as Hstep.
    destruct (TradeExecutor.execute env this order) as [this' result].
    intros Hs. destruct (OrderResult.trade result) as [trade|];
      destruct Hstep as [Hs' Hh]; [|congruence].
    rewrite slice_last by lia.
    destruct (count =? 0)%Z eqn:Hz; [apply Z.eqb_eq in Hz; lia|].
    rewrite Hh, rev_app_distr. simpl.
    destruct (Z.to_nat count) eqn:Hn; [lia|reflexivity].
Qed.

End TradeFrame.

Lemma hyphen_inside (a b : string) : hyphen_free (a ++ String "-" b) = false.
Proof.
  induction a as [|c a IH]; simpl; [reflexivity|].
  rewrite IH. apply andb_false_r.
Qed.

Lemma key_injective (m1 m2 o1 o2 : string) :
  hyphen_free o1 = true -> hyphen_free o2 = true ->
  (m1 ++ String "-" o1)%string = (m2 ++ String "-" o2)%string ->
  m1 = m2 /\ o1 = o2.
Proof.
  intros H1 H2. revert m2.
  induction m1 as [|c m1 IH]; intros [|c2 m2]; simpl; intros E.
  - injection E as ->. auto.
  - injection E as <- ->. rewrite hyphen_inside in H1. discriminate.
  - injection E as -> <-. rewrite hyphen_inside in H2. discriminate.
  - injection E as -> E. destruct (IH m2 E) as [-> ->]. auto.
Qed.

Lemma string_append_assoc (a b c : string) :
  ((a ++ b) ++ c)%string = (a ++ (b ++ c))%string.
Proof.
  induction a as [|x a IH]; simpl; [reflexivity|]. now rewrite IH.
Qed.

(** X4. The key of a position, [marketId-outcome], separates the
    positions of any two markets and outcomes whose outcome names hold
    no hyphen, as YES and NO do.  An outcome name with a hyphen can share
    its key with another market: market [m-a] with outcome [b] and
    market [m] with outcome [a-b] have one key, so an order for either
    acts on the same position. *)
Theorem position_key_separates :
  (forall m1 m2 o1 o2 : string,
      hyphen_free o1 = true -> hyphen_free o2 = true ->
      PositionTracker.key m1 o1 = PositionTracker.key m2 o2 ->
      m1 = m2 /\ o1 = o2)
  /\ (forall m a b : string,
         PositionTracker.key (m ++ "-" ++ a) b
         = PositionTracker.key m (a ++ "-" ++ b))
  /\ hyphen_free "YES" = true /\ hyphen_free "NO" = true.
Proof.
  split; [|split; [|split; reflexivity]].
  - intros m1 m2 o1 o2 H1 H2. unfold PositionTracker.key.
    now apply key_injective.
  - intros m a b. unfold PositionTracker.key.
    now rewrite !string_append_assoc.
Qed.

Section Repricing.
Context {N : JSNumber} {P : Platform}.
Local Open Scope js_scope.

(** X5. [updatePrices] opens, closes and resizes nothing: the keys and
    their order stay, and the position under a key keeps its identity
    fields, shares, avgPrice and openedAt.  A position whose token has a
    price in the map is marked at that price, with
    unrealizedPnL = (price - avgPrice) * shares; a position whose token
    has none is left as it is. *)
Theorem updatePrices_keeps_holdings (this : PositionTracker.t)
    (prices : list (string * number)) :
  map fst (PositionTracker.updatePrices this prices) = map fst this
  /\ PositionTracker.getPositionCount (PositionTracker.updatePrices this prices)
     = PositionTracker.getPositionCount this
  /\ forall k : string,
       match PositionTracker.get k this with
       | None => PositionTracker.get k (PositionTracker.updatePrices this prices) = None
       | Some p =>
           exists p',
             PositionTracker.get k (PositionTracker.updatePrices this prices)
               = Some p'
             /\ same_holding p p'
             /\ match Assoc.get String.eqb (Position.tokenId p) prices with
                | Some price =>
                    Position.currentPrice p' = price
                    /\ Position.unrealizedPnL p'
                       = (price - Position.avgPrice p) * Position.shares p
                | None => p' = p
                end
       end.
Proof.
  assert (Hkeys : map fst (PositionTracker.updatePrices this prices) = map fst this).
  { unfold PositionTracker.updatePrices. rewrite map_map.
    apply map_ext. intros [k p]. simpl.
    destruct (Assoc.get String.eqb (Position.tokenId p) prices); reflexivity. }
  split; [exact Hkeys|]. split.
  - unfold PositionTracker.getPositionCount, length_number.
    rewrite <- (length_map fst (PositionTracker.updatePrices this prices)), Hkeys.
    now rewrite length_map.
  - intros k. unfold PositionTracker.get, PositionTracker.updatePrices.
    induction this as [|[k0 p0] this IH]; simpl; [reflexivity|].
    destruct (Assoc.get String.eqb (Position.tokenId p0) prices) as [price|] eqn:Hp;
      simpl; destruct (String.eqb k k0).
    + eexists. split; [reflexivity|]. rewrite Hp.
      unfold same_holding. simpl. repeat split.
    + apply IH. unfold PositionTracker.updatePrices in Hkeys. simpl in Hkeys.
      rewrite Hp in Hkeys. simpl in Hkeys. now injection Hkeys.
    + exists p0. split; [reflexivity|]. rewrite Hp.
      unfold same_holding. repeat split.
    + apply IH. unfold PositionTracker.updatePrices in Hkeys. simpl in Hkeys.
      rewrite Hp in Hkeys. simpl in Hkeys. now injection Hkeys.
Qed.

Lemma execute_baseline (env : Env) (this : TradeExecutor.t) (order : OrderRequest.t) :
  let balance' :=
    TradeExecutor.balanceManager (fst (TradeExecutor.execute env this order)) in
  VirtualBalance.totalValue balance'
    = VirtualBalance.totalValue (TradeExecutor.balanceManager this)
  /\ VirtualBalance.initialBalance balance'
     = VirtualBalance.initialBalance (TradeExecutor.balanceManager this).
Proof.
  unfold TradeExecutor.execute. destruct (OrderRequest.side order).
  - unfold TradeExecutor.executeBuy, BalanceManager.deductCash.
    destruct (negb _) eqn:E; simpl; auto.
  - unfold TradeExecutor.executeSell. destruct (_ <? _); simpl; auto.
    destruct (PositionTracker.reducePosition _ _ _ _ _) as [positions' result].
    destruct (negb _); simpl; auto.
Qed.

Lemma run_baseline (this : TradeExecutor.t) (calls : list (Env * OrderRequest.t)) :
  let balance' :=
    TradeExecutor.balanceManager (fst (TradeExecutor.run this calls)) in
  VirtualBalance.totalValue balance'
    = VirtualBalance.totalValue (TradeExecutor.balanceManager this)
  /\ VirtualBalance.initialBalance balance'
     = VirtualBalance.initialBalance (TradeExecutor.balanceManager this).
Proof.
  revert this. induction calls as [|[env order] calls IH]; intros this; simpl; auto.
  pose proof (execute_baseline env this order) as Hstep.
  destruct (TradeExecutor.execute env this order) as [this' result].
  specialize (IH this').
  destruct (TradeExecutor.run this' calls) as [final results].
  simpl in *. destruct IH as [-> ->]. exact Hstep.
Qed.

(** X6. Trades do not move the profit and loss the balance manager
    reports: [execute] never writes [totalValue] or [initialBalance], so
    after any run [BalanceManager.getPnL] returns what it returned
    before.  [PortfolioManager.updatePrices] brings it up to date: right
    after it, [getPnL] is the totalPnL and totalPnLPercent of
    [getSummary]. *)
Theorem balance_pnl_moves_on_reprice_only (this : TradeExecutor.t)
    (calls : list (Env * OrderRequest.t)) (now : Date)
    (prices : list (string * number)) :
  BalanceManager.getPnL
    (TradeExecutor.balanceManager (fst (TradeExecutor.run this calls)))
  = BalanceManager.getPnL (TradeExecutor.balanceManager this)
  /\ let this' := PortfolioManager.updatePrices now this prices in
     BalanceManager.getPnL (TradeExecutor.balanceManager this')
     = (PortfolioSummary.totalPnL (PortfolioManager.getSummary this'),
        PortfolioSummary.totalPnLPercent (PortfolioManager.getSummary this')).
Proof.
  split.
  - destruct (run_baseline this calls) as [Ht Hi].
    unfold BalanceManager.getPnL. now rewrite Ht, Hi.
  - reflexivity.
Qed.

End Repricing.

Section HeldPositions.
Variables (V : Type) (good : V -> Prop).

Lemma get_Forall (k : string) (v : V) (m : list (string * V)) :
  Forall good (map snd m) -> Assoc.get String.eqb k m = Some v -> good v.
Proof.
  induction m as [|[k' v'] m IH]; simpl; [discriminate|].
  intros Hall. inversion Hall; subst.
  destruct (String.eqb k k'); [now intros [= <-]|auto].
Qed.

Lemma set_Forall (k : string) (v : V) (m : list (string * V)) :
  Forall good (map snd m) -> good v ->
  Forall good (map snd (Assoc.set String.eqb k v m)).
Proof.
  intros Hall Hv. induction m as [|[k' v'] m IH]; simpl.
  - constructor; [assumption|constructor].
  - inversion Hall; subst.
    destruct (String.eqb k k'); simpl; constructor; auto.
Qed.

Lemma delete_Forall (k : string) (m : list (string * V)) :
  Forall good (map snd m) ->
  Forall good (map snd (Assoc.delete String.eqb k m)).
Proof.
  unfold Assoc.delete. intros Hall.
  induction m as [|[k' v'] m IH]; simpl; [constructor|].
  inversion Hall; subst.
  destruct (String.eqb k k'); simpl; [auto|constructor; auto].
Qed.

End HeldPositions.

Section ExactPortfolio.
Context {P : Platform (N := QNum)}.
Local Open Scope Q_scope.

(** An invariant of the positions that [addPosition] and
    [reducePosition] keep, whatever the order. *)
Lemma execute_keeps (good : Position.t (N := QNum) -> Prop) (env : Env)
    (this : TradeExecutor.t) (order : OrderRequest.t) :
  (forall uuid now shares price,
      OrderRequest.side order = BUY ->
      shares = OrderRequest.shares order ->
      Forall good (map snd (TradeExecutor.positionTracker this)) ->
      good (snd (PositionTracker.addPosition uuid now
                   (TradeExecutor.positionTracker this) order shares price))) ->
  (forall position positions' result,
      PositionTracker.get (order_key order) (TradeExecutor.positionTracker this)
        = Some position ->
      good position ->
      PositionTracker.reducePosition (TradeExecutor.positionTracker this)
        (OrderRequest.marketId order) (OrderRequest.outcome order)
        (OrderRequest.shares order) (OrderRequest.price order)
        = (positions', result) ->
      match PositionTracker.get (order_key order) positions' with
      | Some position' => good position'
      | None => True
      end) ->
  Forall good (map snd (TradeExecutor.positionTracker this)) ->
  Forall good
    (map snd (TradeExecutor.positionTracker
                (fst (TradeExecutor.execute env this order)))).
Proof.
  intros Hadd Hreduce Hall.
  unfold TradeExecutor.execute. destruct (OrderRequest.side order) eqn:Hside.
  - unfold TradeExecutor.executeBuy. destruct (negb _); simpl; [exact Hall|].
    specialize (Hadd (uuid_position env) (now_position env)
                  (OrderRequest.shares order) (OrderRequest.price order)
                  eq_refl eq_refl Hall).
    unfold PositionTracker.addPosition in *.
    destruct (PositionTracker.get _ _); simpl in *; now apply set_Forall.
  - unfold TradeExecutor.executeSell. destruct (ltb _ _); simpl; [exact Hall|].
    destruct (PositionTracker.reducePosition _ _ _ _ _) as [positions' result] eqn:Hr.
    assert (Hall' : Forall good (map snd positions')).
    { unfold PositionTracker.reducePosition in Hr.
      fold (order_key order) in Hr.
      destruct (PositionTracker.get (order_key order)
                  (TradeExecutor.positionTracker this)) as [position|] eqn:Hget.
      - specialize (Hreduce position positions' result eq_refl
                      (get_Forall _ good _ _ _ Hall Hget) eq_refl).
        destruct (ltb (Position.shares position) _); [now injection Hr as <- _|].
        destruct (leb _ _); injection Hr as <- _.
        + now apply delete_Forall.
        + apply set_Forall; [assumption|].
          unfold PositionTracker.get in Hreduce.
          now rewrite get_set_same in Hreduce.
      - now injection Hr as <- _. }
    destruct (negb _); simpl; exact Hall'.
Qed.

Lemma execute_positive (env : Env) (this : TradeExecutor.t)
    (order : OrderRequest.t) :
  buys_positive (env, order) ->
  Forall positive_shares (map snd (TradeExecutor.positionTracker this)) ->
  Forall positive_shares
    (map snd (TradeExecutor.positionTracker
                (fst (TradeExecutor.execute env this order)))).
Proof.
  unfold buys_positive. cbn [snd].
  intros Hbuy Hall. apply execute_keeps; [| |exact Hall].
  - intros uuid now shares price Hside -> Hall'.
    specialize (Hbuy Hside).
    unfold PositionTracker.addPosition, positive_shares.
    destruct (PositionTracker.get _ _) as [existing|] eqn:Hget; simpl.
    + pose proof (get_Forall _ positive_shares _ _ _ Hall' Hget) as Hpos.
      unfold positive_shares in Hpos. lra.
    + exact Hbuy.
  - intros position positions' result Hget Hpos Hr.
    unfold PositionTracker.reducePosition in Hr. fold (order_key order) in Hr.
    rewrite Hget in Hr.
    destruct (ltb (Position.shares position) _).
    + injection Hr as <- _. rewrite Hget. exact Hpos.
    + destruct (leb _ _) eqn:Hle; injection Hr as <- _; simpl.
      * unfold PositionTracker.get. now rewrite get_delete_same.
      * unfold PositionTracker.get. rewrite get_set_same.
        unfold positive_shares. simpl.
        apply Qnot_le_lt. intros Hn. apply Qle_bool_iff in Hn.
        exact (eq_true_false_abs _ Hn Hle).
Qed.


Lemma updatePrices_Forall (good : Position.t (N := QNum) -> Prop)
    (this : PositionTracker.t) (prices : list (string * Q)) :
  (forall p price,
      good p ->
      good {| Position.id := Position.id p;
              Position.marketId := Position.marketId p;
              Position.marketQuestion := Position.marketQuestion p;
              Position.tokenId := Position.tokenId p;
              Position.outcome := Position.outcome p;
              Position.shares := Position.shares p;
              Position.avgPrice := Position.avgPrice p;
              Position.currentPrice := price;
              Position.unrealizedPnL :=
                (price - Position.avgPrice p) * Position.shares p;
              Position.openedAt := Position.openedAt p |}) ->
  Forall good (map snd this) ->
  Forall good (map snd (PositionTracker.updatePrices this prices)).
Proof.
  intros Hgood. unfold PositionTracker.updatePrices.
  induction this as [|[k p] this IH]; simpl; intros Hall; [constructor|].
  inversion Hall; subst. constructor; [|auto].
  destruct (Assoc.get String.eqb (Position.tokenId p) prices); simpl; auto.
Qed.


End ExactPortfolio.

Section RecordedTrades.
Context {N : JSNumber} {P : Platform}.
Local Open Scope js_scope.

Lemma execute_fee (env : Env) (this : TradeExecutor.t) (order : OrderRequest.t) :
  let (this', result) := TradeExecutor.execute env this order in
  TradeExecutor.getTotalFees this'
  = (if OrderResult.success result
     then TradeExecutor.getTotalFees this + fee order
     else TradeExecutor.getTotalFees this)
  /\ Forall (fun t => Trade.totalCost t = Trade.shares t * Trade.price t
                      /\ Trade.fees t = Trade.totalCost t * TradeExecutor.FEE_RATE)
            (trades_of [result]).
Proof.
  unfold TradeExecutor.execute, TradeExecutor.getTotalFees, fee, trades_of.
  destruct (OrderRequest.side order).
  - unfold TradeExecutor.executeBuy. destruct (negb _); simpl.
    + split; [reflexivity|constructor].
    + rewrite fold_left_app. split; [reflexivity|].
      repeat constructor.
  - unfold TradeExecutor.executeSell. destruct (_ <? _); simpl.
    + split; [reflexivity|constructor].
    + destruct (PositionTracker.reducePosition _ _ _ _ _) as [positions' result].
      destruct (negb _); simpl.
      * split; [reflexivity|constructor].
      * rewrite fold_left_app. split; [reflexivity|].
        repeat constructor.
Qed.

(** X10. Every trade that [execute] records carries
    totalCost = shares * price and fees = totalCost * 0.001, as the
    number type of the code computes them, for buys and sells alike; and
    [getTotalFees] after a run is the total before it with the fee
    shares * price * 0.001 of each accepted order added, one by one in
    the order of the calls.  Rejected orders add nothing. *)
Theorem fees_are_a_thousandth (this : TradeExecutor.t)
    (calls : list (Env * OrderRequest.t)) :
  let (final, results) := TradeExecutor.run this calls in
  TradeExecutor.getTotalFees final
  = fold_left (fun sum order => sum + fee order) (accepted calls results)
      (TradeExecutor.getTotalFees this)
  /\ Forall (fun t => Trade.totalCost t = Trade.shares t * Trade.price t
                      /\ Trade.fees t = Trade.totalCost t * TradeExecutor.FEE_RATE)
            (trades_of results).
Proof.
  revert this. induction calls as [|[env order] calls IH]; intros this; simpl.
  - split; [reflexivity|constructor].
  - pose proof (execute_fee env this order) as Hstep.
    destruct (TradeExecutor.execute env this order) as [this' result].
    specialize (IH this').
    destruct (TradeExecutor.run this' calls) as [final results].
    destruct Hstep as [Hfees Htrade], IH as [IH Htrades].
    split.
    + rewrite IH, Hfees. cbn [accepted].
      destruct (OrderResult.success result); reflexivity.
    + unfold trades_of in *. simpl in Htrade |- *.
      rewrite app_nil_r in Htrade. apply Forall_app. split; assumption.
Qed.

Lemma filter_filter_length {A : Type} (f g : A -> bool) (l : list A) :
  List.length (filter g (filter f l)) = List.length (filter (fun x => f x && g x) l).
Proof.
  induction l as [|x l IH]; simpl; [reflexivity|].
  destruct (f x); simpl; [destruct (g x); simpl; auto|auto].
Qed.

Lemma filter_length_le {A : Type} (f : A -> bool) (l : list A) :
  (List.length (filter f l) <= List.length l)%nat.
Proof.
  induction l as [|x l IH]; simpl; [lia|]. destruct (f x); simpl; lia.
Qed.

(** X11. The win rate is computed from the SELL trades alone.  It is 0
    while the history holds no SELL trade; otherwise it is
    [getWinningTradesCount] divided by the number of SELL trades, times
    100, as the number type of the code computes it.  The two methods
    count the same winners, which are never more than the SELL trades;
    and two histories with the same SELL trades have the same win rate,
    whatever their BUY trades record. *)
Theorem win_rate_is_a_percentage (this : TradeExecutor.t) :
  (sells this = [] -> TradeExecutor.getWinRate this = of_Z 0)
  /\ (sells this <> [] ->
      TradeExecutor.getWinRate this
      = (TradeExecutor.getWinningTradesCount this / length_number (sells this))
        * of_Z 100)
  /\ TradeExecutor.getWinningTradesCount this
     = length_number (filter TradeExecutor.is_win (sells this))
  /\ (List.length (filter TradeExecutor.is_win (sells this))
      <= List.length (sells this) <= List.length (TradeExecutor.history this))%nat
  /\ (forall this' : TradeExecutor.t,
         sells this' = sells this ->
         TradeExecutor.getWinRate this' = TradeExecutor.getWinRate this).
Proof.
  assert (Hcount : TradeExecutor.getWinningTradesCount this
                   = length_number (filter TradeExecutor.is_win (sells this))).
  { unfold TradeExecutor.getWinningTradesCount, sells, length_number.
    now rewrite filter_filter_length. }
  split; [|split; [|split; [exact Hcount|split]]].
  - unfold TradeExecutor.getWinRate, sells. now intros ->.
  - rewrite Hcount. unfold TradeExecutor.getWinRate, sells.
    destruct (filter TradeExecutor.is_sell (TradeExecutor.history this));
      [intros H; now elim H|reflexivity].
  - split; apply filter_length_le.
  - intros this' Hsame. unfold TradeExecutor.getWinRate.
    unfold sells in Hsame. now rewrite Hsame.
Qed.

(** A sell of all the shares held under the key, on a tracker that holds
    [position] there. *)
Lemma sell_all {O : JSNumberOrder N} (env : Env) (this : TradeExecutor.t)
    (order : OrderRequest.t) (position : Position.t) :
  OrderRequest.side order = SELL ->
  PositionTracker.get (order_key order) (TradeExecutor.positionTracker this)
    = Some position ->
  OrderRequest.shares order = Position.shares position ->
  let (this', result) := TradeExecutor.execute env this order in
  OrderResult.success result = true
  /\ cash_in this' = cash_in this + netProceeds order
  /\ option_map Trade.realizedPnL (OrderResult.trade result)
     = Some (Some ((OrderRequest.price order - Position.avgPrice position)
                   * OrderRequest.shares order))
  /\ (cancels (Position.shares position) ->
      PositionTracker.get (order_key order) (TradeExecutor.positionTracker this')
      = None).
Proof.
  intros Hside Hget Hshares.
  unfold TradeExecutor.execute, TradeExecutor.executeSell. rewrite Hside.
  unfold PositionTracker.getPositionSize, PositionTracker.reducePosition.
  fold (order_key order). rewrite Hget, Hshares.
  assert (Hheld : (or_zero (Position.shares position)
                     <? Position.shares position) = false).
  { unfold or_zero. destruct (truthy (Position.shares position)) eqn:Ht.
    - apply ltb_irrefl.
    - now apply falsy_not_positive. }
  rewrite Hheld, ltb_irrefl.
  unfold cancels, cash_in, netProceeds. rewrite Hshares.
  destruct (_ <=? _) eqn:Hle; cbn.
  - repeat split. intros _. unfold PositionTracker.get. apply get_delete_same.
  - repeat split. intros H. discriminate H.
Qed.

(** An affordable buy. *)
Lemma buy_all (env : Env) (this : TradeExecutor.t) (order : OrderRequest.t) :
  OrderRequest.side order = BUY ->
  (cash_in this >=? totalWithFees order) = true ->
  let (this', result) := TradeExecutor.execute env this order in
  OrderResult.success result = true
  /\ cash_in this' = cash_in this - totalWithFees order
  /\ TradeExecutor.positionTracker this'
     = fst (PositionTracker.addPosition (uuid_position env) (now_position env)
              (TradeExecutor.positionTracker this) order
              (OrderRequest.shares order) (OrderRequest.price order))
  /\ option_map Trade.shares (OrderResult.trade result)
     = Some (OrderRequest.shares order).
Proof.
  intros Hside Hafford.
  unfold TradeExecutor.execute, TradeExecutor.executeBuy,
    BalanceManager.deductCash, BalanceManager.canAfford. rewrite Hside.
  unfold cash_in, totalWithFees in *. cbv zeta in Hafford. rewrite Hafford.
  cbn. repeat split.
Qed.

(** X12. Buying into a key that holds nothing and selling the same
    number of shares again: when the buy is affordable both orders are
    accepted, the sell realizes (sell price - buy price) * shares, and
    the cash ends at (cash - totalWithFees of the buy) + netProceeds of
    the sell, each amount as the code computes it.  The round trip leaves
    no position under the key, for every number of shares with
    shares - shares <= 0, which leaves out only the infinities. *)
Theorem buy_then_sell_all {O : JSNumberOrder N} (env1 env2 : Env)
    (this : TradeExecutor.t) (buy : OrderRequest.t) (price : number) :
  OrderRequest.side buy = BUY ->
  PositionTracker.get (order_key buy) (TradeExecutor.positionTracker this) = None ->
  (cash_in this >=? totalWithFees buy) = true ->
  let (this1, bought) := TradeExecutor.execute env1 this buy in
  let (this2, sold) := TradeExecutor.execute env2 this1 (sell_back buy price) in
  OrderResult.success bought = true
  /\ OrderResult.success sold = true
  /\ option_map Trade.realizedPnL (OrderResult.trade sold)
     = Some (Some ((price - OrderRequest.price buy) * OrderRequest.shares buy))
  /\ cash_in this2
     = (cash_in this - totalWithFees buy) + netProceeds (sell_back buy price)
  /\ (cancels (OrderRequest.shares buy) ->
      PositionTracker.get (order_key buy) (TradeExecutor.positionTracker this2)
      = None).
Proof.
  intros Hside Hnone Hafford.
  pose proof (buy_all env1 this buy Hside Hafford) as Hb.
  destruct (TradeExecutor.execute env1 this buy) as [this1 bought].
  destruct Hb as (Hs1 & Hc1 & Hp1 & _).
  unfold PositionTracker.addPosition in Hp1. fold (order_key buy) in Hp1.
  rewrite Hnone in Hp1. cbn [fst] in Hp1.
  match type of Hp1 with
  | _ = Assoc.set _ _ ?p _ => set (position := p) in Hp1
  end.
  assert (Hget1 : PositionTracker.get (order_key (sell_back buy price))
                    (TradeExecutor.positionTracker this1) = Some position).
  { rewrite Hp1. unfold PositionTracker.get. apply get_set_same. }
  pose proof (sell_all env2 this1 (sell_back buy price) position
                eq_refl Hget1 eq_refl) as Hsell.
  destruct (TradeExecutor.execute env2 this1 (sell_back buy price))
    as [this2 sold].
  destruct Hsell as (Hs2 & Hc2 & Hpnl & Hgone).
  split; [exact Hs1|]. split; [exact Hs2|]. split; [exact Hpnl|].
  split; [now rewrite Hc2, Hc1|exact Hgone].
Qed.

(** X14. The order the agent places to close a position -- a sell of
    all its shares at its currentPrice -- is always accepted for a
    position the tracker holds under its own key: the cash grows by the
    net proceeds shares * currentPrice - shares * currentPrice * 0.001
    as the code computes them, and the trade realizes
    (currentPrice - avgPrice) * shares, which is the unrealizedPnL of a
    position marked by that very expression.  The position is removed
    when shares - shares <= 0, which leaves out only a share count that
    is NaN or infinite. *)
Theorem exit_order_closes {O : JSNumberOrder N} (env : Env)
    (this : TradeExecutor.t) (position : Position.t) :
  let key :=
    PositionTracker.key (Position.marketId position) (Position.outcome position) in
  PositionTracker.get key (TradeExecutor.positionTracker this) = Some position ->
  let (this', result) :=
    TradeExecutor.execute env this (TradingAgent.exit_order position) in
  OrderResult.success result = true
  /\ cash_in this'
     = cash_in this + netProceeds (TradingAgent.exit_order position)
  /\ option_map Trade.realizedPnL (OrderResult.trade result)
     = Some (Some ((Position.currentPrice position - Position.avgPrice position)
                   * Position.shares position))
  /\ (Position.unrealizedPnL position
      = (Position.currentPrice position - Position.avgPrice position)
        * Position.shares position ->
      option_map Trade.realizedPnL (OrderResult.trade result)
      = Some (Some (Position.unrealizedPnL position)))
  /\ (cancels (Position.shares position) ->
      PositionTracker.get key (TradeExecutor.positionTracker this') = None).
Proof.
  intros key Hget.
  pose proof (sell_all env this (TradingAgent.exit_order position) position
                eq_refl Hget eq_refl) as Hsell.
  destruct (TradeExecutor.execute env this (TradingAgent.exit_order position))
    as [this' result].
  destruct Hsell as (Hs & Hc & Hpnl & Hgone).
  split; [exact Hs|]. split; [exact Hc|]. split; [exact Hpnl|].
  split; [|exact Hgone].
  intros Hmark. rewrite Hmark. exact Hpnl.
Qed.

(** X15. [executeBuy] checks the cost against the cash and nothing
    else: a buy whose cost with fees comes out negative -- a negative
    number of shares at a positive price -- is accepted whenever the cash
    is not negative.  The cash becomes cash - totalWithFees, the trade
    records the negative number of shares, and on a key that held
    nothing a position with that number of shares is opened. *)
Theorem negative_buy_is_accepted {O : JSNumberOrder N} (env : Env)
    (this : TradeExecutor.t) (order : OrderRequest.t) :
  OrderRequest.side order = BUY ->
  (totalWithFees order <? of_Z 0) = true ->
  (of_Z 0 <=? cash_in this) = true ->
  let (this', result) := TradeExecutor.execute env this order in
  OrderResult.success result = true
  /\ cash_in this' = cash_in this - totalWithFees order
  /\ option_map Trade.shares (OrderResult.trade result)
     = Some (OrderRequest.shares order)
  /\ (PositionTracker.get (order_key order) (TradeExecutor.positionTracker this)
      = None ->
      exists p : Position.t,
        PositionTracker.get (order_key order) (TradeExecutor.positionTracker this')
        = Some p
        /\ Position.shares p = OrderRequest.shares order).
Proof.
  intros Hside Hcost Hcash.
  assert (Hafford : (cash_in this >=? totalWithFees order) = true).
  { unfold geb. exact (negative_leb_nonnegative _ _ Hcost Hcash). }
  pose proof (buy_all env this order Hside Hafford) as Hb.
  destruct (TradeExecutor.execute env this order) as [this' result].
  destruct Hb as (Hs & Hc & Hp & Ht).
  split; [exact Hs|]. split; [exact Hc|]. split; [exact Ht|].
  intros Hnone. rewrite Hp. unfold PositionTracker.addPosition.
  fold (order_key order). rewrite Hnone. cbn [fst].
  eexists. split; [unfold PositionTracker.get; apply get_set_same|reflexivity].
Qed.


End RecordedTrades.

Section ExactTrades.
Context {P : Platform (N := QNum)}.
Local Open Scope Q_scope.

Lemma Q_or_zero (x : Q) : or_zero (N := QNum) x == x.
Proof.
  unfold or_zero. simpl. unfold QNumber.truthy.
  destruct (Qeq_bool x 0) eqn:E; simpl; [|reflexivity].
  apply Qeq_bool_eq in E. now rewrite E.
Qed.

End ExactTrades.

Section ExactValue.
Context {P : Platform (N := QNum)}.
Local Open Scope Q_scope.


End ExactValue.

Section Fallback.
Context {N : JSNumber}.

Lemma new_balance (initialBalance : option number) (env_INITIAL_BALANCE : number)
    (now : Date) :
  truthy (BalanceManager.DEFAULT_INITIAL_BALANCE (N := N)) = true ->
  let b := BalanceManager.new initialBalance env_INITIAL_BALANCE now in
  truthy (VirtualBalance.cash b) = true
  /\ VirtualBalance.totalValue b = VirtualBalance.cash b
  /\ VirtualBalance.initialBalance b = VirtualBalance.cash b
  /\ VirtualBalance.cash b
     = match initialBalance with
       | Some x =>
           if truthy x then x
           else if truthy env_INITIAL_BALANCE then env_INITIAL_BALANCE
                else of_Z 100000
       | None =>
           if truthy env_INITIAL_BALANCE then env_INITIAL_BALANCE
           else of_Z 100000
       end.
Proof.
  intros Hdefault. unfold BalanceManager.new. simpl.
  split; [|repeat split].
  destruct initialBalance as [x|].
  - destruct (truthy x) eqn:Hx; [exact Hx|].
    destruct (truthy env_INITIAL_BALANCE) eqn:He; [exact He|exact Hdefault].
  - destruct (truthy env_INITIAL_BALANCE) eqn:He; [exact He|exact Hdefault].
Qed.

End Fallback.

(** X17. Which amount a new balance starts with.  The constructor takes
    its argument when that is a number other than 0 and NaN; otherwise
    the INITIAL_BALANCE of the environment when that is a number other
    than 0 and NaN; otherwise 100000.  Cash, totalValue and
    initialBalance all start at that amount, which is never 0: so
    [new BalanceManager(0)] starts with the environment's balance or
    with 100000, not with 0.  In exact numbers and in binary64. *)
Theorem balance_starts_funded :
  (forall (initialBalance : option Q) (env_INITIAL_BALANCE : Q) (now : Date),
      let b := BalanceManager.new (N := QNum) initialBalance env_INITIAL_BALANCE now in
      let no_amount :=
        initialBalance = None
        \/ exists x : Q, initialBalance = Some x /\ (x == 0)%Q in
      ~ (VirtualBalance.cash b == 0)%Q
      /\ VirtualBalance.totalValue b = VirtualBalance.cash b
      /\ VirtualBalance.initialBalance b = VirtualBalance.cash b
      /\ (forall x : Q, initialBalance = Some x -> ~ (x == 0)%Q ->
          VirtualBalance.cash b = x)
      /\ (no_amount -> ~ (env_INITIAL_BALANCE == 0)%Q ->
          VirtualBalance.cash b = env_INITIAL_BALANCE)
      /\ (no_amount -> (env_INITIAL_BALANCE == 0)%Q ->
          VirtualBalance.cash b = 100000%Q))
  /\ (forall (initialBalance : option spec_float)
             (env_INITIAL_BALANCE : spec_float) (now : Date),
         let b :=
           BalanceManager.new (N := F64Num) initialBalance env_INITIAL_BALANCE now in
         let no_amount :=
           initialBalance = None
           \/ exists x : spec_float,
                initialBalance = Some x /\ F64.truthy x = false in
         F64.truthy (VirtualBalance.cash b) = true
         /\ VirtualBalance.totalValue b = VirtualBalance.cash b
         /\ VirtualBalance.initialBalance b = VirtualBalance.cash b
         /\ (forall x : spec_float, initialBalance = Some x ->
             F64.truthy x = true -> VirtualBalance.cash b = x)
         /\ (no_amount -> F64.truthy env_INITIAL_BALANCE = true ->
             VirtualBalance.cash b = env_INITIAL_BALANCE)
         /\ (no_amount -> F64.truthy env_INITIAL_BALANCE = false ->
             VirtualBalance.cash b = F64.of_Z 100000)).
Proof.
  assert (Hq : forall x : Q, (x == 0)%Q -> @truthy QNum x = false).
  { intros x Hx. simpl. unfold QNumber.truthy. apply negb_false_iff.
    now apply Qeq_bool_iff. }
  assert (Hq' : forall x : Q, ~ (x == 0)%Q -> @truthy QNum x = true).
  { intros x Hx. simpl. unfold QNumber.truthy. apply negb_true_iff.
    destruct (Qeq_bool x 0) eqn:E; [|reflexivity].
    apply Qeq_bool_iff in E. contradiction. }
  split.
  - intros ib e now b no_amount. subst b no_amount.
    destruct (new_balance (N := QNum) ib e now eq_refl) as (Ht & Hv & Hi & Hc).
    split; [|split; [exact Hv|split; [exact Hi|split; [|split]]]].
    + intros Hz. rewrite (Hq _ Hz) in Ht. discriminate Ht.
    + intros x -> Hx. rewrite Hc. now rewrite (Hq' x Hx).
    + intros Hib He. rewrite Hc.
      destruct Hib as [->|(x & -> & Hx)];
        [|rewrite (Hq x Hx)]; now rewrite (Hq' e He).
    + intros Hib He. rewrite Hc.
      destruct Hib as [->|(x & -> & Hx)];
        [|rewrite (Hq x Hx)]; now rewrite (Hq e He).
  - intros ib e now b no_amount. subst b no_amount.
    destruct (new_balance (N := F64Num) ib e now eq_refl) as (Ht & Hv & Hi & Hc).
    split; [exact Ht|split; [exact Hv|split; [exact Hi|split; [|split]]]].
    + intros x -> Hx. rewrite Hc.
      change (@truthy F64Num x) with (F64.truthy x). now rewrite Hx.
    + intros Hib He. rewrite Hc.
      change (@truthy F64Num e) with (F64.truthy e).
      destruct Hib as [->|(x & -> & Hx)];
        [|change (@truthy F64Num x) with (F64.truthy x); rewrite Hx];
        now rewrite He.
    + intros Hib He. rewrite Hc.
      change (@truthy F64Num e) with (F64.truthy e).
      destruct Hib as [->|(x & -> & Hx)];
        [|change (@truthy F64Num x) with (F64.truthy x); rewrite Hx];
        now rewrite He.
Qed.

Section WholePortfolio.
Context {N : JSNumber} {P : Platform}.

(** X18. The whole portfolio comes back from its own serialization:
    [PortfolioManager.restore] of what [PortfolioManager.serialize]
    returns leaves the three components in the state serialized,
    whatever they held before -- for every portfolio whose dates are
    valid and whose numbers JSON text denotes, given that the platform
    reads back the bundle and the three component texts it prints and
    that none of these texts is empty. *)
Theorem portfolio_round_trip (this : PortfolioManager.t)
    (current : PortfolioManager.heap) :
  balance_ok (TradeExecutor.balanceManager this) ->
  NoDup (map fst (TradeExecutor.positionTracker this)) ->
  Forall position_ok (map snd (TradeExecutor.positionTracker this)) ->
  Forall trade_ok (TradeExecutor.history this) ->
  reads_back (bundle_json this) ->
  reads_back (balance_json (TradeExecutor.balanceManager this)) ->
  reads_back (positions_json (TradeExecutor.positionTracker this)) ->
  reads_back (history_json this) ->
  BalanceManager.serialize (TradeExecutor.balanceManager this) <> EmptyString ->
  PositionTracker.serialize (TradeExecutor.positionTracker this) <> EmptyString ->
  TradeExecutor.serialize this <> EmptyString ->
  PortfolioManager.restore (PortfolioManager.serialize this) current
  = Normal (PortfolioManager.to_heap this).
Proof.
  intros Hb Hnd Hp Ht Rbundle Rb Rp Rt Eb Ep Et.
  assert (Hparse : JSON_parse (PortfolioManager.serialize this)
                   = Some (bundle_json this)) by exact Rbundle.
  rewrite (restore_componentwise _ _ current Hparse).
  unfold PortfolioManager.to_heap, restored, bundle_json. cbn [get_field Assoc.get].
  cbn [String.eqb Ascii.eqb Bool.eqb andb]. cbn [to_boolean].
  apply String.eqb_neq in Eb, Ep, Et. rewrite Eb, Ep, Et. cbn [negb].
  rewrite (balance_round_trip _ _ Hb Rb).
  rewrite (positions_round_trip _ _ Hnd Hp Rp).
  rewrite (history_round_trip _ _ Ht Rt).
  reflexivity.
Qed.

End WholePortfolio.

Section Sizes.
Context {P : Platform (N := QNum)}.
Local Open Scope Q_scope.

Lemma calculateSize_range (strength : Q) :
  10 <= MarketAnalyzer.calculateSize strength <= 500.
Proof.
  unfold MarketAnalyzer.calculateSize. exact_ops.
  change (inject_Z 10) with 10. change (inject_Z 500) with 500.
  split.
  - apply Q.le_max_l.
  - apply Q.max_lub; [discriminate|]. apply Q.le_min_l.
Qed.

(** X19. The size an analysis suggests is clamped: with
    scaled = 100 * |strength| * 5 as the code computes it,
    [calculateSize] is scaled while that lies between 10 and 500, and 10
    or 500 beyond; it takes the same value at a strength and at its
    opposite. *)
Theorem suggested_size_is_clamped (strength : Q) :
  let scaled := 100 * Qabs strength * 5 in
  10 <= MarketAnalyzer.calculateSize strength <= 500
  /\ (10 <= scaled <= 500 -> MarketAnalyzer.calculateSize strength == scaled)
  /\ (scaled <= 10 -> MarketAnalyzer.calculateSize strength == 10)
  /\ (500 <= scaled -> MarketAnalyzer.calculateSize strength == 500)
  /\ MarketAnalyzer.calculateSize (- strength)
     == MarketAnalyzer.calculateSize strength.
Proof.
  intros scaled. split; [apply calculateSize_range|].
  unfold MarketAnalyzer.calculateSize. exact_ops.
  change (inject_Z 10) with 10. change (inject_Z 500) with 500.
  change (inject_Z 100) with 100. change (inject_Z 5) with 5.
  fold scaled.
  repeat split.
  - intros [Hlo Hhi].
    rewrite (Q.min_r 500 scaled) by exact Hhi.
    now apply Q.max_r.
  - intros Hlo.
    rewrite (Q.min_r 500 scaled) by lra.
    now apply Q.max_l.
  - intros Hhi.
    rewrite (Q.min_l 500 scaled) by exact Hhi.
    apply Q.max_r. discriminate.
  - now rewrite Qabs_opp.
Qed.

(** X20. What [analyze] can return, for every market, strategy and
    random draw: the signal is BUY_YES, BUY_NO or HOLD, never a sell or a
    DCA; a HOLD suggests the size 0; a buy suggests a size between 10 and
    500 with a confidence between 0.5 and 0.9, so the confidence check of
    the default configuration (minConfidence 0.5) never rejects a buy
    signal of these strategies. *)
Theorem analysis_shape (rnd : Q) (market : EnrichedMarket.t)
    (strategy : StrategyType) :
  let a := MarketAnalyzer.analyze rnd market strategy in
  MarketAnalysis.market a = market
  /\ (is_buy (MarketAnalysis.signal a) \/ MarketAnalysis.signal a = HOLD)
  /\ (MarketAnalysis.signal a = HOLD -> MarketAnalysis.suggestedSize a == 0)
  /\ (is_buy (MarketAnalysis.signal a) ->
      10 <= MarketAnalysis.suggestedSize a <= 500
      /\ 5 # 10 <= MarketAnalysis.confidence a <= 9 # 10
      /\ check_confidence TradingAgent.DEFAULT_CONFIG a = false).
Proof.
  assert (Hgate : forall c : Q, 5 # 10 <= c ->
                    QNumber.ltb c (QNumber.lit 5 1) = false).
  { intros c Hc. apply Q_ltb_ge. exact Hc. }
  assert (Hmin : forall x : Q, QNumber.ltb (QNumber.lit 6 1) x = true ->
                   5 # 10 <= Qmin x (QNumber.lit 9 1) <= 9 # 10).
  { intros x Hx. apply Q_ltb_lt in Hx.
    change (QNumber.lit 6 1) with (6 # 10) in Hx.
    change (QNumber.lit 9 1) with (9 # 10).
    split; [apply Q.min_glb; lra|apply Q.le_min_r]. }
  unfold is_buy, check_confidence, MarketAnalyzer.analyze,
    MarketAnalyzer.analyzeMomentum, MarketAnalyzer.analyzeContrarian,
    MarketAnalyzer.analyzeValue, MarketAnalyzer.analyzeRandom,
    MarketAnalyzer.analyzeBalanced, gtb.
  cbn [TradingAgent.DEFAULT_CONFIG AgentConfig.minConfidence].
  exact_ops.
  destruct strategy;
    repeat match goal with
      | |- context [if ?c then _ else _] => destruct c eqn:?
      end;
    cbn [MarketAnalysis.market MarketAnalysis.signal MarketAnalysis.confidence
         MarketAnalysis.suggestedSize];
    (split; [reflexivity|]);
    (split; [auto|]);
    (split; [intros Hs; first [discriminate Hs | reflexivity]|]);
    intros [Hs|Hs]; try discriminate Hs;
    (split; [apply calculateSize_range|]);
    first [ split; [now apply Hmin|apply Hgate; now apply Hmin]
          | split; [split; discriminate|reflexivity] ].
Qed.

End Sizes.

Section Logs.
Variable unknown : Type.

(** X21. The agent keeps its last 100 log entries: after [log] the
    list holds at most 100 entries, it is the old list with the new
    entry at its end, less the oldest entries when there were 100 or
    more, and below 100 entries nothing is dropped.  [getLogs(count)]
    returns the last [count] of them in their order, and all of them
    for the count 0. *)
Theorem logs_keep_the_last_hundred (now : Date)
    (logs : list (TradingAgent.AgentLogEntry unknown)) (level : LogLevel)
    (message : string) (data : option unknown) (count : Z) :
  let entry :=
    TradingAgent.mk_entry now level message data in
  let logs' := TradingAgent.log now logs level message data in
  (List.length logs' <= 100)%nat
  /\ (exists dropped, dropped ++ logs' = logs ++ [entry])
  /\ ((List.length logs < 100)%nat -> logs' = logs ++ [entry])
  /\ ((0 < count)%Z ->
      TradingAgent.getLogs logs (Some count)
      = skipn (List.length logs - Z.to_nat count) logs)
  /\ TradingAgent.getLogs logs (Some 0%Z) = logs.
Proof.
  intros entry logs'. subst logs'. unfold TradingAgent.log, TradingAgent.getLogs.
  fold entry. set (all := logs ++ [entry]).
  assert (Hlen : List.length all = S (List.length logs)).
  { unfold all. rewrite length_app. simpl. lia. }
  assert (Hcut : slice (-100) None all = skipn (List.length all - 100) all).
  { exact (slice_tail 100 all ltac:(lia)). }
  rewrite Hcut.
  split; [|split; [|split; [|split]]].
  - destruct (Nat.ltb 100 (List.length all)) eqn:Hfull.
    + rewrite length_skipn. apply Nat.ltb_lt in Hfull. lia.
    + now apply Nat.ltb_ge in Hfull.
  - destruct (Nat.ltb 100 (List.length all)).
    + exists (firstn (List.length all - 100) all). apply firstn_skipn.
    + exists []. reflexivity.
  - intros Hshort. destruct (Nat.ltb 100 (List.length all)) eqn:Hfull;
      [apply Nat.ltb_lt in Hfull; lia|reflexivity].
  - intros Hc. rewrite slice_tail by lia.
    destruct (count =? 0)%Z eqn:Hz; [apply Z.eqb_eq in Hz; lia|reflexivity].
  - exact (slice_tail 0 logs ltac:(lia)).
Qed.

End Logs.

Section Ranking.
Context {P : Platform (N := QNum)}.
Local Open Scope Q_scope.

Lemma insert_sorted_perm (x : MarketAnalysis.t) (l : list MarketAnalysis.t) :
  Permutation (insert_sorted by_confidence x l) (x :: l).
Proof.
  induction l as [|y l IH]; simpl; [apply Permutation_refl|].
  destruct (QNumber.ltb (inject_Z 0) (by_confidence y x)); [apply Permutation_refl|].
  eapply Permutation_trans; [apply perm_skip, IH|apply perm_swap].
Qed.

Lemma sort_perm (l : list MarketAnalysis.t) :
  Permutation (array_sort by_confidence l) l.
Proof.
  unfold array_sort.
  assert (H : forall acc,
             Permutation
               (fold_left (fun sorted x => insert_sorted by_confidence x sorted) l acc)
               (l ++ acc)).
  { induction l as [|x l IH]; intros acc; simpl; [apply Permutation_refl|].
    eapply Permutation_trans; [apply IH|].
    eapply Permutation_trans;
      [apply Permutation_app_head, insert_sorted_perm|].
    apply Permutation_sym, Permutation_middle. }
  specialize (H []). now rewrite app_nil_r in H.
Qed.

Lemma insert_sorted_ranked (x : MarketAnalysis.t) (l : list MarketAnalysis.t) :
  StronglySorted outranks l ->
  StronglySorted outranks (insert_sorted by_confidence x l).
Proof.
  induction l as [|y l IH]; simpl; intros Hs.
  - constructor; constructor.
  - inversion Hs as [|? ? Hl Hy]; subst.
    destruct (QNumber.ltb (inject_Z 0) (by_confidence y x)) eqn:Hgt.
    + unfold by_confidence in Hgt. apply Q_ltb_lt in Hgt.
      constructor; [exact Hs|].
      constructor.
      * unfold outranks. change (inject_Z 0) with 0 in Hgt. lra.
      * eapply Forall_impl; [|exact Hy]. unfold outranks. intros z Hz.
        change (inject_Z 0) with 0 in Hgt. lra.
    + unfold by_confidence in Hgt. apply Q_ltb_ge in Hgt.
      constructor; [now apply IH|].
      apply (Permutation_Forall (Permutation_sym (insert_sorted_perm x l))).
      constructor; [|exact Hy].
      unfold outranks. change (inject_Z 0) with 0 in Hgt. lra.
Qed.

Lemma sort_ranked (l : list MarketAnalysis.t) :
  StronglySorted outranks (array_sort by_confidence l).
Proof.
  unfold array_sort.
  assert (H : forall acc,
             StronglySorted outranks acc ->
             StronglySorted outranks
               (fold_left (fun sorted x => insert_sorted by_confidence x sorted) l acc)).
  { induction l as [|x l IH]; intros acc Hacc; simpl; [exact Hacc|].
    apply IH. now apply insert_sorted_ranked. }
  apply H. constructor.
Qed.

Lemma ranked_app (l1 l2 : list MarketAnalysis.t) :
  StronglySorted outranks (l1 ++ l2) ->
  StronglySorted outranks l1
  /\ forall a b, In a l1 -> In b l2 -> outranks a b.
Proof.
  induction l1 as [|x l1 IH]; simpl; intros Hs.
  - split; [constructor|]. intros a b [].
  - inversion Hs as [|? ? Hrest Hx]; subst.
    destruct (IH Hrest) as [Hs1 Hcross]. split.
    + constructor; [exact Hs1|].
      apply Forall_app in Hx. tauto.
    + intros a b [<-|Ha] Hb.
      * apply Forall_app in Hx. destruct Hx as [_ Hx2].
        rewrite Forall_forall in Hx2. now apply Hx2.
      * now apply Hcross.
Qed.


End Ranking.

Section Exits.
Context {P : Platform (N := QNum)}.
Local Open Scope Q_scope.

Lemma positionSize_bounds (config : AgentConfig.t) (analysis : MarketAnalysis.t)
    (portfolio : PortfolioSummary.t) :
  let size := RiskManager.calculatePositionSize config analysis portfolio in
  size <= AgentConfig.maxPositionSize config
  /\ size <= PortfolioSummary.cash portfolio * (1 # 10)
  /\ size
     <= MarketAnalysis.suggestedSize analysis
        * (MarketAnalysis.confidence analysis * MarketAnalysis.confidence analysis).
Proof.
  unfold RiskManager.calculatePositionSize.
  change (QNumber.lit 1 1) with (1 # 10).
  set (scaled := MarketAnalysis.suggestedSize analysis
                 * MarketAnalysis.confidence analysis ^ 2).
  assert (E : scaled
              == MarketAnalysis.suggestedSize analysis
                 * (MarketAnalysis.confidence analysis
                    * MarketAnalysis.confidence analysis)).
  { unfold scaled. simpl. lra. }
  pose proof (Q.le_min_l (Qmin scaled (AgentConfig.maxPositionSize config))
                (PortfolioSummary.cash portfolio * (1 # 10))) as H1.
  pose proof (Q.le_min_r (Qmin scaled (AgentConfig.maxPositionSize config))
                (PortfolioSummary.cash portfolio * (1 # 10))) as H2.
  pose proof (Q.le_min_l scaled (AgentConfig.maxPositionSize config)) as H3.
  pose proof (Q.le_min_r scaled (AgentConfig.maxPositionSize config)) as H4.
  cbv zeta. repeat split; lra.
Qed.


Lemma fold_max_bounds (values : list Q) (start : Q) :
  start <= fold_left Qmax values start
  /\ Forall (fun v => v <= fold_left Qmax values start) values.
Proof.
  revert start. induction values as [|v values IH]; intros start; simpl.
  - split; [apply Qle_refl|constructor].
  - destruct (IH (Qmax start v)) as [Hs Hall].
    pose proof (Q.le_max_l start v). pose proof (Q.le_max_r start v).
    split; [lra|]. constructor; [lra|exact Hall].
Qed.


End Exits.

Section Decisions.
Context {P : Platform (N := QNum)}.
Local Open Scope Q_scope.

(** An order for infinitely many shares at the price 0 costs [NaN] in
    binary64, and no cash is [>= NaN]. *)
Lemma infinite_buy_rejected (P64 : Platform (N := F64Num)) (env : Env)
    (this : TradeExecutor.t (N := F64Num)) (order : OrderRequest.t (N := F64Num))
    (infinity zero : bool) :
  OrderRequest.side order = BUY ->
  OrderRequest.shares order = S754_infinity infinity ->
  OrderRequest.price order = S754_zero zero ->
  OrderResult.success (snd (TradeExecutor.execute env this order)) = false.
Proof.
  intros Hside Hshares Hprice.
  unfold TradeExecutor.execute, TradeExecutor.executeBuy,
    BalanceManager.canAfford, geb.
  rewrite Hside, Hshares, Hprice.
  change (@mul F64Num (S754_infinity infinity) (S754_zero zero)) with S754_nan.
  change (@mul F64Num S754_nan TradeExecutor.FEE_RATE) with S754_nan.
  change (@add F64Num S754_nan S754_nan) with S754_nan.
  change (@leb F64Num S754_nan ?c) with false.
  reflexivity.
Qed.


(** X27. The risk parameters of the levels 1 to 10: maxPositions runs
    from 8 to 35, positionSize from 100 to 550, and minConfidence stays
    between 0.19 and 0.66 (it falls from 0.65 to 0.20, up to the rounding
    of 0.7 - level * 0.05); a higher level never allows fewer positions,
    a smaller size or a higher confidence threshold; and the three flags
    are nested: aggressiveMode implies rebalanceEnabled, which implies
    dcaEnabled. *)
Theorem risk_levels_scale (level level' : Q) :
  let params := getRiskParams (N := QNum) level in
  let params' := getRiskParams (N := QNum) level' in
  (1 <= level <= 10 ->
   8 <= RiskParams.maxPositions params <= 35
   /\ 100 <= RiskParams.positionSize params <= 550
   /\ 19 # 100 < RiskParams.minConfidence params < 66 # 100)
  /\ (level <= level' ->
      RiskParams.maxPositions params <= RiskParams.maxPositions params'
      /\ RiskParams.positionSize params <= RiskParams.positionSize params'
      /\ RiskParams.minConfidence params' <= RiskParams.minConfidence params
      /\ (RiskParams.dcaEnabled params = true ->
          RiskParams.dcaEnabled params' = true))
  /\ (RiskParams.aggressiveMode params = true ->
      RiskParams.rebalanceEnabled params = true)
  /\ (RiskParams.rebalanceEnabled params = true ->
      RiskParams.dcaEnabled params = true).
Proof.
  unfold getRiskParams, geb. cbv zeta.
  cbn [RiskParams.maxPositions RiskParams.positionSize RiskParams.minConfidence
       RiskParams.dcaEnabled RiskParams.rebalanceEnabled RiskParams.aggressiveMode].
  exact_ops.
  change (inject_Z 5) with 5. change (inject_Z 3) with 3.
  change (inject_Z 50) with 50. change (inject_Z 7) with 7.
  change (inject_Z 8) with 8.
  change (QNumber.lit 7 1) with (7 # 10). change (QNumber.lit 5 2) with (5 # 100).
  split; [|split; [|split]].
  - intros [Hlo Hhi]. repeat split; lra.
  - intros Hle. repeat split; try lra.
    intros H. apply Qle_bool_iff in H. apply Qle_bool_iff. lra.
  - intros H. apply Qle_bool_iff in H. apply Qle_bool_iff. lra.
  - intros H. apply Qle_bool_iff in H. apply Qle_bool_iff. lra.
Qed.

End Decisions.

Section Lookups.
Context {P : Platform (N := QNum)}.
Local Open Scope Q_scope.

(** X29. Asking for a position and asking for its size agree: on a
    tracker whose positions all hold a positive number of shares,
    [hasPosition] is true exactly when [getPositionSize] is positive and
    exactly when [getPosition] finds a position, whose shares are that
    size; for a key that holds nothing the size is 0. *)
Theorem held_means_sized (this : PositionTracker.t) (marketId outcome : string) :
  Forall positive_shares (map snd this) ->
  (PositionTracker.hasPosition this marketId outcome = true
   <-> 0 < PositionTracker.getPositionSize this marketId outcome)
  /\ match PositionTracker.getPosition this marketId outcome with
     | Some p =>
         PositionTracker.hasPosition this marketId outcome = true
         /\ PositionTracker.getPositionSize this marketId outcome
            == Position.shares p
     | None =>
         PositionTracker.hasPosition this marketId outcome = false
         /\ PositionTracker.getPositionSize this marketId outcome == 0
     end.
Proof.
  intros Hall.
  unfold PositionTracker.hasPosition, PositionTracker.getPositionSize,
    PositionTracker.getPosition.
  destruct (PositionTracker.get (PositionTracker.key marketId outcome) this)
    as [p|] eqn:Hget.
  - pose proof (get_Forall _ positive_shares _ _ _ Hall Hget) as Hpos.
    unfold positive_shares in Hpos.
    pose proof (Q_or_zero (Position.shares p)) as Hz.
    split; [split; [intros _; lra|reflexivity]|].
    split; [reflexivity|exact Hz].
  - split; [split; [discriminate|]|split; reflexivity].
    intros H. exfalso. revert H. exact_ops. change (inject_Z 0) with 0. lra.
Qed.

End Lookups.

(* ================================================================== *)
(** * Closed instances of the further properties *)
(* ================================================================== *)

(** A buy of YES leaves the NO position of the same market as it is. *)
Lemma yes_order_leaves_no_position :
  PositionTracker.get "0xabc-NO"
    (TradeExecutor.positionTracker
       (fst (TradeExecutor.execute (P := Cases.plain) (Cases.env 4)
               Cases.two_sided (Cases.order "YES" BUY 100 (5 # 10)))))
  = PositionTracker.get "0xabc-NO" (TradeExecutor.positionTracker Cases.two_sided).
Proof.
  apply (order_touches_one_key (P := Cases.plain)).
  intros H. discriminate H.
Defined.

(** The two newest trades of the three in the history, newest first;
    after one more accepted buy the list starts with its trade. *)
Lemma recent_trades_of_two_sided :
  TradeExecutor.getRecentTrades Cases.two_sided (Some 2%Z)
  = firstn 2 (rev (TradeExecutor.history Cases.two_sided))
  /\ hd_error
       (TradeExecutor.getRecentTrades
          (fst (TradeExecutor.execute (P := Cases.plain) (Cases.env 4)
                  Cases.two_sided (Cases.order "YES" BUY 100 (5 # 10))))
          (Some 2%Z))
     = OrderResult.trade
         (snd (TradeExecutor.execute (P := Cases.plain) (Cases.env 4)
                 Cases.two_sided (Cases.order "YES" BUY 100 (5 # 10)))).
Proof.
  destruct (recent_trades_newest_first (P := Cases.plain) (Cases.env 4)
              Cases.two_sided (Cases.order "YES" BUY 100 (5 # 10)) 2)
    as (Hfirst & _ & _ & Hhead).
  split; [apply Hfirst; lia|].
  specialize (Hhead ltac:(lia)).
  destruct (TradeExecutor.execute (Cases.env 4) Cases.two_sided _)
    as [this' result] eqn:E.
  apply Hhead. apply (f_equal snd) in E. simpl in E. rewrite <- E. reflexivity.
Defined.

(** Equal keys of YES and NO positions come from equal markets. *)
Lemma key_of_yes_and_no :
  "0xabc"%string = "0xabc"%string /\ "YES"%string = "YES"%string.
Proof.
  destruct position_key_separates as (Hsep & _ & Hyes & _).
  apply Hsep; [exact Hyes|exact Hyes|reflexivity].
Defined.



(** No sell, no win rate; after scenario C the win rate is the count of
    winning sells over the one sell of the history. *)
Lemma win_rate_of_the_scenarios :
  TradeExecutor.getWinRate Cases.start = 0%Q
  /\ TradeExecutor.getWinRate Cases.after_C
     = ((TradeExecutor.getWinningTradesCount Cases.after_C
         / length_number (sells Cases.after_C)) * 100)%Q.
Proof.
  destruct (win_rate_is_a_percentage Cases.start) as (Hnone & _).
  destruct (win_rate_is_a_percentage Cases.after_C) as (_ & Hrate & _).
  split.
  - apply Hnone. reflexivity.
  - apply Hrate. intros H. discriminate H.
Defined.

(** Buying 1000 shares at 0.40 and selling them at 0.40 costs 0.80 and
    leaves no position. *)
Lemma round_trip_at_one_price :
  PositionTracker.get "0xabc-YES"
    (TradeExecutor.positionTracker
       (fst (TradeExecutor.execute (P := Cases.plain) (Cases.env 2)
               (fst (TradeExecutor.execute (P := Cases.plain) (Cases.env 1)
                       Cases.start (Cases.order "YES" BUY 1000 (4 # 10))))
               (sell_back (Cases.order "YES" BUY 1000 (4 # 10)) (4 # 10 : Q)))))
  = None
  /\ (cash_of
        (fst (TradeExecutor.execute (P := Cases.plain) (Cases.env 2)
                (fst (TradeExecutor.execute (P := Cases.plain) (Cases.env 1)
                        Cases.start (Cases.order "YES" BUY 1000 (4 # 10))))
                (sell_back (Cases.order "YES" BUY 1000 (4 # 10)) (4 # 10 : Q))))
      == 999992 # 10)%Q.
Proof.
  assert (Hafford : geb (cash_in Cases.start)
                      (totalWithFees (Cases.order "YES" BUY 1000 (4 # 10)))
                    = true) by reflexivity.
  pose proof (buy_then_sell_all (P := Cases.plain) (Cases.env 1) (Cases.env 2)
                Cases.start (Cases.order "YES" BUY 1000 (4 # 10)) (4 # 10 : Q)
                eq_refl eq_refl Hafford) as H.
  destruct (TradeExecutor.execute (Cases.env 1) Cases.start _) as [this1 bought].
  cbn [fst].
  destruct (TradeExecutor.execute (Cases.env 2) this1 _) as [this2 sold].
  destruct H as (_ & _ & _ & Hcash & Hgone).
  cbn [fst]. split; [apply Hgone; reflexivity|].
  unfold cash_of. change (VirtualBalance.cash (TradeExecutor.balanceManager this2))
    with (cash_in this2).
  rewrite Hcash. rational_constant.
Defined.

(** Closing the 1000 shares held at their mark 0.40 brings 399.60 and
    removes the position. *)
Lemma closing_the_holding :
  OrderResult.success
    (snd (TradeExecutor.execute (P := Cases.plain) (Cases.env 2) Cases.holding
            (TradingAgent.exit_order (Cases.open_position "YES" 1000 (4 # 10)))))
  = true
  /\ PositionTracker.get "0xabc-YES"
       (TradeExecutor.positionTracker
          (fst (TradeExecutor.execute (P := Cases.plain) (Cases.env 2)
                  Cases.holding
                  (TradingAgent.exit_order
                     (Cases.open_position "YES" 1000 (4 # 10))))))
     = None
  /\ (cash_of
        (fst (TradeExecutor.execute (P := Cases.plain) (Cases.env 2) Cases.holding
                (TradingAgent.exit_order
                   (Cases.open_position "YES" 1000 (4 # 10)))))
      == 1003996 # 10)%Q.
Proof.
  pose proof (exit_order_closes (P := Cases.plain) (Cases.env 2) Cases.holding
                (Cases.open_position "YES" 1000 (4 # 10)) eq_refl) as H.
  destruct (TradeExecutor.execute (Cases.env 2) Cases.holding _)
    as [this' result].
  destruct H as (Hs & Hcash & _ & _ & Hgone). split; [exact Hs|].
  cbn [fst]. split; [apply Hgone; reflexivity|].
  unfold cash_of. change (VirtualBalance.cash (TradeExecutor.balanceManager this'))
    with (cash_in this').
  rewrite Hcash. rational_constant.
Defined.

(** A buy of -1000 shares at 0.40 is accepted, credits 400.40 and opens
    a position of -1000 shares. *)
Lemma buy_of_minus_thousand :
  OrderResult.success
    (snd (TradeExecutor.execute (P := Cases.plain) (Cases.env 1) Cases.start
            (Cases.order "YES" BUY (-1000) (4 # 10))))
  = true
  /\ (cash_of
        (fst (TradeExecutor.execute (P := Cases.plain) (Cases.env 1) Cases.start
                (Cases.order "YES" BUY (-1000) (4 # 10))))
      == 1004004 # 10)%Q
  /\ exists p : Position.t,
       PositionTracker.get "0xabc-YES"
         (TradeExecutor.positionTracker
            (fst (TradeExecutor.execute (P := Cases.plain) (Cases.env 1)
                    Cases.start (Cases.order "YES" BUY (-1000) (4 # 10)))))
       = Some p
       /\ Position.shares p = (-1000)%Q.
Proof.
  assert (Hcost : ltb (totalWithFees (Cases.order "YES" BUY (-1000) (4 # 10)))
                    (0 : Q) = true) by reflexivity.
  assert (Hcash0 : leb (0 : Q) (cash_in Cases.start) = true) by reflexivity.
  pose proof (negative_buy_is_accepted (P := Cases.plain) (Cases.env 1)
                Cases.start (Cases.order "YES" BUY (-1000) (4 # 10)) eq_refl
                Hcost Hcash0) as H.
  destruct (TradeExecutor.execute (Cases.env 1) Cases.start _) as [this' result].
  destruct H as (Hs & Hcash & _ & Hopen).
  split; [exact Hs|]. cbn [fst]. split.
  - unfold cash_of.
    change (VirtualBalance.cash (TradeExecutor.balanceManager this'))
      with (cash_in this').
    rewrite Hcash. rational_constant.
  - apply Hopen. reflexivity.
Defined.

(** [new BalanceManager(0)] with no balance in the environment starts
    with 100000, and with the balance of the environment when there is
    one. *)
Lemma balance_of_zero :
  VirtualBalance.cash
    (BalanceManager.new (N := QNum) (Some 0%Q) 0%Q (ValidDate Cases.t0))
  = 100000%Q
  /\ VirtualBalance.cash
       (BalanceManager.new (N := QNum) (Some 0%Q) 5000%Q (ValidDate Cases.t0))
     = 5000%Q.
Proof.
  destruct balance_starts_funded as [Hexact _].
  destruct (Hexact (Some 0%Q) 0%Q (ValidDate Cases.t0))
    as (_ & _ & _ & _ & _ & Hdefault).
  destruct (Hexact (Some 0%Q) 5000%Q (ValidDate Cases.t0))
    as (_ & _ & _ & _ & Henv & _).
  split.
  - apply Hdefault; [right; exists 0%Q; split; reflexivity|reflexivity].
  - apply Henv; [right; exists 0%Q; split; reflexivity|].
    intros H. discriminate H.
Defined.

(** The portfolio with two positions, two buys and a sell comes back
    from its bundle into a fresh portfolio. *)
Lemma round_trip_of_the_bundle :
  PortfolioManager.restore (P := Cases.vault)
    (PortfolioManager.serialize (P := Cases.vault) Cases.two_sided)
    (PortfolioManager.to_heap Cases.start)
  = Normal (PortfolioManager.to_heap Cases.two_sided).
Proof.
  apply (portfolio_round_trip (P := Cases.vault));
    try (unfold Cases.two_sided;
         cbn [map snd fst TradeExecutor.positionTracker TradeExecutor.history
              TradeExecutor.balanceManager]);
    try (intros H; discriminate H); concrete_state.
Defined.

(** A strength of 0.1 suggests the size 50. *)
Lemma size_of_a_tenth :
  (MarketAnalyzer.calculateSize (1 # 10) == 50)%Q.
Proof.
  destruct (suggested_size_is_clamped (1 # 10)) as (_ & Hmid & _).
  eapply Qeq_trans; [apply Hmid; split; rational_constant|]. rational_constant.
Defined.

(** The value strategy on a market at 0.45 / 0.55 buys with a size and
    a confidence in range. *)
Lemma shape_of_a_value_signal :
  (10 <= MarketAnalysis.suggestedSize
           (MarketAnalyzer.analyze (P := Cases.plain) (0 : Q)
              (Cases.market (45 # 100) (55 # 100)) value) <= 500)%Q
  /\ check_confidence TradingAgent.DEFAULT_CONFIG
       (MarketAnalyzer.analyze (P := Cases.plain) (0 : Q)
          (Cases.market (45 # 100) (55 # 100)) value)
     = false.
Proof.
  destruct (analysis_shape (P := Cases.plain) 0
              (Cases.market (45 # 100) (55 # 100)) value) as (_ & _ & _ & Hbuy).
  destruct Hbuy as (Hsize & _ & Hgate); [left; reflexivity|].
  split; assumption.
Defined.

(** The first entry of a log; the last of two entries. *)
Lemma first_log_entry :
  TradingAgent.log (ValidDate Cases.t0) [] INFO "Agent stopped" (None : option unit)
  = [ TradingAgent.mk_entry (ValidDate Cases.t0) INFO "Agent stopped" None ]
  /\ TradingAgent.getLogs
       [ TradingAgent.mk_entry (ValidDate Cases.t0) INFO "Agent stopped"
           (None : option unit) ]
       (Some 1%Z)
     = [ TradingAgent.mk_entry (ValidDate Cases.t0) INFO "Agent stopped" None ].
Proof.
  destruct (logs_keep_the_last_hundred unit (ValidDate Cases.t0) [] INFO
              "Agent stopped" None 1) as (_ & _ & Hshort & _).
  destruct (logs_keep_the_last_hundred unit (ValidDate Cases.t0)
              [ TradingAgent.mk_entry (ValidDate Cases.t0) INFO "Agent stopped"
                  None ]
              INFO "Agent stopped" None 1) as (_ & _ & _ & Hlast & _).
  split.
  - apply Hshort. simpl. lia.
  - apply Hlast. lia.
Defined.






(** Level 5: 20 positions, trades of 300, confidence from 0.45; and no
    more cautious than level 8. *)
Lemma risk_of_level_five :
  ((8 <= RiskParams.maxPositions (getRiskParams (N := QNum) 5) <= 35)%Q
   /\ (100 <= RiskParams.positionSize (getRiskParams (N := QNum) 5) <= 550)%Q
   /\ (19 # 100 < RiskParams.minConfidence (getRiskParams (N := QNum) 5)
       < 66 # 100)%Q)
  /\ RiskParams.dcaEnabled (getRiskParams (N := QNum) 8) = true
  /\ RiskParams.rebalanceEnabled (getRiskParams (N := QNum) 8) = true.
Proof.
  destruct (risk_levels_scale 5 8) as (Hrange & Hscale & _ & _).
  destruct (risk_levels_scale 8 8) as (_ & _ & Hnested & _).
  split; [apply Hrange; split; rational_constant|].
  split.
  - apply Hscale; [rational_constant|reflexivity].
  - apply Hnested. reflexivity.
Defined.

(** The YES position of scenario B, and the NO side that holds nothing. *)
Lemma sizes_of_scenario_B :
  0 < PositionTracker.getPositionSize
        (TradeExecutor.positionTracker Cases.after_B) "0xabc" "YES"
  /\ PositionTracker.getPositionSize
       (TradeExecutor.positionTracker Cases.after_B) "0xabc" "NO" == 0.
Proof.
  assert (Hall : Forall positive_shares
                   (map snd (TradeExecutor.positionTracker Cases.after_B)))
    by (repeat constructor).
  split.
  - apply (held_means_sized _ "0xabc" "YES" Hall). reflexivity.
  - exact (proj2 (proj2 (held_means_sized
                           (TradeExecutor.positionTracker Cases.after_B)
                           "0xabc" "NO" Hall))).
Defined.
